(** * A shallow embedding of the protocol-translating gateway

    The development follows [src/config.py] and [src/server.py]:
    - [Config]    : [ConfigManager] (provider registry, aliases, debug log);
    - [Router]    : [MessagesRequest.validate_model_field];
    - [Schema]    : [clean_gemini_schema];
    - [Request]   : [convert_anthropic_to_litellm];
    - [Response]  : [convert_litellm_to_anthropic];
    - [Stream]    : [handle_streaming];
    - [Forward]   : the header handling of [forward_to_anthropic].

    Python values are modelled as follows: [str] is [string] (tokens are
    taken to be ASCII, so [str.lower] is the ASCII lowering), [int] is [Z],
    a [dict] whose iteration order matters is an association list with
    first-match lookup, a [dict] used as a finite map is a [gmap], an
    exception is the [Err] branch of [result]. *)

From Stdlib Require Import ZArith List String Ascii Bool Lia.
From stdpp Require Import gmap strings.
Import ListNotations.
Local Open Scope string_scope.
Local Open Scope Z_scope.
Local Open Scope list_scope.

(** ** Exceptions and fallible computations *)

Inductive exn : Type :=
| KeyError (key : string)
| TypeError (msg : string)
| AttributeError (msg : string)
| IndexError (msg : string)
| ValidationError (msg : string).

(** [str(e)] *)
Definition exn_message (e : exn) : string :=
  match e with
  | KeyError k => k
  | TypeError m | AttributeError m | IndexError m | ValidationError m => m
  end.

Inductive result (A : Type) : Type :=
| Ok (a : A)
| Err (e : exn).
Arguments Ok {A} a.
Arguments Err {A} e.

Definition bind {A B : Type} (r : result A) (k : A -> result B) : result B :=
  match r with
  | Ok a => k a
  | Err e => Err e
  end.

Notation "'try' x <- c1 'in' c2" := (bind c1 (fun x => c2))
  (at level 10, x name, c1 at level 100, c2 at level 200).

Lemma bind_ok {A B : Type} (r : result A) (k : A -> result B) (b : B) :
  bind r k = Ok b -> exists a, r = Ok a /\ k a = Ok b.
Proof. destruct r as [a|e]; simpl; intros H; [eauto | discriminate H]. Qed.

(** Inversion of a chain of binds that ends in [Ok] *)
Ltac bind_inv H :=
  let a := fresh "a" in
  let Ha := fresh "Ha" in
  apply bind_ok in H; destruct H as [a [Ha H]].

(** Splitting of a chain of conjunctions, and of nothing else *)
Ltac conjs := repeat match goal with |- _ /\ _ => split end.

(** ** Strings *)

Module Str.

(** [s.startswith(p)] *)
Definition startswith (p s : string) : bool := String.prefix p s.

(** [s[n:]] *)
Fixpoint drop (n : nat) (s : string) : string :=
  match n, s with
  | O, _ => s
  | S n', String _ t => drop n' t
  | S _, EmptyString => EmptyString
  end.

(** [needle in hay] *)
Fixpoint contains (needle hay : string) : bool :=
  match hay with
  | EmptyString => String.prefix needle EmptyString
  | String _ t => String.prefix needle hay || contains needle t
  end.

Definition lower_ascii (c : ascii) : ascii :=
  let n := nat_of_ascii c in
  if (Nat.leb 65 n && Nat.leb n 90)%bool then ascii_of_nat (n + 32) else c.

(** [s.lower()] on ASCII text *)
Fixpoint lower (s : string) : string :=
  match s with
  | EmptyString => EmptyString
  | String c t => String (lower_ascii c) (lower t)
  end.

Definition is_empty (s : string) : bool :=
  match s with EmptyString => true | _ => false end.

(** Python truthiness of an optional string: [None] and [""] are falsy. *)
Definition truthy (o : option string) : bool :=
  match o with
  | Some s => negb (is_empty s)
  | None => false
  end.

Definition mem (s : string) (l : list string) : bool :=
  existsb (String.eqb s) l.

End Str.

(** ** JSON values, as produced by [json.loads] *)

#[warnings="-register-all"]
Inductive json : Type :=
| JNull
| JBool (b : bool)
| JInt (z : Z)
| JFloat (repr : string)
| JStr (s : string)
| JArr (items : list json)
| JObj (fields : list (string * json)).

Module Dict.

(** [d.get(k)] / [d[k]] on an insertion-ordered dictionary *)
Fixpoint get {V : Type} (k : string) (d : list (string * V)) : option V :=
  match d with
  | [] => None
  | (k', v) :: t => if String.eqb k k' then Some v else get k t
  end.

(** [k in d] *)
Definition has {V : Type} (k : string) (d : list (string * V)) : bool :=
  match get k d with Some _ => true | None => false end.

(** [d.pop(k, None)], keeping the order of the other entries *)
Definition pop {V : Type} (k : string) (d : list (string * V)) : list (string * V) :=
  List.filter (fun kv => negb (String.eqb k (fst kv))) d.

Definition keys {V : Type} (d : list (string * V)) : list string := List.map fst d.

End Dict.

(** [lst[-n:]] *)
Definition slice_last {A : Type} (n : nat) (l : list A) : list A :=
  match n with
  | O => l
  | _ => skipn (List.length l - n) l
  end.
Arguments slice_last : simpl never.

(** ** [config.py] *)

Module Config.

Record ProviderConfig : Type := {
  name : string;
  base_url : string;
  api_key_env : string;
  api_format : string;
  endpoint : string;
  api_key : option string;
  models : list string
}.

(** [ProviderConfig.is_available] *)
Definition is_available (p : ProviderConfig) : bool := Str.truthy (api_key p).

Record Preset : Type := {
  preset_name : string;
  preset_big_model : string;
  preset_small_model : string
}.

Record LogEntry : Type := {
  timestamp : string;
  log_type : string;
  message : string;
  details : json
}.

(** The [current_config] dictionary: its four keys are fixed in [__init__]. *)
Record CurrentConfig : Type := {
  proxy_enabled : bool;
  big_model : option string;
  small_model : option string;
  current_preset : option string
}.

Record ConfigManager : Type := {
  providers : list (string * ProviderConfig);
  presets : list (string * Preset);
  debug_logs : list LogEntry;
  max_debug_logs : nat;
  current_config : CurrentConfig
}.

(** [find_model_provider] *)
Fixpoint find_in_providers (ps : list (string * ProviderConfig)) (model_name : string)
  : option string :=
  match ps with
  | [] => None
  | (provider_name, provider) :: t =>
      if Str.mem model_name (models provider) then Some provider_name
      else find_in_providers t model_name
  end.

Definition find_model_provider (cm : ConfigManager) (model_name : string) : option string :=
  find_in_providers (providers cm) model_name.

(** [validate_model]: [providers[provider_name]] cannot fail, the name was
    just found among the keys. *)
Definition validate_model (cm : ConfigManager) (model_name : string) : bool :=
  match find_model_provider cm model_name with
  | None => false
  | Some provider_name =>
      if Str.is_empty provider_name then false
      else match Dict.get provider_name (providers cm) with
           | Some p => is_available p
           | None => false
           end
  end.

Definition set_debug_logs (cm : ConfigManager) (logs : list LogEntry) : ConfigManager :=
  {| providers := providers cm; presets := presets cm; debug_logs := logs;
     max_debug_logs := max_debug_logs cm; current_config := current_config cm |}.

Definition set_current_config (cm : ConfigManager) (c : CurrentConfig) : ConfigManager :=
  {| providers := providers cm; presets := presets cm; debug_logs := debug_logs cm;
     max_debug_logs := max_debug_logs cm; current_config := c |}.

(** [details or {}] for the optional dictionary of [add_debug_log]: [None]
    and the empty dictionary both give the empty dictionary. *)
Definition or_empty (details : option (list (string * json))) : json :=
  match details with
  | Some (kv :: rest) => JObj (kv :: rest)
  | Some [] | None => JObj []
  end.

(** [add_debug_log]; [now] is [datetime.now().isoformat()]. *)
Definition add_debug_log (cm : ConfigManager) (now : string)
    (log_type message : string) (details : option (list (string * json)))
  : ConfigManager :=
  let log_entry := {| timestamp := now; log_type := log_type;
                      message := message; details := or_empty details |} in
  let logs := debug_logs cm ++ [log_entry] in
  if Nat.ltb (max_debug_logs cm) (List.length logs)
  then set_debug_logs cm (slice_last (max_debug_logs cm) logs)
  else set_debug_logs cm logs.

(** [clear_debug_logs] *)
Definition clear_debug_logs (cm : ConfigManager) : ConfigManager :=
  set_debug_logs cm [].

Definition opt_json (o : option string) : json :=
  match o with Some s => JStr s | None => JNull end.

(** [apply_preset] *)
Definition apply_preset (cm : ConfigManager) (now : string) (preset_name : string)
  : ConfigManager * bool :=
  match Dict.get preset_name (presets cm) with
  | None => (cm, false)
  | Some preset =>
      if negb (validate_model cm (preset_big_model preset)) then (cm, false)
      else if negb (validate_model cm (preset_small_model preset)) then (cm, false)
      else
        let old_config := current_config cm in
        let cm1 := set_current_config cm
          {| proxy_enabled := proxy_enabled old_config;
             big_model := Some (preset_big_model preset);
             small_model := Some (preset_small_model preset);
             current_preset := Some preset_name |} in
        (add_debug_log cm1 now "config" ("Applied preset: " +:+ preset_name)
           (Some [("preset_name", JStr preset_name);
                  ("old_big_model", opt_json (big_model old_config));
                  ("old_small_model", opt_json (small_model old_config));
                  ("new_big_model", JStr (preset_big_model preset));
                  ("new_small_model", JStr (preset_small_model preset))]),
         true)
  end.

(** [set_models] *)
Definition set_models (cm : ConfigManager) (now : string) (big small : string)
  : ConfigManager * bool :=
  if (negb (validate_model cm big) || negb (validate_model cm small))%bool then (cm, false)
  else
    let old_config := current_config cm in
    let cm1 := set_current_config cm
      {| proxy_enabled := proxy_enabled old_config;
         big_model := Some big;
         small_model := Some small;
         current_preset := None |} in
    (add_debug_log cm1 now "config" "Manual model configuration"
       (Some [("old_big_model", opt_json (big_model old_config));
              ("old_small_model", opt_json (small_model old_config));
              ("new_big_model", JStr big);
              ("new_small_model", JStr small)]),
     true).

(** [toggle_proxy] *)
Definition toggle_proxy (cm : ConfigManager) : ConfigManager * bool :=
  let c := current_config cm in
  let b := negb (proxy_enabled c) in
  (set_current_config cm
     {| proxy_enabled := b; big_model := big_model c;
        small_model := small_model c; current_preset := current_preset c |}, b).

(** [_load_default_preset] *)
Definition load_default_preset (cm : ConfigManager) : ConfigManager :=
  match Dict.get "default" (presets cm) with
  | Some preset =>
      if (validate_model cm (preset_big_model preset)
          && validate_model cm (preset_small_model preset))%bool
      then set_current_config cm
             {| proxy_enabled := proxy_enabled (current_config cm);
                big_model := Some (preset_big_model preset);
                small_model := Some (preset_small_model preset);
                current_preset := Some "default" |}
      else cm
  | None => cm
  end.

(** [ConfigManager.__init__], from the providers and presets that were loaded *)
Definition init (ps : list (string * ProviderConfig)) (pr : list (string * Preset))
  : ConfigManager :=
  load_default_preset
    {| providers := ps; presets := pr; debug_logs := []; max_debug_logs := 50;
       current_config := {| proxy_enabled := true; big_model := None;
                            small_model := None; current_preset := None |} |}.

(** Values stored in the dictionary that [get_status] returns *)
#[warnings="-register-all"]
Inductive pyval : Type :=
| PyNone
| PyBool (b : bool)
| PyInt (z : Z)
| PyStr (s : string)
| PyList (l : list pyval).

Definition opt_py (o : option string) : pyval :=
  match o with Some s => PyStr s | None => PyNone end.

(** [get_available_providers] *)
Definition get_available_providers (cm : ConfigManager) : list (string * ProviderConfig) :=
  List.filter (fun kv => is_available (snd kv)) (providers cm).

Definition count_models (ps : list (string * ProviderConfig)) : Z :=
  fold_right (fun kv acc => Z.of_nat (List.length (models (snd kv))) + acc) 0 ps.

(** [get_status] *)
Definition get_status (cm : ConfigManager) : gmap string pyval :=
  let available_providers := List.map (fun kv => PyStr (fst kv)) (get_available_providers cm) in
  <["proxy_enabled" := PyBool (proxy_enabled (current_config cm))]>
  (<["big_model" := opt_py (big_model (current_config cm))]>
  (<["small_model" := opt_py (small_model (current_config cm))]>
  (<["current_preset" := opt_py (current_preset (current_config cm))]>
  (<["available_providers" := PyList available_providers]>
  (<["total_models" := PyInt (count_models (providers cm))]>
  (<["available_models" := PyInt (count_models (get_available_providers cm))]> ∅)))))).

(** The operations of the manager that a caller can invoke *)
Inductive op : Type :=
| OpAddDebugLog (now log_type message : string) (details : option (list (string * json)))
| OpClearDebugLogs
| OpApplyPreset (now preset_name : string)
| OpSetModels (now big small : string)
| OpToggleProxy.

Definition step (cm : ConfigManager) (o : op) : ConfigManager :=
  match o with
  | OpAddDebugLog now ty msg d => add_debug_log cm now ty msg d
  | OpClearDebugLogs => clear_debug_logs cm
  | OpApplyPreset now p => fst (apply_preset cm now p)
  | OpSetModels now b s => fst (set_models cm now b s)
  | OpToggleProxy => fst (toggle_proxy cm)
  end.

Definition run (cm : ConfigManager) (ops : list op) : ConfigManager :=
  fold_left step ops cm.

(** The bound on the debug log store *)
Definition bounded (cm : ConfigManager) : Prop :=
  max_debug_logs cm = 50%nat /\ (List.length (debug_logs cm) <= 50)%nat.

End Config.

(** ** [server.py]: model routing *)

Module Router.

Import Config.

Definition OPENAI_MODELS : list string :=
  [ "o3-mini"; "o1"; "o1-mini"; "o1-pro"; "o1-preview";
    "gpt-4o"; "gpt-4o-2024-11-20"; "gpt-4o-2024-08-06"; "gpt-4o-2024-05-13";
    "gpt-4o-mini"; "gpt-4o-mini-2024-07-18"; "gpt-4o-audio-preview";
    "gpt-4o-realtime-preview"; "chatgpt-4o-latest";
    "gpt-4-turbo"; "gpt-4-turbo-2024-04-09"; "gpt-4-turbo-preview";
    "gpt-4-0125-preview"; "gpt-4-1106-preview";
    "gpt-4"; "gpt-4-0613"; "gpt-4-0314";
    "gpt-3.5-turbo"; "gpt-3.5-turbo-0125"; "gpt-3.5-turbo-1106"; "gpt-3.5-turbo-16k";
    "gpt-4.5-preview"; "gpt-4.1"; "gpt-4.1-mini"; "gpt-4o-mini-audio-preview" ].

Definition GEMINI_MODELS : list string :=
  [ "gemini-2.0-flash-exp"; "gemini-2.0-flash-thinking-exp"; "gemini-2.0-flash";
    "gemini-1.5-pro"; "gemini-1.5-pro-002"; "gemini-1.5-pro-001";
    "gemini-1.5-pro-exp-0827"; "gemini-1.5-flash"; "gemini-1.5-flash-002";
    "gemini-1.5-flash-001"; "gemini-1.5-flash-8b";
    "gemini-1.0-pro"; "gemini-1.0-pro-001"; "gemini-1.0-pro-latest";
    "gemini-exp-1114"; "gemini-exp-1121";
    "gemini-2.5-flash"; "gemini-2.5-pro" ].

Definition ANTHROPIC_MODELS : list string :=
  [ "claude-3-5-sonnet-20241022"; "claude-3-5-sonnet-20240620";
    "claude-3-5-haiku-20241022";
    "claude-3-opus-20240229"; "claude-3-sonnet-20240229"; "claude-3-haiku-20240307";
    "claude-2.1"; "claude-2.0"; "claude-instant-1.2" ].

(** [current_config[key]] on the dictionary returned by [get_status] *)
Definition getitem (d : gmap string pyval) (key : string) : result pyval :=
  match d !! key with
  | Some x => Ok x
  | None => Err (KeyError key)
  end.

(** The removal of a provider prefix at the head of the validator *)
Definition strip_provider_prefix (v : string) : string :=
  if Str.startswith "anthropic/" v then Str.drop 10 v
  else if Str.startswith "openai/" v then Str.drop 7 v
  else if Str.startswith "gemini/" v then Str.drop 7 v
  else v.

(** The alias that a (prefix-stripped) name selects, by keyword *)
Inductive alias : Type := Super | Small | Big.

Definition keyword_alias (clean_v : string) : option alias :=
  if Str.contains "opus" (Str.lower clean_v) then Some Super
  else if Str.contains "haiku" (Str.lower clean_v) then Some Small
  else if Str.contains "sonnet" (Str.lower clean_v) then Some Big
  else None.

(** The body of [validate_model_field] once the three aliases were read:
    [new_model] and [mapped] are threaded as in the source. *)
Definition map_model (super_model big_model small_model : pyval) (v : string) : pyval :=
  let clean_v := strip_provider_prefix v in
  let '(new_model, mapped) :=
    if Str.contains "opus" (Str.lower clean_v) then (super_model, true)
    else if Str.contains "haiku" (Str.lower clean_v) then (small_model, true)
    else if Str.contains "sonnet" (Str.lower clean_v) then (big_model, true)
    else if (Str.mem clean_v ANTHROPIC_MODELS && negb (Str.startswith "anthropic/" v))%bool
      then (PyStr ("anthropic/" +:+ clean_v), true)
    else if (Str.mem clean_v GEMINI_MODELS && negb (Str.startswith "gemini/" v))%bool
      then (PyStr ("gemini/" +:+ clean_v), true)
    else if (Str.mem clean_v OPENAI_MODELS && negb (Str.startswith "openai/" v))%bool
      then (PyStr ("openai/" +:+ clean_v), true)
    else (PyStr v, false) in
  if mapped then new_model else PyStr v.

(** [MessagesRequest.validate_model_field], as a function of the dictionary
    that [global_config.get_status()] returned *)
Definition validate_model_field (status : gmap string pyval) (v : string) : result pyval :=
  try super_model <- getitem status "super_model" in
  try big_model <- getitem status "big_model" in
  try small_model <- getitem status "small_model" in
  Ok (map_model super_model big_model small_model v).

(** Routing of an inbound token against the process-wide manager *)
Definition route (cm : ConfigManager) (v : string) : result pyval :=
  validate_model_field (get_status cm) v.

(** The current value of an alias *)
Definition alias_value (a : alias) (super_model big_model small_model : pyval) : pyval :=
  match a with
  | Super => super_model
  | Small => small_model
  | Big => big_model
  end.

End Router.

(** ** [server.py]: the Gemini schema cleaner *)

Module Schema.

(** Only strings are among [allowed_formats]; the membership test hashes its
    left operand, and a list or a dictionary has no hash. *)
Definition hashable (j : json) : bool :=
  match j with
  | JArr _ | JObj _ => false
  | _ => true
  end.

Definition allowed_format (j : json) : bool :=
  match j with
  | JStr s => (String.eqb s "enum" || String.eqb s "date-time")%bool
  | _ => false
  end.

Definition is_string_type (fields : list (string * json)) : bool :=
  match Dict.get "type" fields with
  | Some (JStr s) => String.eqb s "string"
  | _ => false
  end.

(** Whether the [format] entry is popped; [schema["format"] not in allowed_formats]
    raises on an unhashable value. *)
Definition unsupported_format (fields : list (string * json)) : result bool :=
  if is_string_type fields then
    match Dict.get "format" fields with
    | Some f =>
        if hashable f then Ok (negb (allowed_format f))
        else Err (TypeError "unhashable type")
    | None => Ok false
    end
  else Ok false.

(** The keys that are gone when the loop over [schema.items()] starts *)
Definition popped (drop_format : bool) (key : string) : bool :=
  (String.eqb "additionalProperties" key || String.eqb "default" key
   || (drop_format && String.eqb "format" key))%bool.

(** [clean_gemini_schema]. The loop runs over the entries that survived the
    pops; the entries are visited in order and the first failure aborts. *)
Fixpoint clean_gemini_schema (schema : json) : result json :=
  match schema with
  | JObj fields =>
      try drop_format <- unsupported_format fields in
      try cleaned <-
        (fix clean_fields (kvs : list (string * json)) : result (list (string * json)) :=
           match kvs with
           | [] => Ok []
           | (key, value) :: rest =>
               if popped drop_format key then clean_fields rest
               else
                 try value' <- clean_gemini_schema value in
                 try rest' <- clean_fields rest in
                 Ok ((key, value') :: rest')
           end) fields in
      Ok (JObj cleaned)
  | JArr items =>
      try cleaned <-
        (fix clean_items (l : list json) : result (list json) :=
           match l with
           | [] => Ok []
           | item :: rest =>
               try item' <- clean_gemini_schema item in
               try rest' <- clean_items rest in
               Ok (item' :: rest')
           end) items in
      Ok (JArr cleaned)
  | _ => Ok schema
  end.

(** The two inner loops, named *)
Fixpoint clean_fields (drop_format : bool) (kvs : list (string * json))
  : result (list (string * json)) :=
  match kvs with
  | [] => Ok []
  | (key, value) :: rest =>
      if popped drop_format key then clean_fields drop_format rest
      else
        try value' <- clean_gemini_schema value in
        try rest' <- clean_fields drop_format rest in
        Ok ((key, value') :: rest')
  end.

Fixpoint clean_items (l : list json) : result (list json) :=
  match l with
  | [] => Ok []
  | item :: rest =>
      try item' <- clean_gemini_schema item in
      try rest' <- clean_items rest in
      Ok (item' :: rest')
  end.

(** The entries of a dictionary after the pops at the head of the function *)
Definition after_pops (drop_format : bool) (fields : list (string * json))
  : list (string * json) :=
  let fields1 := Dict.pop "default" (Dict.pop "additionalProperties" fields) in
  if drop_format then Dict.pop "format" fields1 else fields1.

(** *** Properties of a cleaned schema, stated on values *)

(** No dictionary at any depth carries a banned key. *)
Fixpoint gemini_safe (j : json) : bool :=
  match j with
  | JObj fields =>
      (negb (Dict.has "additionalProperties" fields)
       && negb (Dict.has "default" fields)
       && (if is_string_type fields
           then match Dict.get "format" fields with
                | Some f => allowed_format f
                | None => true
                end
           else true)
       && (fix all_fields (kvs : list (string * json)) : bool :=
             match kvs with
             | [] => true
             | (_, value) :: rest => gemini_safe value && all_fields rest
             end) fields)%bool
  | JArr items =>
      (fix all_items (l : list json) : bool :=
         match l with
         | [] => true
         | item :: rest => gemini_safe item && all_items rest
         end) items
  | _ => true
  end.

(** Whether the pops remove the [format] entry of a dictionary *)
Definition format_dropped (fields : list (string * json)) : bool :=
  (is_string_type fields
   && match Dict.get "format" fields with
      | Some f => negb (allowed_format f)
      | None => false
      end)%bool.

(** [preserved j j']: [j'] is [j] in which every dictionary lost its
    [additionalProperties] and [default] entries, and its [format] entry when
    the dictionary has type [string] and the format is not an allowed one;
    every other entry stays, in order, and scalars are equal. *)
Inductive preserved : json -> json -> Prop :=
| preserved_null : preserved JNull JNull
| preserved_bool b : preserved (JBool b) (JBool b)
| preserved_int z : preserved (JInt z) (JInt z)
| preserved_float r : preserved (JFloat r) (JFloat r)
| preserved_str s : preserved (JStr s) (JStr s)
| preserved_arr l l' : preserved_items l l' -> preserved (JArr l) (JArr l')
| preserved_obj f f' :
    preserved_fields (format_dropped f) f f' -> preserved (JObj f) (JObj f')
with preserved_items : list json -> list json -> Prop :=
| preserved_items_nil : preserved_items [] []
| preserved_items_cons x x' l l' :
    preserved x x' -> preserved_items l l' -> preserved_items (x :: l) (x' :: l')
with preserved_fields : bool -> list (string * json) -> list (string * json) -> Prop :=
| preserved_nil df : preserved_fields df [] []
| preserved_keep df k v v' f f' :
    popped df k = false ->
    preserved v v' -> preserved_fields df f f' ->
    preserved_fields df ((k, v) :: f) ((k, v') :: f')
| preserved_drop df k v f f' :
    popped df k = true ->
    preserved_fields df f f' ->
    preserved_fields df ((k, v) :: f) f'.

(** Every dictionary of type [string] has a format, if any, that can be hashed. *)
Fixpoint formats_hashable (j : json) : bool :=
  match j with
  | JObj fields =>
      ((if is_string_type fields
        then match Dict.get "format" fields with
             | Some f => hashable f
             | None => true
             end
        else true)
       && (fix all_fields (kvs : list (string * json)) : bool :=
             match kvs with
             | [] => true
             | (_, value) :: rest => formats_hashable value && all_fields rest
             end) fields)%bool
  | JArr items =>
      (fix all_items (l : list json) : bool :=
         match l with
         | [] => true
         | item :: rest => formats_hashable item && all_items rest
         end) items
  | _ => true
  end.

Definition str_of (j : json) : option string :=
  match j with JStr s => Some s | _ => None end.

End Schema.

(** ** [server.py]: the request translator *)

Module Request.

Inductive Role : Type := User | Assistant.

Definition role_name (r : Role) : string :=
  match r with User => "user" | Assistant => "assistant" end.

(** The content blocks admitted by [Message.content] *)
Inductive ContentBlock : Type :=
| ContentBlockText (text : string)
| ContentBlockImage (source : json)
| ContentBlockToolUse (id name : string) (input : json)
| ContentBlockToolResult (tool_use_id : string) (content : json).

Inductive MessageContent : Type :=
| ContentStr (s : string)
| ContentBlocks (blocks : list ContentBlock).

Record Message : Type := {
  role : Role;
  content : MessageContent
}.

Record Tool : Type := {
  tool_name : string;
  tool_description : option string;
  input_schema : list (string * json)
}.

(** [system]: a string or a list of [SystemContent] text blocks *)
Inductive SystemPrompt : Type :=
| SystemStr (s : string)
| SystemBlocks (texts : list string).

(** [MessagesRequest]. A float is kept as its literal; [top_p], a float whose
    truth value is tested, is left out of the model. *)
Record MessagesRequest : Type := {
  model : string;
  max_tokens : Z;
  messages : list Message;
  system : option SystemPrompt;
  stop_sequences : option (list string);
  stream : option bool;
  temperature : option string;
  top_k : option Z;
  tools : option (list Tool);
  tool_choice : option (list (string * json));
  thinking : option bool
}.

(** The messages of the LiteLLM request are dictionaries with these keys. *)
Inductive Part : Type :=
| PartText (text : string)
| PartImage (source : json).

Inductive BackendContent : Type :=
| BStr (s : string)
| BParts (parts : list Part)
| BJson (j : json).

Record ToolCall : Type := {
  call_id : string;
  call_name : string;
  call_arguments : string
}.

Record BackendMessage : Type := {
  b_role : string;
  b_content : option BackendContent;
  b_tool_call_id : option string;
  b_tool_calls : option (list ToolCall)
}.

Record BackendTool : Type := {
  fn_name : string;
  fn_description : option string;
  fn_parameters : json
}.

Inductive BackendToolChoice : Type :=
| ChoiceAuto
| ChoiceAny
| ChoiceFunction (name : json).

Record LiteLLMRequest : Type := {
  l_model : string;
  l_messages : list BackendMessage;
  l_max_tokens : Z;
  l_temperature : option string;
  l_stream : option bool;
  l_thinking : option bool;
  l_stop : option (list string);
  l_top_k : option Z;
  l_tools : option (list BackendTool);
  l_tool_choice : option BackendToolChoice
}.

(** White space of [str.strip] among the ASCII characters *)
Definition is_space (c : ascii) : bool :=
  let n := nat_of_ascii c in
  ((Nat.leb 9 n && Nat.leb n 13) || (Nat.leb 28 n && Nat.leb n 32))%bool.

Fixpoint lstrip (s : string) : string :=
  match s with
  | String c t => if is_space c then lstrip t else s
  | EmptyString => EmptyString
  end.

Fixpoint rstrip (s : string) : string :=
  match s with
  | String c t =>
      match rstrip t with
      | EmptyString => if is_space c then EmptyString else String c EmptyString
      | t' => String c t'
      end
  | EmptyString => EmptyString
  end.

Definition strip (s : string) : string := rstrip (lstrip s).

Definition is_tool_result (b : ContentBlock) : bool :=
  match b with ContentBlockToolResult _ _ => true | _ => false end.

Definition is_tool_use (b : ContentBlock) : bool :=
  match b with ContentBlockToolUse _ _ _ => true | _ => false end.

Definition of_json (j : json) : BackendContent :=
  match j with JStr s => BStr s | _ => BJson j end.

Section Serialisers.

(** [json.dumps] and [str] on values that came out of [json.loads] *)
Variable json_dumps : json -> string.
Variable py_str : json -> string.

(** [item.get("text", "") + "\n"]: the sum fails on a value that is no string. *)
Definition text_line (item : list (string * json)) : result string :=
  match Dict.get "text" item with
  | None => Ok ("" +:+ "
")
  | Some (JStr s) => Ok (s +:+ "
")
  | Some _ => Err (TypeError "can only concatenate str")
  end.

Definition has_text_type (d : list (string * json)) : bool :=
  match Dict.get "type" d with
  | Some (JStr s) => String.eqb s "text"
  | _ => false
  end.

(** One turn of the loop of [parse_tool_result_content] over a list *)
Definition parse_item (item : json) : result string :=
  match item with
  | JObj d =>
      if has_text_type d then text_line d
      else if Dict.has "text" d then text_line d
      else Ok (json_dumps item +:+ "
")
  | JStr s => Ok (s +:+ "
")
  | _ => Ok (py_str item +:+ "
")
  end.

Fixpoint parse_items (result_so_far : string) (items : list json) : result string :=
  match items with
  | [] => Ok result_so_far
  | item :: rest =>
      try line <- parse_item item in
      parse_items (result_so_far +:+ line) rest
  end.

(** [parse_tool_result_content] *)
Definition parse_tool_result_content (content : json) : result json :=
  match content with
  | JNull => Ok (JStr "No content provided")
  | JStr s => Ok (JStr s)
  | JArr items =>
      try r <- parse_items "" items in
      Ok (JStr (strip r))
  | JObj d =>
      if has_text_type d then
        match Dict.get "text" d with
        | Some t => Ok t
        | None => Ok (JStr "")
        end
      else Ok (JStr (json_dumps content))
  | _ => Ok (JStr (py_str content))
  end.

Definition plain (role content : string) : BackendMessage :=
  {| b_role := role; b_content := Some (BStr content);
     b_tool_call_id := None; b_tool_calls := None |}.

(** The system message, when there is one *)
Definition system_messages (s : option SystemPrompt) : list BackendMessage :=
  match s with
  | None => []
  | Some (SystemStr text) =>
      if Str.is_empty text then [] else [plain "system" text]
  | Some (SystemBlocks texts) =>
      match texts with
      | [] => []
      | _ =>
          let system_text :=
            fold_left (fun acc t => acc +:+ t +:+ "

") texts "" in
          if Str.is_empty system_text then []
          else [plain "system" (strip system_text)]
      end
  end.

(** A user message that carries a [tool_result] block *)
Fixpoint tool_result_messages (blocks : list ContentBlock) : result (list BackendMessage) :=
  match blocks with
  | [] => Ok []
  | block :: rest =>
      match block with
      | ContentBlockToolResult tool_use_id c =>
          try parsed <- parse_tool_result_content c in
          try rest' <- tool_result_messages rest in
          Ok ({| b_role := "tool"; b_content := Some (of_json parsed);
                 b_tool_call_id := Some tool_use_id; b_tool_calls := None |} :: rest')
      | ContentBlockText text =>
          if Str.is_empty (strip text) then tool_result_messages rest
          else
            try rest' <- tool_result_messages rest in
            Ok (plain "user" text :: rest')
      | _ => tool_result_messages rest
      end
  end.

(** An assistant message that carries a [tool_use] block *)
Fixpoint collect_tool_calls (blocks : list ContentBlock) : list ToolCall :=
  match blocks with
  | [] => []
  | ContentBlockToolUse id name input :: rest =>
      {| call_id := id; call_name := name; call_arguments := json_dumps input |}
        :: collect_tool_calls rest
  | _ :: rest => collect_tool_calls rest
  end.

Fixpoint collect_text_parts (blocks : list ContentBlock) : list string :=
  match blocks with
  | [] => []
  | ContentBlockText text :: rest => text :: collect_text_parts rest
  | _ :: rest => collect_text_parts rest
  end.

Definition assistant_tool_message (blocks : list ContentBlock) : BackendMessage :=
  let joined := strip (String.concat " " (collect_text_parts blocks)) in
  {| b_role := "assistant";
     b_content := if Str.is_empty joined then None else Some (BStr joined);
     b_tool_call_id := None;
     b_tool_calls := Some (collect_tool_calls blocks) |}.

(** Any other list of blocks *)
Fixpoint processed_content (blocks : list ContentBlock) : list Part :=
  match blocks with
  | [] => []
  | ContentBlockText text :: rest => PartText text :: processed_content rest
  | ContentBlockImage source :: rest => PartImage source :: processed_content rest
  | _ :: rest => processed_content rest
  end.

(** The backend messages of one canonical message *)
Definition convert_message (msg : Message) : result (list BackendMessage) :=
  match content msg with
  | ContentBlocks blocks =>
      let is_tool_result_message := existsb is_tool_result blocks in
      let is_tool_use_message := existsb is_tool_use blocks in
      match role msg with
      | User =>
          if is_tool_result_message then tool_result_messages blocks
          else Ok [ {| b_role := role_name User;
                       b_content := Some (BParts (processed_content blocks));
                       b_tool_call_id := None; b_tool_calls := None |} ]
      | Assistant =>
          if is_tool_use_message then Ok [assistant_tool_message blocks]
          else Ok [ {| b_role := role_name Assistant;
                       b_content := Some (BParts (processed_content blocks));
                       b_tool_call_id := None; b_tool_calls := None |} ]
      end
  | ContentStr s => Ok [plain (role_name (role msg)) s]
  end.

Fixpoint convert_conversation (msgs : list Message) : result (list BackendMessage) :=
  match msgs with
  | [] => Ok []
  | msg :: rest =>
      try ms <- convert_message msg in
      try rest' <- convert_conversation rest in
      Ok (ms ++ rest')
  end.

Definition convert_messages (req : MessagesRequest) : result (list BackendMessage) :=
  try conv <- convert_conversation (messages req) in
  Ok (system_messages (system req) ++ conv).

(** The cap on [max_tokens] *)
Definition capped_max_tokens (req : MessagesRequest) : Z :=
  if (Str.startswith "openai/" (model req) || Str.startswith "gemini/" (model req))%bool
  then Z.min (max_tokens req) 16384
  else max_tokens req.

(** One tool, in the function-call form *)
Definition convert_tool (is_gemini_model : bool) (tool : Tool) : result BackendTool :=
  let schema0 := input_schema tool in
  let normalised :=
    if (negb (Dict.has "type" schema0) || negb (Dict.has "properties" schema0))%bool
    then JObj [("type", JStr "object"); ("properties", JObj [])]
    else JObj schema0 in
  try parameters <-
    (if is_gemini_model then Schema.clean_gemini_schema normalised else Ok normalised) in
  Ok {| fn_name := tool_name tool;
        fn_description := tool_description tool;
        fn_parameters := parameters |}.

Fixpoint convert_tools (is_gemini_model : bool) (ts : list Tool) : result (list BackendTool) :=
  match ts with
  | [] => Ok []
  | tool :: rest =>
      try t' <- convert_tool is_gemini_model tool in
      try rest' <- convert_tools is_gemini_model rest in
      Ok (t' :: rest')
  end.

Definition convert_tool_choice (d : list (string * json)) : BackendToolChoice :=
  match Dict.get "type" d with
  | Some (JStr t) =>
      if String.eqb t "auto" then ChoiceAuto
      else if String.eqb t "any" then ChoiceAny
      else if String.eqb t "tool" then
        match Dict.get "name" d with
        | Some n => ChoiceFunction n
        | None => ChoiceAuto
        end
      else ChoiceAuto
  | _ => ChoiceAuto
  end.

Definition nonempty {A : Type} (o : option (list A)) : option (list A) :=
  match o with
  | Some [] => None
  | _ => o
  end.

(** [convert_anthropic_to_litellm] *)
Definition convert_anthropic_to_litellm (req : MessagesRequest) : result LiteLLMRequest :=
  try msgs <- convert_messages req in
  let max_tokens := capped_max_tokens req in
  try openai_tools <-
    match nonempty (tools req) with
    | Some ts =>
        try l <- convert_tools (Str.startswith "gemini/" (model req)) ts in Ok (Some l)
    | None => Ok None
    end in
  Ok {| l_model := model req;
        l_messages := msgs;
        l_max_tokens := max_tokens;
        l_temperature := temperature req;
        l_stream := stream req;
        l_thinking :=
          if Str.startswith "anthropic/" (model req) then thinking req else None;
        l_stop := nonempty (stop_sequences req);
        l_top_k := match top_k req with Some 0 => None | k => k end;
        l_tools := openai_tools;
        l_tool_choice :=
          match nonempty (tool_choice req) with
          | Some d => Some (convert_tool_choice d)
          | None => None
          end |}.

End Serialisers.

(** A user message that is turned into [tool] messages *)
Definition carries_tool_result (m : Message) : bool :=
  match role m, content m with
  | User, ContentBlocks blocks => existsb is_tool_result blocks
  | _, _ => false
  end.

Definition roles (msgs : list Message) : list string :=
  List.map (fun m => role_name (role m)) msgs.

(** A request that sets nothing but the model, the bound on the tokens, the
    system prompt and the messages *)
Definition basic_request (model : string) (max_tokens : Z)
    (system : option SystemPrompt) (messages : list Message) : MessagesRequest :=
  {| model := model; max_tokens := max_tokens; messages := messages;
     system := system; stop_sequences := None; stream := Some false;
     temperature := None; top_k := None; tools := None; tool_choice := None;
     thinking := None |}.

(** A user turn and an assistant turn that calls a tool *)
Definition two_turns : list Message :=
  [ {| role := User; content := ContentStr "hi" |};
    {| role := Assistant;
       content := ContentBlocks [ContentBlockText "calling";
                                 ContentBlockToolUse "call_0" "f" (JObj [])] |} ].

End Request.

(** ** [server.py]: the response translator *)

Module Response.

(** Python values that a backend call can hand back: the JSON shapes and
    objects with attributes (LiteLLM's [ModelResponse] and its parts). A float
    is its [repr]. An object is taken to have no [dict] or [model_dump]
    method, so [__dict__] is what the translator reads from it. *)
#[warnings="-register-all"]
Inductive pv : Type :=
| VNone
| VBool (b : bool)
| VInt (z : Z)
| VFloat (repr : string)
| VStr (s : string)
| VList (items : list pv)
| VDict (fields : list (string * pv))
| VObj (attrs : list (string * pv)).

Definition truthy (v : pv) : bool :=
  match v with
  | VNone => false
  | VBool b => b
  | VInt z => negb (Z.eqb z 0)
  | VFloat r => negb (String.eqb r "0.0" || String.eqb r "-0.0")
  | VStr s => negb (Str.is_empty s)
  | VList l => match l with [] => false | _ => true end
  | VDict d => match d with [] => false | _ => true end
  | VObj _ => true
  end.

(** [len(v)] *)
Definition py_len (v : pv) : result nat :=
  match v with
  | VStr s => Ok (String.length s)
  | VList l => Ok (List.length l)
  | VDict d => Ok (List.length d)
  | _ => Err (TypeError "object has no len()")
  end.

(** [v[0]] *)
Definition index0 (v : pv) : result pv :=
  match v with
  | VList (x :: _) => Ok x
  | VList [] => Err (IndexError "list index out of range")
  | VStr (String c _) => Ok (VStr (String c EmptyString))
  | VStr EmptyString => Err (IndexError "string index out of range")
  | VDict _ => Err (KeyError "0")
  | _ => Err (TypeError "object is not subscriptable")
  end.

Definition hasattr (v : pv) (a : string) : bool :=
  match v with
  | VObj attrs => Dict.has a attrs
  | _ => false
  end.

(** [v.a] *)
Definition getattr (v : pv) (a : string) : result pv :=
  match v with
  | VObj attrs =>
      match Dict.get a attrs with
      | Some x => Ok x
      | None => Err (AttributeError a)
      end
  | _ => Err (AttributeError a)
  end.

(** [getattr(v, a, default)] *)
Definition getattr_default (v : pv) (a : string) (default : pv) : pv :=
  match v with
  | VObj attrs =>
      match Dict.get a attrs with
      | Some x => x
      | None => default
      end
  | _ => default
  end.

(** [v.get(k, default)]: only a dictionary has the method. *)
Definition dict_get (v : pv) (k : string) (default : pv) : result pv :=
  match v with
  | VDict d =>
      match Dict.get k d with
      | Some x => Ok x
      | None => Ok default
      end
  | _ => Err (AttributeError "get")
  end.

(** [v and len(v) > 0] *)
Definition has_first (v : pv) : result bool :=
  if truthy v then
    try n <- py_len v in Ok (Nat.ltb 0 n)
  else Ok false.

(** The content blocks of the reply *)
Inductive ContentBlock : Type :=
| ContentBlockText (text : string)
| ContentBlockToolUse (id name : string) (input : list (string * pv)).

Record Usage : Type := {
  input_tokens : Z;
  output_tokens : Z
}.

Record MessagesResponse : Type := {
  id : string;
  model : string;
  role : string;
  content : list ContentBlock;
  stop_reason : option string;
  usage : Usage
}.

(** The dictionaries appended to [content], before [MessagesResponse] checks them *)
Inductive RawBlock : Type :=
| RawText (text : pv)
| RawToolUse (id name input : pv).

(** What is read out of the backend response *)
Record Extracted : Type := {
  content_text : pv;
  tool_calls : pv;
  finish_reason : pv;
  usage_info : pv;
  response_id : pv
}.

Section Translator.

(** [json.loads] on a string: [None] stands for [JSONDecodeError]. *)
Variable json_loads : string -> option pv.
(** The check of an [int] field by the data-model library *)
Variable validate_int : pv -> option Z.
(** [f"msg_{uuid.uuid4()}"] and [f"tool_{uuid.uuid4()}"] *)
Variable msg_uuid : string.
Variable tool_uuid : nat -> string.

(** The branch for a [ModelResponse] object *)
Definition extract_object (r : pv) : result Extracted :=
  try choices <- getattr r "choices" in
  try some <- has_first choices in
  try message <-
    (if some then (try c <- index0 choices in getattr c "message") else Ok VNone) in
  try text <-
    (if (truthy message && hasattr message "content")%bool
     then getattr message "content" else Ok (VStr "")) in
  try calls <-
    (if (truthy message && hasattr message "tool_calls")%bool
     then getattr message "tool_calls" else Ok VNone) in
  try finish <-
    (if some then (try c <- index0 choices in getattr c "finish_reason")
     else Ok (VStr "stop")) in
  try u <- getattr r "usage" in
  Ok {| content_text := text; tool_calls := calls; finish_reason := finish;
        usage_info := u; response_id := getattr_default r "id" (VStr msg_uuid) |}.

(** The dictionary that the other branch works on *)
Definition response_dict (r : pv) : list (string * pv) :=
  match r with
  | VDict d => d
  | VObj attrs => attrs
  | _ => [("id", VStr msg_uuid); ("choices", VList [VDict []]); ("usage", VDict [])]
  end.

Definition get_or (k : string) (d : list (string * pv)) (default : pv) : pv :=
  match Dict.get k d with Some x => x | None => default end.

(** The branch for a dictionary *)
Definition extract_dict (r : pv) : result Extracted :=
  let d := response_dict r in
  let choices := get_or "choices" d (VList [VDict []]) in
  try some <- has_first choices in
  try message <-
    (if some then (try c <- index0 choices in dict_get c "message" (VDict []))
     else Ok (VDict [])) in
  try text <- dict_get message "content" (VStr "") in
  try calls <- dict_get message "tool_calls" VNone in
  try finish <-
    (if some then (try c <- index0 choices in dict_get c "finish_reason" (VStr "stop"))
     else Ok (VStr "stop")) in
  Ok {| content_text := text; tool_calls := calls; finish_reason := finish;
        usage_info := get_or "usage" d (VDict []);
        response_id := get_or "id" d (VStr msg_uuid) |}.

Definition extract (r : pv) : result Extracted :=
  if (hasattr r "choices" && hasattr r "usage")%bool then extract_object r
  else extract_dict r.

(** The arguments of a tool call, parsed when they are a string *)
Definition parse_arguments (arguments : pv) : pv :=
  match arguments with
  | VStr s =>
      match json_loads s with
      | Some v => v
      | None => VDict [("raw", VStr s)]
      end
  | _ => arguments
  end.

(** One turn of the loop over the tool calls *)
Definition tool_use_block (idx : nat) (tool_call : pv) : result RawBlock :=
  match tool_call with
  | VDict d =>
      let function := get_or "function" d (VDict []) in
      let tool_id := get_or "id" d (VStr (tool_uuid idx)) in
      try name <- dict_get function "name" (VStr "") in
      try arguments <- dict_get function "arguments" (VStr "{}") in
      Ok (RawToolUse tool_id name (parse_arguments arguments))
  | _ =>
      let function := getattr_default tool_call "function" VNone in
      let tool_id := getattr_default tool_call "id" (VStr (tool_uuid idx)) in
      let name := if truthy function then getattr_default function "name" (VStr "")
                  else VStr "" in
      let arguments := if truthy function
                       then getattr_default function "arguments" (VStr "{}")
                       else VStr "{}" in
      Ok (RawToolUse tool_id name (parse_arguments arguments))
  end.

Fixpoint tool_use_blocks (idx : nat) (calls : list pv) : result (list RawBlock) :=
  match calls with
  | [] => Ok []
  | tool_call :: rest =>
      try b <- tool_use_block idx tool_call in
      try rest' <- tool_use_blocks (S idx) rest in
      Ok (b :: rest')
  end.

Definition is_empty_str (v : pv) : bool :=
  match v with VStr s => Str.is_empty s | _ => false end.

Definition is_none (v : pv) : bool :=
  match v with VNone => true | _ => false end.

(** The [content] list, with the empty text block when nothing was found *)
Definition raw_content (x : Extracted) : result (list RawBlock) :=
  let text_blocks :=
    if (negb (is_none (content_text x)) && negb (is_empty_str (content_text x)))%bool
    then [RawText (content_text x)] else [] in
  try tool_blocks <-
    (if truthy (tool_calls x) then
       match tool_calls x with
       | VList l => tool_use_blocks 0 l
       | single => tool_use_blocks 0 [single]
       end
     else Ok []) in
  match text_blocks ++ tool_blocks with
  | [] => Ok [RawText (VStr "")]
  | l => Ok l
  end.

Definition eq_str (v : pv) (s : string) : bool :=
  match v with VStr t => String.eqb t s | _ => false end.

(** The mapping of [finish_reason] *)
Definition map_finish_reason (finish : pv) : string :=
  if eq_str finish "stop" then "end_turn"
  else if eq_str finish "length" then "max_tokens"
  else if eq_str finish "tool_calls" then "tool_use"
  else "end_turn".

(** A usage counter, from a dictionary or from an object *)
Definition usage_field (u : pv) (k : string) : pv :=
  match u with
  | VDict d => get_or k d (VInt 0)
  | _ => getattr_default u k (VInt 0)
  end.

(** The checks that [MessagesResponse] and [Usage] make on their fields *)
Definition validate_str (field : string) (v : pv) : result string :=
  match v with
  | VStr s => Ok s
  | _ => Err (ValidationError field)
  end.

Definition validate_block (b : RawBlock) : result ContentBlock :=
  match b with
  | RawText t =>
      try s <- validate_str "content.text" t in Ok (ContentBlockText s)
  | RawToolUse i n a =>
      try i' <- validate_str "content.id" i in
      try n' <- validate_str "content.name" n in
      match a with
      | VDict d => Ok (ContentBlockToolUse i' n' d)
      | _ => Err (ValidationError "content.input")
      end
  end.

Fixpoint validate_blocks (l : list RawBlock) : result (list ContentBlock) :=
  match l with
  | [] => Ok []
  | b :: rest =>
      try b' <- validate_block b in
      try rest' <- validate_blocks rest in
      Ok (b' :: rest')
  end.

Definition validate_tokens (field : string) (v : pv) : result Z :=
  match validate_int v with
  | Some z => Ok z
  | None => Err (ValidationError field)
  end.

(** The body of the [try] block, for a request routed to [request_model] *)
Definition convert_body (litellm_response : pv) (request_model : string)
  : result MessagesResponse :=
  try x <- extract litellm_response in
  try raw <- raw_content x in
  let prompt_tokens := usage_field (usage_info x) "prompt_tokens" in
  let completion_tokens := usage_field (usage_info x) "completion_tokens" in
  let stop := map_finish_reason (finish_reason x) in
  try i <- validate_tokens "usage.input_tokens" prompt_tokens in
  try o <- validate_tokens "usage.output_tokens" completion_tokens in
  try rid <- validate_str "id" (response_id x) in
  try blocks <- validate_blocks raw in
  Ok {| id := rid; model := request_model; role := "assistant";
        content := blocks; stop_reason := Some stop;
        usage := {| input_tokens := i; output_tokens := o |} |}.

(** The reply built by the [except] clause *)
Definition fallback (e : exn) (request_model : string) : MessagesResponse :=
  {| id := msg_uuid; model := request_model; role := "assistant";
     content := [ContentBlockText ("Error converting response: " +:+ exn_message e
                                   +:+ ". Please check server logs.")];
     stop_reason := Some "end_turn";
     usage := {| input_tokens := 0; output_tokens := 0 |} |}.

(** [convert_litellm_to_anthropic]: the [try] block and its handler *)
Definition convert_litellm_to_anthropic (litellm_response : pv) (request_model : string)
  : MessagesResponse :=
  match convert_body litellm_response request_model with
  | Ok r => r
  | Err e => fallback e request_model
  end.

End Translator.

(** What a caller can rely on in a reply *)
Definition valid_stop_reason (s : option string) : bool :=
  match s with
  | None => true
  | Some r => Str.mem r ["end_turn"; "max_tokens"; "stop_sequence"; "tool_use"]
  end.

Definition well_formed (r : MessagesResponse) : Prop :=
  role r = "assistant" /\ content r <> [] /\ valid_stop_reason (stop_reason r) = true.

(** The pairs of identifier and name of the [tool_use] blocks, in order *)
Fixpoint tool_use_pairs (l : list ContentBlock) : list (string * string) :=
  match l with
  | [] => []
  | ContentBlockToolUse i n _ :: rest => (i, n) :: tool_use_pairs rest
  | _ :: rest => tool_use_pairs rest
  end.

(** The two forms in which a value of the backend comes: a dictionary, or
    an object with attributes (LiteLLM's [ModelResponse], [Choices],
    [Message], [ChatCompletionMessageToolCall] and [Function]) *)
Inductive Form : Type := AsDict | AsObject.

Definition shaped (f : Form) (fields : list (string * pv)) : pv :=
  match f with
  | AsDict => VDict fields
  | AsObject => VObj fields
  end.

(** A backend tool call of the OpenAI dialect, in either form *)
Definition backend_tool_call (g : Form) (i n arguments : string) : pv :=
  shaped g [("id", VStr i); ("type", VStr "function");
            ("function", shaped g [("name", VStr n); ("arguments", VStr arguments)])].

(** A complete backend response: the response, its choice and its message in
    the form [f], its tool calls in the form [g] *)
Definition backend_response (f g : Form) (rid : string) (text : pv)
    (calls : list (string * string * string)) (finish : string) (u : pv) : pv :=
  shaped f
    [("id", VStr rid);
     ("choices",
      VList [shaped f
               [("message",
                 shaped f
                   [("role", VStr "assistant"); ("content", text);
                    ("tool_calls",
                     VList (List.map (fun c => backend_tool_call g (fst (fst c))
                                                 (snd (fst c)) (snd c)) calls))]);
                ("finish_reason", VStr finish)]]);
     ("usage", u)].

(** The identifier and the name of a backend tool call *)
Definition call_pair (c : string * string * string) : string * string :=
  (fst (fst c), snd (fst c)).

(** A stand-in for the check of an [int] field: integers only *)
Definition int_only (v : pv) : option Z :=
  match v with VInt z => Some z | _ => None end.

(** The block appended for a backend tool call *)
Definition raw_tool_use (json_loads : string -> option pv)
    (c : string * string * string) : RawBlock :=
  RawToolUse (VStr (fst (fst c))) (VStr (snd (fst c)))
    (parse_arguments json_loads (VStr (snd c))).

End Response.

(** ** [server.py]: the streaming reconstructor *)

Module Stream.

(** The fragments are the objects that LiteLLM yields: a chunk has [usage]
    and [choices], a choice has [delta] and [finish_reason], a delta has
    [content] and [tool_calls]. The upstream sequence is a list: it ends. *)

(** An attribute of a fragment: missing, present and [None], or a value *)
Inductive attr (A : Type) : Type :=
| Absent
| IsNone
| Val (a : A).
Arguments Absent {A}.
Arguments IsNone {A}.
Arguments Val {A} a.

Inductive Arguments : Type :=
| ArgStr (s : string)
| ArgDict (d : list (string * json)).

Record FunctionDelta : Type := {
  fn_name : attr string;
  fn_arguments : attr Arguments
}.

Record ToolCallDelta : Type := {
  tc_index : option Z;
  tc_id : attr string;
  tc_function : option FunctionDelta
}.

Record Delta : Type := {
  content : option string;
  tool_calls : option (list ToolCallDelta)
}.

Record Choice : Type := {
  delta : Delta;
  finish_reason : option string
}.

Record ChunkUsage : Type := {
  prompt_tokens : option Z;
  completion_tokens : option Z
}.

Record Chunk : Type := {
  usage : option ChunkUsage;
  choices : list Choice
}.

(** What the generator yields: [event: name / data: json], or the last line
    [data: [DONE]] *)
Inductive event : Type :=
| Event (name : string) (data : json)
| Done.

(** The local variables of [handle_streaming] *)
Record State : Type := {
  tool_index : option Z;
  anthropic_tool_index : nat;
  tool_content : string;
  accumulated_text : string;
  text_sent : bool;
  text_block_closed : bool;
  input_tokens : Z;
  output_tokens : Z;
  has_sent_stop_reason : bool;
  last_tool_index : nat;
  full_response_text : string
}.

Definition initial : State :=
  {| tool_index := None; anthropic_tool_index := 0; tool_content := "";
     accumulated_text := ""; text_sent := false; text_block_closed := false;
     input_tokens := 0; output_tokens := 0; has_sent_stop_reason := false;
     last_tool_index := 0; full_response_text := "" |}.

Definition jnat (n : nat) : json := JInt (Z.of_nat n).

Definition message_start (message_id model : string) : event :=
  Event "message_start"
    (JObj [("type", JStr "message_start");
           ("message",
            JObj [("id", JStr message_id); ("type", JStr "message");
                  ("role", JStr "assistant"); ("model", JStr model);
                  ("content", JArr []); ("stop_reason", JNull);
                  ("stop_sequence", JNull);
                  ("usage",
                   JObj [("input_tokens", JInt 0);
                         ("cache_creation_input_tokens", JInt 0);
                         ("cache_read_input_tokens", JInt 0);
                         ("output_tokens", JInt 0)])])]).

Definition text_block_start : event :=
  Event "content_block_start"
    (JObj [("type", JStr "content_block_start"); ("index", JInt 0);
           ("content_block", JObj [("type", JStr "text"); ("text", JStr "")])]).

Definition ping : event := Event "ping" (JObj [("type", JStr "ping")]).

Definition text_delta (text : string) : event :=
  Event "content_block_delta"
    (JObj [("type", JStr "content_block_delta"); ("index", JInt 0);
           ("delta", JObj [("type", JStr "text_delta"); ("text", JStr text)])]).

Definition content_block_stop (index : nat) : event :=
  Event "content_block_stop"
    (JObj [("type", JStr "content_block_stop"); ("index", jnat index)]).

Definition tool_block_start (index : nat) (tool_id name : json) : event :=
  Event "content_block_start"
    (JObj [("type", JStr "content_block_start"); ("index", jnat index);
           ("content_block",
            JObj [("type", JStr "tool_use"); ("id", tool_id); ("name", name);
                  ("input", JObj [])])]).

Definition input_json_delta (index : nat) (partial_json : string) : event :=
  Event "content_block_delta"
    (JObj [("type", JStr "content_block_delta"); ("index", jnat index);
           ("delta", JObj [("type", JStr "input_json_delta");
                           ("partial_json", JStr partial_json)])]).

Definition message_delta (stop_reason : string) (out : Z) : event :=
  Event "message_delta"
    (JObj [("type", JStr "message_delta");
           ("delta", JObj [("stop_reason", JStr stop_reason); ("stop_sequence", JNull)]);
           ("usage", JObj [("output_tokens", JInt out)])]).

Definition message_stop : event :=
  Event "message_stop" (JObj [("type", JStr "message_stop")]).

Section Reconstructor.

Variable json_dumps : json -> string.
(** [f"toolu_{uuid.uuid4().hex[:24]}"], drawn when a tool block is opened *)
Variable tool_uuid : nat -> string.

(** The usage counters of a chunk *)
Definition read_usage (st : State) (c : Chunk) : State :=
  match usage c with
  | None => st
  | Some u =>
      {| tool_index := tool_index st;
         anthropic_tool_index := anthropic_tool_index st;
         tool_content := tool_content st;
         accumulated_text := accumulated_text st;
         text_sent := text_sent st;
         text_block_closed := text_block_closed st;
         input_tokens := match prompt_tokens u with Some n => n | None => input_tokens st end;
         output_tokens :=
           match completion_tokens u with Some n => n | None => output_tokens st end;
         has_sent_stop_reason := has_sent_stop_reason st;
         last_tool_index := last_tool_index st;
         full_response_text := full_response_text st |}
  end.

(** A text delta that is neither [None] nor empty *)
Definition on_text (st : State) (delta_content : string) : State * list event :=
  let emit := match tool_index st with
              | None => negb (text_block_closed st)
              | Some _ => false
              end in
  ({| tool_index := tool_index st;
      anthropic_tool_index := anthropic_tool_index st;
      tool_content := tool_content st;
      accumulated_text := accumulated_text st +:+ delta_content;
      text_sent := if emit then true else text_sent st;
      text_block_closed := text_block_closed st;
      input_tokens := input_tokens st;
      output_tokens := output_tokens st;
      has_sent_stop_reason := has_sent_stop_reason st;
      last_tool_index := last_tool_index st;
      full_response_text := full_response_text st +:+ delta_content |},
   if emit then [text_delta delta_content] else []).

Definition set_text_flags (st : State) (sent closed : bool) : State :=
  {| tool_index := tool_index st;
     anthropic_tool_index := anthropic_tool_index st;
     tool_content := tool_content st;
     accumulated_text := accumulated_text st;
     text_sent := sent;
     text_block_closed := closed;
     input_tokens := input_tokens st;
     output_tokens := output_tokens st;
     has_sent_stop_reason := has_sent_stop_reason st;
     last_tool_index := last_tool_index st;
     full_response_text := full_response_text st |}.

(** The closing of the text block when the first tool call is seen *)
Definition close_text_for_tools (st : State) : State * list event :=
  match tool_index st with
  | Some _ => (st, [])
  | None =>
      if (text_sent st && negb (text_block_closed st))%bool then
        (set_text_flags st (text_sent st) true, [content_block_stop 0])
      else if (negb (Str.is_empty (accumulated_text st)) && negb (text_sent st)
               && negb (text_block_closed st))%bool then
        (set_text_flags st true true,
         [text_delta (accumulated_text st); content_block_stop 0])
      else if negb (text_block_closed st) then
        (set_text_flags st (text_sent st) true, [content_block_stop 0])
      else (st, [])
  end.

Definition attr_json (default : json) (a : attr string) : json :=
  match a with
  | Absent => default
  | IsNone => JNull
  | Val s => JStr s
  end.

(** The fragment of arguments that is forwarded, if any *)
Definition args_json (tc : ToolCallDelta) : option string :=
  match tc_function tc with
  | None => None
  | Some f =>
      match fn_arguments f with
      | Val (ArgStr s) => if Str.is_empty s then None else Some s
      | Val (ArgDict d) => match d with [] => None | _ => Some (json_dumps (JObj d)) end
      | _ => None
      end
  end.

(** One turn of the loop over [delta_tool_calls] *)
Definition on_tool_call (st : State) (tc : ToolCallDelta) : State * list event :=
  let current_index := match tc_index tc with Some i => i | None => 0 end in
  let is_new := match tool_index st with
                | None => true
                | Some i => negb (Z.eqb current_index i)
                end in
  let '(st1, opened) :=
    if is_new then
      let index := S (last_tool_index st) in
      let name := match tc_function tc with
                  | Some f => attr_json (JStr "") (fn_name f)
                  | None => JStr ""
                  end in
      let tool_id := attr_json (JStr (tool_uuid index)) (tc_id tc) in
      ({| tool_index := Some current_index;
          anthropic_tool_index := index;
          tool_content := "";
          accumulated_text := accumulated_text st;
          text_sent := text_sent st;
          text_block_closed := text_block_closed st;
          input_tokens := input_tokens st;
          output_tokens := output_tokens st;
          has_sent_stop_reason := has_sent_stop_reason st;
          last_tool_index := index;
          full_response_text := full_response_text st |},
       [tool_block_start index tool_id name])
    else (st, []) in
  match args_json tc with
  | Some a =>
      ({| tool_index := tool_index st1;
          anthropic_tool_index := anthropic_tool_index st1;
          tool_content := tool_content st1 +:+ a;
          accumulated_text := accumulated_text st1;
          text_sent := text_sent st1;
          text_block_closed := text_block_closed st1;
          input_tokens := input_tokens st1;
          output_tokens := output_tokens st1;
          has_sent_stop_reason := has_sent_stop_reason st1;
          last_tool_index := last_tool_index st1;
          full_response_text := full_response_text st1 |},
       opened ++ [input_json_delta (anthropic_tool_index st1) a])
  | None => (st1, opened)
  end.

Fixpoint on_tool_calls (st : State) (tcs : list ToolCallDelta) : State * list event :=
  match tcs with
  | [] => (st, [])
  | tc :: rest =>
      let '(st1, e1) := on_tool_call st tc in
      let '(st2, e2) := on_tool_calls st1 rest in
      (st2, e1 ++ e2)
  end.

(** [range(1, last_tool_index + 1)] *)
Definition tool_indices (last : nat) : list nat := seq 1 last.

Definition map_stop_reason (finish_reason : string) : string :=
  if String.eqb finish_reason "length" then "max_tokens"
  else if String.eqb finish_reason "tool_calls" then "tool_use"
  else if String.eqb finish_reason "stop" then "end_turn"
  else "end_turn".

(** The events sent when a finish reason arrives *)
Definition finish_events (st : State) (finish_reason : string) : list event :=
  (match tool_index st with
   | Some _ => List.map content_block_stop (tool_indices (last_tool_index st))
   | None => []
   end)
  ++ (if text_block_closed st then []
      else (if (negb (Str.is_empty (accumulated_text st)) && negb (text_sent st))%bool
            then [text_delta (accumulated_text st)] else [])
           ++ [content_block_stop 0])
  ++ [message_delta (map_stop_reason finish_reason) (output_tokens st);
      message_stop; Done].

Definition mark_stop_sent (st : State) : State :=
  {| tool_index := tool_index st;
     anthropic_tool_index := anthropic_tool_index st;
     tool_content := tool_content st;
     accumulated_text := accumulated_text st;
     text_sent := text_sent st;
     text_block_closed := text_block_closed st;
     input_tokens := input_tokens st;
     output_tokens := output_tokens st;
     has_sent_stop_reason := true;
     last_tool_index := last_tool_index st;
     full_response_text := full_response_text st |}.

(** The body of the loop for one chunk: the new state, the events yielded,
    and whether the generator returned. *)
Definition on_chunk (st : State) (c : Chunk) : State * list event * bool :=
  let st0 := read_usage st c in
  match choices c with
  | [] => (st0, [], false)
  | choice :: _ =>
      let '(st1, e1) :=
        match content (delta choice) with
        | Some text => if Str.is_empty text then (st0, []) else on_text st0 text
        | None => (st0, [])
        end in
      let '(st2, e2) :=
        match tool_calls (delta choice) with
        | Some (tc :: tcs) =>
            let '(sa, ea) := close_text_for_tools st1 in
            let '(sb, eb) := on_tool_calls sa (tc :: tcs) in
            (sb, ea ++ eb)
        | _ => (st1, [])
        end in
      match finish_reason choice with
      | Some reason =>
          if (negb (Str.is_empty reason) && negb (has_sent_stop_reason st2))%bool
          then (mark_stop_sent st2, e1 ++ e2 ++ finish_events st2 reason, true)
          else (st2, e1 ++ e2, false)
      | None => (st2, e1 ++ e2, false)
      end
  end.

(** The events sent when the upstream sequence ends without a finish reason *)
Definition end_events (st : State) : list event :=
  if has_sent_stop_reason st then []
  else
    (match tool_index st with
     | Some _ => List.map content_block_stop (tool_indices (last_tool_index st))
     | None => []
     end)
    ++ [content_block_stop 0;
        message_delta "end_turn" (output_tokens st);
        message_stop; Done].

Fixpoint process (st : State) (chunks : list Chunk) : list event :=
  match chunks with
  | [] => end_events st
  | c :: rest =>
      let '(st1, evs, returned) := on_chunk st c in
      if returned then evs else evs ++ process st1 rest
  end.

(** [handle_streaming], on an upstream sequence that ends *)
Definition handle_streaming (message_id model : string) (chunks : list Chunk) : list event :=
  [message_start message_id model; text_block_start; ping] ++ process initial chunks.

End Reconstructor.

(** The number of [content_block_stop] events for a block index *)
Definition is_stop (index : nat) (e : event) : bool :=
  match e with
  | Event name (JObj [("type", JStr t); ("index", JInt i)]) =>
      (String.eqb name "content_block_stop" && String.eqb t "content_block_stop"
       && Z.eqb i (Z.of_nat index))%bool
  | _ => false
  end.

Definition count_stops (index : nat) (l : list event) : nat :=
  List.length (List.filter (is_stop index) l).

(** The fragments of the scenarios *)
Definition text_chunk (text : string) : Chunk :=
  {| usage := None;
     choices := [ {| delta := {| content := Some text; tool_calls := None |};
                     finish_reason := None |} ] |}.

Definition tool_chunk (index : Z) (tool_id name arguments : string) : Chunk :=
  {| usage := None;
     choices :=
       [ {| delta :=
              {| content := None;
                 tool_calls :=
                   Some [ {| tc_index := Some index; tc_id := Val tool_id;
                             tc_function := Some {| fn_name := Val name;
                                                    fn_arguments := Val (ArgStr arguments) |} |} ] |};
            finish_reason := None |} ] |}.

Definition finish_chunk (reason : string) : Chunk :=
  {| usage := None;
     choices := [ {| delta := {| content := None; tool_calls := None |};
                     finish_reason := Some reason |} ] |}.

(** The fragment of arguments of the scenarios: an opening brace, a quoted
    [a], a colon, [1] and a closing brace. *)
Definition dquote : string := String (ascii_of_nat 34) EmptyString.
Definition args_fragment : string := "{" +:+ dquote +:+ "a" +:+ dquote +:+ ":1}".

(** Text "Hello", a tool call at backend index 0, the finish signal *)
Definition scenario (tool_id : string) : list Chunk :=
  [text_chunk "Hello"; tool_chunk 0 tool_id "f" args_fragment; finish_chunk "tool_calls"].

(** The event sequence that the scenario is described with *)
Definition described_events (message_id model tool_id : string) : list event :=
  [message_start message_id model; text_block_start;
   text_delta "Hello"; content_block_stop 0;
   tool_block_start 1 (JStr tool_id) (JStr "f");
   input_json_delta 1 args_fragment; content_block_stop 1;
   message_delta "tool_use" 0; message_stop; Done].

Definition is_ping (e : event) : bool :=
  match e with
  | Event name _ => String.eqb name "ping"
  | Done => false
  end.

(** Whether the generator returns on a finish signal, and the state in which
    the upstream sequence is left otherwise *)
Fixpoint finished (json_dumps : json -> string) (tool_uuid : nat -> string)
    (st : State) (chunks : list Chunk) : bool :=
  match chunks with
  | [] => false
  | c :: rest =>
      let '(st1, _, returned) := on_chunk json_dumps tool_uuid st c in
      if returned then true else finished json_dumps tool_uuid st1 rest
  end.

Fixpoint final_state (json_dumps : json -> string) (tool_uuid : nat -> string)
    (st : State) (chunks : list Chunk) : State :=
  match chunks with
  | [] => st
  | c :: rest =>
      let '(st1, _, returned) := on_chunk json_dumps tool_uuid st c in
      if returned then st1 else final_state json_dumps tool_uuid st1 rest
  end.

(** The closings of block 0 that were sent so far *)
Definition text_stops (st : State) : nat :=
  if text_block_closed st then 1%nat else 0%nat.

End Stream.

(** ** [server.py]: the headers of the transparent forwarder *)

Module Forward.

(** [forward_to_anthropic], from [headers = dict(raw_request.headers)] to the
    [headers] argument of [client.post]; the names of the inbound headers are
    in lower case. *)
Definition forward_headers (ANTHROPIC_API_KEY : option string)
    (raw_headers : gmap string string) : gmap string string :=
  let headers := delete "host" raw_headers in
  let headers :=
    match ANTHROPIC_API_KEY with
    | Some key =>
        if Str.is_empty key then headers
        else delete "authorization" (<["x-api-key" := key]> headers)
    | None => headers
    end in
  match headers !! "anthropic-version" with
  | Some _ => headers
  | None => <["anthropic-version" := "2023-06-01"]> headers
  end.

(** The header set that the claim on the forwarder describes: the client's
    headers without [host], with the credential override when a key is
    configured, and nothing else *)
Definition described_headers (ANTHROPIC_API_KEY : option string)
    (raw_headers : gmap string string) : gmap string string :=
  let headers := delete "host" raw_headers in
  match ANTHROPIC_API_KEY with
  | Some key =>
      if Str.is_empty key then headers
      else delete "authorization" (<["x-api-key" := key]> headers)
  | None => headers
  end.

End Forward.

(** ** [config.py]: reading the debug log, saving and loading the aliases *)

(** [lst[start:]] for an integer [start] of either sign *)
Definition slice_from {A : Type} (start : Z) (l : list A) : list A :=
  if Z.leb 0 start then skipn (Z.to_nat start) l
  else skipn (List.length l - Z.to_nat (- start)) l.

Module Persist.

Import Config.

(** [get_debug_logs] *)
Definition get_debug_logs (cm : ConfigManager) (wanted : option string)
    (limit : option Z) : list LogEntry :=
  let logs := debug_logs cm in
  let logs :=
    match wanted with
    | Some t => if Str.is_empty t then logs
                else List.filter (fun log => String.eqb (log_type log) t) logs
    | None => logs
    end in
  match limit with
  | Some n => if Z.eqb n 0 then logs else slice_from (- n) logs
  | None => logs
  end.

(** The dictionary that [export_config] serialises *)
Definition export_json (cm : ConfigManager) : json :=
  JObj [("proxy_enabled", JBool (proxy_enabled (current_config cm)));
        ("big_model", opt_json (big_model (current_config cm)));
        ("small_model", opt_json (small_model (current_config cm)));
        ("current_preset", opt_json (current_preset (current_config cm)))].

(** [set_models] on two values read from JSON: a value that is no string is
    in no list of models. *)
Definition set_models_json (cm : ConfigManager) (now : string) (big small : json)
  : ConfigManager * bool :=
  match big, small with
  | JStr b, JStr s => set_models cm now b s
  | _, _ => (cm, false)
  end.

(** [key in config] for a list: equality with one of the members *)
Definition in_array (key : string) (l : list json) : bool :=
  existsb (fun j => match j with JStr s => String.eqb s key | _ => false end) l.

Section Serialised.

Variable json_dumps : json -> string.
(** [json.loads]: [None] stands for [JSONDecodeError]. *)
Variable json_loads : string -> option json.

(** [export_config] *)
Definition export_config (cm : ConfigManager) : string :=
  json_dumps (export_json cm).

(** [load_config]: the handler catches [JSONDecodeError] and [KeyError] only. *)
Definition load_config (cm : ConfigManager) (now : string) (config_str : string)
  : result (ConfigManager * bool) :=
  match json_loads config_str with
  | None => Ok (cm, false)
  | Some config =>
      match config with
      | JObj d =>
          if (Dict.has "big_model" d && Dict.has "small_model" d)%bool then
            match Dict.get "big_model" d, Dict.get "small_model" d with
            | Some b, Some s => Ok (set_models_json cm now b s)
            | _, _ => Ok (cm, false)
            end
          else Ok (cm, false)
      | JArr l =>
          if (in_array "big_model" l && in_array "small_model" l)%bool
          then Err (TypeError "list indices must be integers or slices, not str")
          else Ok (cm, false)
      | JStr s =>
          if (Str.contains "big_model" s && Str.contains "small_model" s)%bool
          then Err (TypeError "string indices must be integers")
          else Ok (cm, false)
      | _ => Err (TypeError "argument is not iterable")
      end
  end.

End Serialised.

(** The aliases of a manager are consistent: unset together, or set to models
    that the registry accepts; a current preset is one of the presets and
    names the two models. *)
Definition aliases_consistent (cm : ConfigManager) : Prop :=
  match big_model (current_config cm), small_model (current_config cm) with
  | None, None => current_preset (current_config cm) = None
  | Some b, Some s =>
      validate_model cm b = true /\ validate_model cm s = true
      /\ match current_preset (current_config cm) with
         | None => True
         | Some n =>
             exists preset, Dict.get n (presets cm) = Some preset
                            /\ preset_big_model preset = b
                            /\ preset_small_model preset = s
         end
  | _, _ => False
  end.

End Persist.

(** ** [config.py]: the recording of the user inputs *)

Module Recorder.

Record ConversationRecord : Type := {
  user_input : string;
  timestamp : string;
  model_used : string
}.

(** The fields of the manager that the recording uses; [written] is what was
    appended to files so far, oldest first, each record with its path. *)
Record Recording : Type := {
  conversation_recording_enabled : bool;
  conversation_file_path : option string;
  conversation_buffer : list ConversationRecord;
  buffer_size : nat;
  last_conversations : list string;
  written : list (string * ConversationRecord)
}.

(** [_remove_conversation_by_content] *)
Definition remove_by_content (last : list string) (content : string) : list string :=
  List.filter (fun c => negb (String.eqb c content)) last.

(** The loop of [_is_duplicate_message] over the entries it fixed at its
    start; the list of recent inputs changes as entries are removed. *)
Fixpoint scan (snapshot : list string) (last : list string) (content : string)
  : bool * list string :=
  match snapshot with
  | [] => (false, last)
  | prev_content :: rest =>
      if Str.contains content prev_content then (true, last)
      else if Str.contains prev_content content
           then scan rest (remove_by_content last prev_content) content
           else scan rest last content
  end.

(** [_is_duplicate_message] *)
Definition is_duplicate_message (last : list string) (content : string)
  : bool * list string :=
  scan (List.rev (slice_last 20 last)) last content.

(** [_flush_conversation_buffer]; [io_ok] tells whether the file could be
    opened: when [open] raises nothing is written and the buffer stays; the
    writes to an open file are taken to succeed. *)
Definition flush_conversation_buffer (io_ok : bool) (r : Recording) : Recording :=
  match conversation_buffer r with
  | [] => r
  | _ =>
      match conversation_file_path r with
      | None => r
      | Some path =>
          if Str.is_empty path then r
          else if io_ok then
            {| conversation_recording_enabled := conversation_recording_enabled r;
               conversation_file_path := conversation_file_path r;
               conversation_buffer := [];
               buffer_size := buffer_size r;
               last_conversations := last_conversations r;
               written := written r
                          ++ List.map (fun m => (path, m)) (conversation_buffer r) |}
          else r
      end
  end.

(** [add_conversation_message]; [now] is the time used when no timestamp is given. *)
Definition add_conversation_message (io_ok : bool) (now : string) (r : Recording)
    (role content model : string) (timestamp : option string) : Recording :=
  if (negb (conversation_recording_enabled r) || negb (String.eqb role "user"))%bool
  then r
  else
    let message := {| user_input := content;
                      timestamp := match timestamp with Some t => t | None => now end;
                      model_used := model |} in
    let '(duplicate, last) := is_duplicate_message (last_conversations r) content in
    if duplicate then
      {| conversation_recording_enabled := conversation_recording_enabled r;
         conversation_file_path := conversation_file_path r;
         conversation_buffer := conversation_buffer r;
         buffer_size := buffer_size r;
         last_conversations := last;
         written := written r |}
    else
      let last1 := last ++ [content] in
      let last2 := if Nat.ltb 50 (List.length last1) then slice_last 50 last1 else last1 in
      let r1 := {| conversation_recording_enabled := conversation_recording_enabled r;
                   conversation_file_path := conversation_file_path r;
                   conversation_buffer := conversation_buffer r ++ [message];
                   buffer_size := buffer_size r;
                   last_conversations := last2;
                   written := written r |} in
      if Nat.leb (buffer_size r1) (List.length (conversation_buffer r1))
      then flush_conversation_buffer io_ok r1
      else r1.


(** The records that were accepted and not yet dropped: on file or in the buffer *)
Definition records (r : Recording) : list ConversationRecord :=
  List.map snd (written r) ++ conversation_buffer r.

End Recorder.

(** ** [server.py]: the other validator, the provider of a model, the endpoints *)

Module Endpoints.

Import Config Router.

(** The body of [TokenCountRequest.validate_model_token_count] once the
    aliases were read: the list of Anthropic models is not consulted. *)
Definition map_model_count (super_model big_model small_model : pyval) (v : string)
  : pyval :=
  let clean_v := strip_provider_prefix v in
  let '(new_model, mapped) :=
    if Str.contains "opus" (Str.lower clean_v) then (super_model, true)
    else if Str.contains "haiku" (Str.lower clean_v) then (small_model, true)
    else if Str.contains "sonnet" (Str.lower clean_v) then (big_model, true)
    else if (Str.mem clean_v GEMINI_MODELS && negb (Str.startswith "gemini/" v))%bool
      then (PyStr ("gemini/" +:+ clean_v), true)
    else if (Str.mem clean_v OPENAI_MODELS && negb (Str.startswith "openai/" v))%bool
      then (PyStr ("openai/" +:+ clean_v), true)
    else (PyStr v, false) in
  if mapped then new_model else PyStr v.

(** [TokenCountRequest.validate_model_token_count] *)
Definition validate_model_token_count (status : gmap string pyval) (v : string)
  : result pyval :=
  try super_model <- getitem status "super_model" in
  try big_model <- getitem status "big_model" in
  try small_model <- getitem status "small_model" in
  Ok (map_model_count super_model big_model small_model v).

(** [get_model_provider] *)
Definition get_model_provider (cm : ConfigManager) (model_name : string) : string :=
  match find_model_provider cm model_name with
  | Some provider_name =>
      if Str.is_empty provider_name then
        if Str.mem model_name OPENAI_MODELS then "openai"
        else if Str.mem model_name GEMINI_MODELS then "gemini"
        else if Str.mem model_name ANTHROPIC_MODELS then "anthropic"
        else "unknown"
      else provider_name
  | None =>
      if Str.mem model_name OPENAI_MODELS then "openai"
      else if Str.mem model_name GEMINI_MODELS then "gemini"
      else if Str.mem model_name ANTHROPIC_MODELS then "anthropic"
      else "unknown"
  end.

Definition has_known_prefix (model_name : string) : bool :=
  (Str.startswith "openai/" model_name || Str.startswith "gemini/" model_name
   || Str.startswith "anthropic/" model_name)%bool.

(** [add_model_prefix] *)
Definition add_model_prefix (cm : ConfigManager) (model_name : string) : string :=
  if has_known_prefix model_name then model_name
  else
    let provider := get_model_provider cm model_name in
    if String.eqb provider "unknown" then model_name
    else provider +:+ "/" +:+ model_name.

(** The keys read from the environment *)
Record Env : Type := {
  ANTHROPIC_API_KEY : option string;
  OPENAI_API_KEY : option string;
  GEMINI_API_KEY : option string;
  OPENAI_BASE_URL : option string
}.

(** What [create_message] adds to the LiteLLM request before the call *)
Record Target : Type := {
  target_model : string;
  target_api_key : option string;
  target_api_base : option string
}.

(** The choice of the credentials and of the final model name in
    [create_message], for the model of the request *)
Definition select_target (cm : ConfigManager) (env : Env) (request_model : string)
  : Target :=
  let fallback :=
    if Str.startswith "openai/" request_model then
      {| target_model := request_model;
         target_api_key := OPENAI_API_KEY env;
         target_api_base := if Str.truthy (OPENAI_BASE_URL env)
                            then OPENAI_BASE_URL env else None |}
    else if Str.startswith "gemini/" request_model then
      {| target_model := request_model; target_api_key := GEMINI_API_KEY env;
         target_api_base := None |}
    else
      {| target_model := request_model; target_api_key := ANTHROPIC_API_KEY env;
         target_api_base := None |} in
  match find_model_provider cm request_model with
  | Some provider_name =>
      if Str.is_empty provider_name then fallback
      else
        match Dict.get provider_name (providers cm) with
        | Some provider =>
            {| target_model :=
                 if String.eqb (api_format provider) "openai" then
                   if Str.startswith "openai/" request_model then request_model
                   else "openai/" +:+ request_model
                 else
                   if Str.startswith (provider_name +:+ "/") request_model
                   then request_model
                   else provider_name +:+ "/" +:+ request_model;
               target_api_key := api_key provider;
               target_api_base := Some (base_url provider) |}
        | None => fallback
        end
  | None => fallback
  end.

(** The reply of the OpenAI-compatible endpoint *)
Record ChatCompletion : Type := {
  chat_id : string;
  created : Z;
  chat_model : string;
  chat_content : string;
  chat_finish_reason : string;
  prompt_tokens : Z;
  completion_tokens : Z;
  total_tokens : Z
}.

Inductive ChatReply : Type :=
| AsChatCompletion (c : ChatCompletion)
| AsMessages (r : Response.MessagesResponse).

(** The conversion at the end of [openai_chat_completions], for a reply that
    is not streamed; [now] is [int(time.time())]. Reading [text] on a
    [tool_use] block fails. *)
Definition to_chat_completion (now : Z) (request_model : string)
    (response : Response.MessagesResponse) : result ChatReply :=
  match Response.content response with
  | [] => Ok (AsMessages response)
  | Response.ContentBlockText text :: _ =>
      Ok (AsChatCompletion
            {| chat_id := "chatcmpl-" +:+ Response.id response;
               created := now;
               chat_model := request_model;
               chat_content := text;
               chat_finish_reason := "stop";
               prompt_tokens := Response.input_tokens (Response.usage response);
               completion_tokens := Response.output_tokens (Response.usage response);
               total_tokens := Response.input_tokens (Response.usage response)
                               + Response.output_tokens (Response.usage response) |})
  | Response.ContentBlockToolUse _ _ _ :: _ => Err (AttributeError "text")
  end.

(** [MAPPING_PRESETS]: the two models of each preset *)
Definition MAPPING_PRESETS : list (string * (string * string)) :=
  [ ("openai_only", ("gpt-4o", "gpt-4o-mini"));
    ("gemini_only", ("gemini-1.5-pro", "gemini-1.5-flash"));
    ("anthropic_only", ("claude-3-5-sonnet-20241022", "claude-3-5-haiku-20241022"));
    ("mixed_premium", ("gpt-4o", "gemini-1.5-flash"));
    ("mixed_cost_effective", ("gemini-1.5-pro", "gpt-4o-mini"));
    ("reasoning_focused", ("o1-preview", "gpt-4o-mini"));
    ("speed_focused", ("claude-3-5-haiku-20241022", "gemini-1.5-flash")) ].

(** [ConfigUpdateRequest], without the flag that the endpoint does not read *)
Record ConfigUpdateRequest : Type := {
  req_preferred_provider : option string;
  req_big_model : option string;
  req_small_model : option string;
  req_preset : option string
}.

Record ConfigResponse : Type := {
  resp_preferred_provider : pyval;
  resp_big_model : pyval;
  resp_small_model : pyval
}.

(** [set_models] called with values that may be [None]: [None] is in no list. *)
Definition set_models_opt (cm : ConfigManager) (now : string)
    (big small : option string) : ConfigManager * bool :=
  match big, small with
  | Some b, Some s => set_models cm now b s
  | _, _ => (cm, false)
  end.

(** The reading of the status at the end of [switch_model] and in [get_config] *)
Definition config_response (cm : ConfigManager) : result ConfigResponse :=
  try p <- getitem (get_status cm) "preferred_provider" in
  try b <- getitem (get_status cm) "big_model" in
  try s <- getitem (get_status cm) "small_model" in
  Ok {| resp_preferred_provider := p; resp_big_model := b; resp_small_model := s |}.

(** [get_config] *)
Definition get_config (cm : ConfigManager) : result ConfigResponse :=
  config_response cm.

(** [switch_model]: the manager after the call, and the reply or the status
    code of the error. Every exception raised in the body, the two
    [HTTPException(400)] included, is caught and raised again with code 500. *)
Definition switch_model (cm : ConfigManager) (now : string) (request : ConfigUpdateRequest)
  : ConfigManager * (ConfigResponse + Z) :=
  if Str.truthy (req_preset request) then
    match req_preset request with
    | Some preset =>
        match Dict.get preset MAPPING_PRESETS with
        | None => (cm, inr 500)
        | Some (big, small) =>
            let cm1 := fst (set_models cm now big small) in
            match config_response cm1 with
            | Ok r => (cm1, inl r)
            | Err _ => (cm1, inr 500)
            end
        end
    | None => (cm, inr 500)
    end
  else if (Str.truthy (req_preferred_provider request)
           && negb (match req_preferred_provider request with
                    | Some p => Str.mem p ["openai"; "google"; "anthropic"]
                    | None => false
                    end))%bool
  then (cm, inr 500)
  else
    let cm1 := fst (set_models_opt cm now (req_big_model request) (req_small_model request)) in
    match config_response cm1 with
    | Ok r => (cm1, inl r)
    | Err _ => (cm1, inr 500)
    end.

End Endpoints.

(** ** [server.py]: the messages of a request for an OpenAI-format backend *)

Module Fixup.

Import Request.

Definition nl : string := String (ascii_of_nat 10) EmptyString.

(** The line that stands for a block of a list content *)
Definition part_text (p : Part) : string :=
  match p with
  | PartText text => text +:+ nl
  | PartImage _ => "[Image content - not displayed in text format]" +:+ nl
  end.

Definition parts_text (parts : list Part) : string :=
  fold_left (fun acc p => acc +:+ part_text p) parts "".

Section ListContent.

(** A content that is a list, but was not built from text and image blocks,
    is the [text] of a tool result given as a dictionary. The two loops of
    [create_message] over such a list end in the assignment of a stripped
    string, unless a sum fails on the way: they are kept as a function. *)
Variable flatten_blocks : list json -> result string.

(** The content of a message after the three passes of [create_message] over
    the messages; [None] is a message without [content] key. A list of text
    and image blocks is never made of [tool_result] dictionaries only, so that
    it goes through the normal case. *)
Definition fixup_content (c : option BackendContent) : result (option BackendContent) :=
  match c with
  | None => Ok (Some (BStr "..."))
  | Some (BStr _) => Ok c
  | Some (BParts parts) =>
      let text_content := parts_text parts in
      let text_content :=
        if Str.is_empty (strip text_content) then "..." else text_content in
      Ok (Some (BStr (strip text_content)))
  | Some (BJson JNull) => Ok (Some (BStr "..."))
  | Some (BJson (JArr items)) =>
      try text <- flatten_blocks items in Ok (Some (BStr text))
  | Some (BJson _) => Ok c
  end.

(** The keys of a message are [role], [content], [tool_call_id] and
    [tool_calls]: the second pass removes none of them. *)
Definition fixup_message (m : BackendMessage) : result BackendMessage :=
  try c <- fixup_content (b_content m) in
  Ok {| b_role := b_role m; b_content := c;
        b_tool_call_id := b_tool_call_id m; b_tool_calls := b_tool_calls m |}.

Fixpoint fixup_messages (msgs : list BackendMessage) : result (list BackendMessage) :=
  match msgs with
  | [] => Ok []
  | m :: rest =>
      try m' <- fixup_message m in
      try rest' <- fixup_messages rest in
      Ok (m' :: rest')
  end.

(** [if "openai" in litellm_request["model"] and "messages" in litellm_request] *)
Definition openai_fixup (target_model : string) (msgs : list BackendMessage)
  : result (list BackendMessage) :=
  if Str.contains "openai" target_model then fixup_messages msgs else Ok msgs.

End ListContent.

End Fixup.

(** ** What is read off the outputs in the statements below *)

Module Observe.

Import Stream.

(** The text of a text delta, the index of an opened tool block *)
Definition text_of (e : event) : option string :=
  match e with
  | Event "content_block_delta"
      (JObj [("type", JStr "content_block_delta"); ("index", JInt 0);
             ("delta", JObj [("type", JStr "text_delta"); ("text", JStr text)])]) =>
      Some text
  | _ => None
  end.

Definition tool_start_of (e : event) : option nat :=
  match e with
  | Event "content_block_start"
      (JObj [("type", JStr "content_block_start"); ("index", JInt i);
             ("content_block",
              JObj [("type", JStr "tool_use"); ("id", _); ("name", _); ("input", _)])]) =>
      Some (Z.to_nat i)
  | _ => None
  end.

Fixpoint collect {A B : Type} (f : A -> option B) (l : list A) : list B :=
  match l with
  | [] => []
  | x :: rest =>
      match f x with
      | Some y => y :: collect f rest
      | None => collect f rest
      end
  end.

(** The texts of the text deltas of a sequence of events, in order *)
Definition text_deltas (l : list event) : list string := collect text_of l.

(** The indices of the tool blocks that a sequence of events opens, in order *)
Definition tool_starts (l : list event) : list nat := collect tool_start_of l.

(** The events between the opening of a stream and its closing envelope *)
Definition is_content_event (e : event) : bool :=
  match e with
  | Event name _ =>
      (String.eqb name "content_block_start" || String.eqb name "content_block_delta"
       || String.eqb name "content_block_stop")%bool
  | Done => false
  end.

(** The text that a chunk carries, when it is not empty *)
Definition chunk_text (c : Chunk) : option string :=
  match choices c with
  | choice :: _ =>
      match content (delta choice) with
      | Some text => if Str.is_empty text then None else Some text
      | None => None
      end
  | [] => None
  end.

Definition has_tool_calls (c : Chunk) : bool :=
  match choices c with
  | choice :: _ =>
      match tool_calls (delta choice) with
      | Some (_ :: _) => true
      | _ => false
      end
  | [] => false
  end.

Definition has_finish (c : Chunk) : bool :=
  match choices c with
  | choice :: _ =>
      match finish_reason choice with
      | Some reason => negb (Str.is_empty reason)
      | None => false
      end
  | [] => false
  end.

(** The texts of the chunks up to the first chunk that has a finish signal
    or tool calls, that one included *)
Fixpoint forwarded_texts (chunks : list Chunk) : list string :=
  match chunks with
  | [] => []
  | c :: rest =>
      (match chunk_text c with Some t => [t] | None => [] end)
      ++ (if (has_finish c || has_tool_calls c)%bool then [] else forwarded_texts rest)
  end.

(** The output counter after a chunk, and the one that stands when the first
    finish signal arrives or the stream ends *)
Definition completion_of (acc : Z) (c : Chunk) : Z :=
  match usage c with
  | Some u => match completion_tokens u with Some n => n | None => acc end
  | None => acc
  end.

Fixpoint reported_output (acc : Z) (chunks : list Chunk) : Z :=
  match chunks with
  | [] => acc
  | c :: rest =>
      if has_finish c then completion_of acc c
      else reported_output (completion_of acc c) rest
  end.

(** The stop reason for the first finish signal of the chunks *)
Fixpoint stop_reason_of (chunks : list Chunk) : string :=
  match chunks with
  | [] => "end_turn"
  | c :: rest =>
      match choices c with
      | choice :: _ =>
          match finish_reason choice with
          | Some reason =>
              if Str.is_empty reason then stop_reason_of rest else map_stop_reason reason
          | None => stop_reason_of rest
          end
      | [] => stop_reason_of rest
      end
  end.

(** Whether a tool call was seen, and the states that the loop can be in: no
    finish signal yet; before the first tool call block 0 is open and what
    was accumulated was sent; after it block 0 is closed. *)
Definition started (st : State) : bool :=
  match tool_index st with Some _ => true | None => false end.

Definition reach (st : State) : Prop :=
  has_sent_stop_reason st = false
  /\ if started st
     then text_block_closed st = true /\ (1 <= last_tool_index st)%nat
     else text_block_closed st = false /\ last_tool_index st = 0%nat
          /\ (Str.is_empty (accumulated_text st) = true \/ text_sent st = true).

(** The identifiers and names of the [tool_use] blocks of a message, the
    identifiers of its [tool_result] blocks *)
Fixpoint tool_use_ids (blocks : list Request.ContentBlock) : list (string * string) :=
  match blocks with
  | [] => []
  | Request.ContentBlockToolUse id name _ :: rest => (id, name) :: tool_use_ids rest
  | _ :: rest => tool_use_ids rest
  end.

Fixpoint tool_result_ids (blocks : list Request.ContentBlock) : list string :=
  match blocks with
  | [] => []
  | Request.ContentBlockToolResult id _ :: rest => id :: tool_result_ids rest
  | _ :: rest => tool_result_ids rest
  end.

(** The [tool_call_id] of the backend messages with the [tool] role *)
Fixpoint tool_message_ids (l : list Request.BackendMessage) : list string :=
  match l with
  | [] => []
  | m :: rest =>
      if String.eqb (Request.b_role m) "tool" then
        match Request.b_tool_call_id m with
        | Some id => id :: tool_message_ids rest
        | None => tool_message_ids rest
        end
      else tool_message_ids rest
  end.

(** The identifiers and names of the tool calls that the backend messages carry *)
Definition backend_call_ids (l : list Request.BackendMessage) : list (string * string) :=
  List.flat_map
    (fun m => match Request.b_tool_calls m with
              | Some calls =>
                  List.map (fun c => (Request.call_id c, Request.call_name c)) calls
              | None => []
              end) l.

(** The tool uses of the assistant turns of a conversation, the tool results
    of its user turns *)
Definition assistant_tool_uses (msgs : list Request.Message) : list (string * string) :=
  List.flat_map
    (fun m => match Request.role m, Request.content m with
              | Request.Assistant, Request.ContentBlocks blocks => tool_use_ids blocks
              | _, _ => []
              end) msgs.

Definition user_tool_results (msgs : list Request.Message) : list string :=
  List.flat_map
    (fun m => match Request.role m, Request.content m with
              | Request.User, Request.ContentBlocks blocks => tool_result_ids blocks
              | _, _ => []
              end) msgs.

(** A content that is there and is no list; a content that is a string *)
Definition settled (m : Request.BackendMessage) : bool :=
  match Request.b_content m with
  | Some (Request.BStr _) => true
  | Some (Request.BJson (JArr _)) | Some (Request.BJson JNull) => false
  | Some (Request.BJson _) => true
  | Some (Request.BParts _) | None => false
  end.

Definition string_content (m : Request.BackendMessage) : bool :=
  match Request.b_content m with
  | Some (Request.BStr _) => true
  | _ => false
  end.

(** No tool result of the conversation is given as a dictionary *)
Definition plain_result (b : Request.ContentBlock) : bool :=
  match b with
  | Request.ContentBlockToolResult _ (JObj _) => false
  | _ => true
  end.

Definition plain_results (msgs : list Request.Message) : bool :=
  forallb (fun m => match Request.content m with
                    | Request.ContentBlocks blocks => forallb plain_result blocks
                    | Request.ContentStr _ => true
                    end) msgs.

(** The input of a [tool_use] block for arguments given as a string: the
    parsed object, the string under [raw] when it is no JSON, nothing when it
    is JSON but no object *)
Definition parsed_input (json_loads : string -> option Response.pv) (arguments : string)
  : option (list (string * Response.pv)) :=
  match json_loads arguments with
  | Some (Response.VDict d) => Some d
  | Some _ => None
  | None => Some [("raw", Response.VStr arguments)]
  end.

(** The parts of a backend reply in the dictionary form, and the content
    that the translator builds from them *)
Definition text_value (t : option string) : Response.pv :=
  match t with Some s => Response.VStr s | None => Response.VNone end.

Definition usage_value (h : Response.Form) (p c : Z) : Response.pv :=
  Response.shaped h [("prompt_tokens", Response.VInt p);
                     ("completion_tokens", Response.VInt c)].

Definition text_blocks (t : option string) : list Response.ContentBlock :=
  match t with
  | Some s => if Str.is_empty s then [] else [Response.ContentBlockText s]
  | None => []
  end.

Definition tool_blocks (calls : list (string * string * string))
    (inputs : list (list (string * Response.pv))) : list Response.ContentBlock :=
  List.map (fun ci => Response.ContentBlockToolUse (fst (fst (fst ci))) (snd (fst (fst ci)))
                        (snd ci))
    (List.combine calls inputs).

Definition reply_content (t : option string) (calls : list (string * string * string))
    (inputs : list (list (string * Response.pv))) : list Response.ContentBlock :=
  match text_blocks t ++ tool_blocks calls inputs with
  | [] => [Response.ContentBlockText ""]
  | l => l
  end.


End Observe.

(** ** Sample values *)

Module Samples.

Import Config.

Definition provider_a : ProviderConfig :=
  {| name := "A"; base_url := "https://a.example/v1"; api_key_env := "A_KEY";
     api_format := "openai"; endpoint := "/chat/completions";
     api_key := None; models := ["m"] |}.

Definition provider_b : ProviderConfig :=
  {| name := "B"; base_url := "https://b.example/v1"; api_key_env := "B_KEY";
     api_format := "openai"; endpoint := "/chat/completions";
     api_key := Some "k"; models := ["m"; "gpt-4o"; "gpt-4o-mini"] |}.

(** A manager with two providers that list the model [m], the first of them
    without a key *)
Definition two_providers : ConfigManager :=
  {| providers := [("a", provider_a); ("b", provider_b)];
     presets := []; debug_logs := []; max_debug_logs := 50;
     current_config := {| proxy_enabled := true; big_model := None;
                          small_model := None; current_preset := None |} |}.

Definition entry (t : string) : LogEntry :=
  {| timestamp := "2025-01-01T00:00:00"; log_type := t; message := ""; details := JObj [] |}.

(** A manager with four log entries of two types *)
Definition with_logs : ConfigManager :=
  {| providers := [("b", provider_b)];
     presets := []; debug_logs := [entry "request"; entry "error"; entry "request";
                                   entry "request"];
     max_debug_logs := 50;
     current_config := {| proxy_enabled := true; big_model := None;
                          small_model := None; current_preset := None |} |}.

Definition default_preset : Preset :=
  {| preset_name := "default"; preset_big_model := "gpt-4o";
     preset_small_model := "gpt-4o-mini" |}.

(** A manager that starts with a default preset that its provider serves *)
Definition with_aliases : ConfigManager :=
  init [("b", provider_b)] [("default", default_preset)].

End Samples.

Module RequestSamples.

Import Request.

(** A conversation with a tool call and its result *)
Definition tool_round : list Message :=
  [ {| role := User; content := ContentStr "what is in src?" |};
    {| role := Assistant;
       content := ContentBlocks [ContentBlockText "looking";
                                 ContentBlockToolUse "call_0" "ls" (JObj [])] |};
    {| role := User;
       content := ContentBlocks [ContentBlockToolResult "call_0" (JStr "server.py")] |} ].

(** A tool result whose text is a number *)
Definition bad_result : list Message :=
  [ {| role := User;
       content := ContentBlocks
                    [ContentBlockToolResult "call_0"
                       (JArr [JObj [("type", JStr "text"); ("text", JInt 42)]])] |} ].


Definition typed_tool : Tool :=
  {| tool_name := "fetch"; tool_description := Some "fetch a page";
     input_schema :=
       [("type", JStr "object");
        ("properties",
         JObj [("url", JObj [("type", JStr "string"); ("format", JStr "uri");
                             ("default", JStr "about:blank")])]);
        ("additionalProperties", JBool false)] |}.


End RequestSamples.

Module RecorderSamples.

Import Recorder.

(** A recording that is switched on, with one input seen and one record buffered *)
Definition recording : Recording :=
  {| conversation_recording_enabled := true;
     conversation_file_path := Some "/tmp/conversation.jsonl";
     conversation_buffer :=
       [{| user_input := "list the files in src"; timestamp := "t0"; model_used := "m" |}];
     buffer_size := 10;
     last_conversations := ["list the files in src"];
     written := [] |}.

End RecorderSamples.

(** * Properties *)

(** ** The debug log store *)

Section DebugLog.

Import Config.

Lemma slice_last_length {A : Type} (n : nat) (l : list A) :
  (0 < n)%nat -> (List.length (slice_last n l) <= n)%nat.
Proof.
  intros Hn. unfold slice_last. destruct n as [|n]; [lia|].
  rewrite List.length_skipn. lia.
Qed.

Lemma slice_last_short {A : Type} (n : nat) (l : list A) :
  (List.length l <= n)%nat -> slice_last n l = l.
Proof.
  intros Hl. unfold slice_last. destruct n as [|n]; [reflexivity|].
  replace (List.length l - S n)%nat with 0%nat by lia. reflexivity.
Qed.

Lemma add_debug_log_logs cm now ty msg d :
  max_debug_logs cm = 50%nat ->
  debug_logs (add_debug_log cm now ty msg d)
  = slice_last 50 (debug_logs cm ++
      [{| timestamp := now; log_type := ty; message := msg; details := or_empty d |}]).
Proof.
  intros Hmax. unfold add_debug_log. rewrite Hmax.
  destruct (Nat.ltb_spec 50
    (List.length (debug_logs cm ++
      [{| timestamp := now; log_type := ty; message := msg; details := or_empty d |}])))
    as [Hlt|Hge]; simpl.
  - reflexivity.
  - symmetry. apply slice_last_short. exact Hge.
Qed.

Lemma add_debug_log_max cm now ty msg d :
  max_debug_logs (add_debug_log cm now ty msg d) = max_debug_logs cm.
Proof. unfold add_debug_log. destruct (Nat.ltb _ _); reflexivity. Qed.

Lemma add_debug_log_bounded cm now ty msg d :
  max_debug_logs cm = 50%nat -> bounded (add_debug_log cm now ty msg d).
Proof.
  intros Hmax. split.
  - rewrite add_debug_log_max. exact Hmax.
  - rewrite add_debug_log_logs by exact Hmax. apply slice_last_length. lia.
Qed.

Lemma step_bounded cm o : bounded cm -> bounded (step cm o).
Proof.
  intros [Hmax Hlen]. destruct o as [now ty msg d| |now p|now b s|]; simpl.
  - apply add_debug_log_bounded. exact Hmax.
  - split; simpl; [exact Hmax | lia].
  - unfold apply_preset. destruct (Dict.get p (presets cm)) as [preset|]; simpl.
    + destruct (validate_model cm (preset_big_model preset)); simpl;
        [|split; assumption].
      destruct (validate_model cm (preset_small_model preset)); simpl;
        [|split; assumption].
      apply add_debug_log_bounded. exact Hmax.
    + split; assumption.
  - unfold set_models.
    destruct (negb (validate_model cm b) || negb (validate_model cm s))%bool; simpl.
    + split; assumption.
    + apply add_debug_log_bounded. exact Hmax.
  - split; assumption.
Qed.

Lemma init_bounded ps pr : bounded (init ps pr).
Proof.
  unfold init, load_default_preset; simpl.
  destruct (Dict.get "default" pr) as [preset|]; simpl.
  - match goal with |- bounded (if ?c then _ else _) => destruct c end;
      split; simpl; lia.
  - split; simpl; lia.
Qed.

Lemma run_bounded ops : forall cm, bounded cm -> bounded (run cm ops).
Proof.
  induction ops as [|o ops IH]; intros cm Hb; simpl.
  - exact Hb.
  - apply IH. apply step_bounded. exact Hb.
Qed.

Lemma last_slice_last {A : Type} (n : nat) (l : list A) (x d : A) :
  (0 < n)%nat -> List.last (slice_last n (l ++ [x])) d = x.
Proof.
  intros Hn. unfold slice_last. destruct n as [|n]; [lia|].
  rewrite List.length_app. simpl.
  destruct (Nat.le_gt_cases (List.length l + 1) (S n)) as [Hle|Hgt].
  - replace (List.length l + 1 - S n)%nat with 0%nat by lia. simpl.
    apply List.last_last.
  - rewrite List.skipn_app.
    replace (List.length l + 1 - S n - List.length l)%nat with 0%nat by lia.
    simpl. apply List.last_last.
Qed.

(** C10. After [ConfigManager.__init__] and any sequence of operations the
    debug log holds at most [max_debug_logs] = 50 entries; [add_debug_log]
    leaves the 50 most recent entries of the list extended by the new entry,
    which is therefore the last one of the store. The new entry holds the
    details that were given, or the empty dictionary when none were. *)
Theorem debug_logs_bounded :
  forall ps pr ops,
    max_debug_logs (run (init ps pr) ops) = 50%nat
    /\ (List.length (debug_logs (run (init ps pr) ops)) <= 50)%nat
    /\ forall now ty msg d,
         debug_logs (add_debug_log (run (init ps pr) ops) now ty msg d)
         = slice_last 50
             (debug_logs (run (init ps pr) ops) ++
                [{| timestamp := now; log_type := ty; message := msg;
                    details := or_empty d |}])
         /\ (List.length
               (debug_logs (add_debug_log (run (init ps pr) ops) now ty msg d)) <= 50)%nat
         /\ List.last (debug_logs (add_debug_log (run (init ps pr) ops) now ty msg d))
              {| timestamp := ""; log_type := ""; message := ""; details := JNull |}
            = {| timestamp := now; log_type := ty; message := msg;
                 details := or_empty d |}.
Proof.
  intros ps pr ops.
  destruct (run_bounded ops (init ps pr) (init_bounded ps pr)) as [Hmax Hlen].
  split; [exact Hmax|]. split; [exact Hlen|].
  intros now ty msg d.
  pose proof (add_debug_log_bounded (run (init ps pr) ops) now ty msg d Hmax) as [_ Hb].
  split; [apply add_debug_log_logs; exact Hmax|].
  split; [exact Hb|].
  rewrite add_debug_log_logs by exact Hmax.
  apply last_slice_last. lia.
Qed.

End DebugLog.

(** ** Model routing *)

Section Routing.

Import Config Router.

(** The dictionary built by [get_status] has no entry for the super alias. *)
Lemma get_status_super_model cm : get_status cm !! "super_model" = None.
Proof.
  unfold get_status.
  repeat (rewrite lookup_insert_ne by discriminate).
  apply lookup_empty.
Qed.

(** C5. Routing of any inbound token against the manager of [config.py]
    stops at the read of [current_config["super_model"]]: the dictionary of
    [get_status] has no such key, so the validator raises [KeyError] before it
    strips a prefix or looks for a keyword, in every reachable state of the
    manager. *)
Theorem routing_raises_key_error :
  forall ps pr ops v,
    route (run (init ps pr) ops) v = Err (KeyError "super_model").
Proof.
  intros ps pr ops v. unfold route, validate_model_field, getitem.
  rewrite get_status_super_model. reflexivity.
Qed.

Lemma keyword_opus clean_v :
  Str.contains "opus" (Str.lower clean_v) = true -> keyword_alias clean_v = Some Super.
Proof. intros H. unfold keyword_alias. rewrite H. reflexivity. Qed.

Lemma keyword_haiku clean_v :
  Str.contains "opus" (Str.lower clean_v) = false ->
  Str.contains "haiku" (Str.lower clean_v) = true ->
  keyword_alias clean_v = Some Small.
Proof. intros H1 H2. unfold keyword_alias. rewrite H1, H2. reflexivity. Qed.

Lemma keyword_sonnet clean_v :
  Str.contains "opus" (Str.lower clean_v) = false ->
  Str.contains "haiku" (Str.lower clean_v) = false ->
  Str.contains "sonnet" (Str.lower clean_v) = true ->
  keyword_alias clean_v = Some Big.
Proof. intros H1 H2 H3. unfold keyword_alias. rewrite H1, H2, H3. reflexivity. Qed.

Lemma map_model_keyword sup big small v a :
  keyword_alias (strip_provider_prefix v) = Some a ->
  map_model sup big small v = alias_value a sup big small.
Proof.
  unfold keyword_alias, map_model. intros H.
  destruct (Str.contains "opus" (Str.lower (strip_provider_prefix v))).
  - inversion H; subst. reflexivity.
  - destruct (Str.contains "haiku" (Str.lower (strip_provider_prefix v))).
    + inversion H; subst. reflexivity.
    + destruct (Str.contains "sonnet" (Str.lower (strip_provider_prefix v))).
      * inversion H; subst. reflexivity.
      * discriminate H.
Qed.

(** C1. With both aliases of the manager unset, the routing of a token ends
    in the [KeyError] of the missing [super_model] key, whatever the token: the
    validator stops before it looks at the token or at an alias, and returns no
    model. The same error is raised when the aliases are set. *)
Theorem unset_alias_raises_key_error :
  forall ps pr ops v,
    big_model (current_config (run (init ps pr) ops)) = None ->
    small_model (current_config (run (init ps pr) ops)) = None ->
    route (run (init ps pr) ops) v = Err (KeyError "super_model")
    /\ (forall x, route (run (init ps pr) ops) v <> Ok x)
    /\ route (run (init ps pr) ops) v = route Samples.with_aliases v.
Proof.
  intros ps pr ops v _ _.
  assert (H : forall cm, route cm v = Err (KeyError "super_model")).
  { intros cm. unfold route, validate_model_field, getitem.
    rewrite get_status_super_model. reflexivity. }
  split; [apply H|]. split.
  - intros x Hx. rewrite H in Hx. discriminate Hx.
  - rewrite !H. reflexivity.
Qed.

Lemma unset_alias_raises_key_error_witness :
  route (init [] []) "anthropic/claude-3-5-Haiku-20241022" = Err (KeyError "super_model").
Proof.
  exact (proj1 (unset_alias_raises_key_error [] [] []
                  "anthropic/claude-3-5-Haiku-20241022" eq_refl eq_refl)).
Defined.

(** The precedence of the keywords on names that hold several of them *)
Example opus_wins_over_sonnet :
  keyword_alias (strip_provider_prefix "openai/claude-Opus-sonnet") = Some Super.
Proof. reflexivity. Qed.

Example haiku_wins_over_sonnet :
  keyword_alias (strip_provider_prefix "claude-sonnet-HAIKU") = Some Small.
Proof. reflexivity. Qed.

Example route_opus_sonnet :
  route (init [] []) "claude-opus-sonnet" = Err (KeyError "super_model").
Proof. vm_compute. reflexivity. Qed.

End Routing.

(** ** The transparent forwarder *)

Section Forwarding.

Import Forward.

(** C9, as amended. The headers sent upstream, name by name: [host] is
    gone; [anthropic-version] is the client's, or [2023-06-01] when the client
    sent none; with a configured credential [x-api-key] is that credential and
    [authorization] is gone; every other header is the client's. *)
Theorem forwarded_header :
  forall key (raw : gmap string string) k,
    forward_headers key raw !! k
    = if String.eqb k "host" then None
      else if String.eqb k "anthropic-version"
           then Some (match raw !! k with Some v => v | None => "2023-06-01" end)
      else if (Str.truthy key && String.eqb k "x-api-key")%bool then key
      else if (Str.truthy key && String.eqb k "authorization")%bool then None
      else raw !! k.
Proof.
  intros key raw k.
  destruct (String.eqb_spec k "host") as [->|Hhost];
    [|destruct (String.eqb_spec k "anthropic-version") as [->|Hver];
      [|destruct (String.eqb_spec k "x-api-key") as [->|Hkey];
        [|destruct (String.eqb_spec k "authorization") as [->|Hauth]]]];
    unfold forward_headers; destruct key as [s|]; simpl;
    try (destruct (Str.is_empty s) eqn:Hs; simpl);
    repeat match goal with
      | |- context [match ?m !! "anthropic-version" with _ => _ end] =>
          let E := fresh "E" in destruct (m !! "anthropic-version") eqn:E
      end;
    simplify_map_eq; try reflexivity; try congruence.
Qed.

(** C9, as stated, fails: with no configured credential and a client that
    sends no [anthropic-version], a header is added to the client's set. *)
Lemma version_header_added :
  forward_headers None {[ "host" := "localhost:8082"; "authorization" := "Bearer t" ]}
  <> described_headers None {[ "host" := "localhost:8082"; "authorization" := "Bearer t" ]}.
Proof.
  intros H.
  apply (f_equal (fun m : gmap string string => m !! "anthropic-version")) in H.
  vm_compute in H. discriminate H.
Qed.

End Forwarding.

(** ** The streaming reconstructor *)

Section Streaming.

Import Stream.

(** C2, as amended. On the scenario the reconstructor yields the described
    events in the described order, with the keep-alive [ping] after the
    opening of the text block; without the [ping] the sequence is the
    described one. *)
Theorem scenario_events :
  forall json_dumps tool_uuid message_id model tool_id,
    handle_streaming json_dumps tool_uuid message_id model (scenario tool_id)
    = [message_start message_id model; text_block_start; ping;
       text_delta "Hello"; content_block_stop 0;
       tool_block_start 1 (JStr tool_id) (JStr "f");
       input_json_delta 1 args_fragment; content_block_stop 1;
       message_delta "tool_use" 0; message_stop; Done]
    /\ List.filter (fun e => negb (is_ping e))
         (handle_streaming json_dumps tool_uuid message_id model (scenario tool_id))
       = described_events message_id model tool_id.
Proof. intros. split; reflexivity. Qed.

(** C2, as stated, fails: the yielded sequence is not exactly the described
    one, a [ping] event stands between the opening of block 0 and its delta. *)
Lemma scenario_has_ping :
  handle_streaming (fun _ => "") (fun _ => "") "msg_1" "openai/gpt-4o" (scenario "call_1")
  <> described_events "msg_1" "openai/gpt-4o" "call_1".
Proof.
  intros H.
  apply (f_equal (fun l => List.map is_ping l)) in H.
  vm_compute in H. discriminate H.
Qed.

(** C3. A stream with a tool-call fragment and no finish signal: block 0 is
    closed when the tool call arrives and closed again by the closing sequence
    at the end of the stream. *)
Theorem text_block_closed_twice :
  forall json_dumps tool_uuid message_id model,
    count_stops 0
      (handle_streaming json_dumps tool_uuid message_id model
         [text_chunk "Hello"; tool_chunk 0 "call_1" "f" args_fragment]) = 2%nat
    /\ handle_streaming json_dumps tool_uuid message_id model
         [text_chunk "Hello"; tool_chunk 0 "call_1" "f" args_fragment]
       = [message_start message_id model; text_block_start; ping;
          text_delta "Hello"; content_block_stop 0;
          tool_block_start 1 (JStr "call_1") (JStr "f");
          input_json_delta 1 args_fragment;
          content_block_stop 1; content_block_stop 0;
          message_delta "end_turn" 0; message_stop; Done].
Proof. intros. split; reflexivity. Qed.

(** The sibling path: with a finish signal the same fragments close block 0 once. *)
Example text_block_closed_once_on_finish :
  forall json_dumps tool_uuid message_id model,
    count_stops 0
      (handle_streaming json_dumps tool_uuid message_id model
         [text_chunk "Hello"; tool_chunk 0 "call_1" "f" args_fragment;
          finish_chunk "stop"]) = 1%nat.
Proof. intros. reflexivity. Qed.

(** *** The closings of the blocks, path by path *)

Lemma count_stops_app i l1 l2 :
  count_stops i (l1 ++ l2) = (count_stops i l1 + count_stops i l2)%nat.
Proof. unfold count_stops. rewrite List.filter_app, List.length_app. reflexivity. Qed.

Lemma is_stop_content_block_stop i k :
  is_stop i (content_block_stop k) = Nat.eqb k i.
Proof.
  unfold is_stop, content_block_stop, jnat. simpl.
  destruct (Nat.eqb_spec k i) as [->|Hne].
  - apply Z.eqb_refl.
  - apply Z.eqb_neq. lia.
Qed.

Lemma count_stops_single i k :
  count_stops i [content_block_stop k] = if Nat.eqb k i then 1%nat else 0%nat.
Proof.
  unfold count_stops. cbn [List.filter]. rewrite is_stop_content_block_stop.
  destruct (Nat.eqb k i); reflexivity.
Qed.

Lemma count_stops_range i n :
  forall a,
    count_stops i (List.map content_block_stop (seq a n))
    = if (Nat.leb a i && Nat.ltb i (a + n))%bool then 1%nat else 0%nat.
Proof.
  induction n as [|n IHn]; intros a.
  - simpl. destruct (Nat.leb_spec a i), (Nat.ltb_spec i (a + 0)); simpl;
      try reflexivity; lia.
  - cbn [seq List.map].
    change (content_block_stop a :: List.map content_block_stop (seq (S a) n))
      with ([content_block_stop a] ++ List.map content_block_stop (seq (S a) n)).
    rewrite count_stops_app, count_stops_single, IHn.
    destruct (Nat.eqb_spec a i), (Nat.leb_spec (S a) i), (Nat.ltb_spec i (S a + n)),
      (Nat.leb_spec a i), (Nat.ltb_spec i (a + S n)); simpl; try reflexivity; lia.
Qed.

Lemma read_usage_flags st c :
  text_block_closed (read_usage st c) = text_block_closed st
  /\ has_sent_stop_reason (read_usage st c) = has_sent_stop_reason st.
Proof. unfold read_usage. destruct (usage c); split; reflexivity. Qed.

Section Paths.

Variable json_dumps : json -> string.
Variable tool_uuid : nat -> string.

Lemma on_text_stops st d st1 evs :
  on_text st d = (st1, evs) ->
  text_block_closed st1 = text_block_closed st
  /\ has_sent_stop_reason st1 = has_sent_stop_reason st
  /\ forall i, count_stops i evs = 0%nat.
Proof.
  unfold on_text. intros H. inversion H; subst; clear H. simpl.
  split; [reflexivity|]. split; [reflexivity|]. intros i.
  destruct (tool_index st); [reflexivity|].
  destruct (negb (text_block_closed st)); reflexivity.
Qed.

Lemma close_text_stops st st1 evs :
  close_text_for_tools st = (st1, evs) ->
  has_sent_stop_reason st1 = has_sent_stop_reason st
  /\ (count_stops 0 evs + text_stops st = text_stops st1)%nat
  /\ forall i, (1 <= i)%nat -> count_stops i evs = 0%nat.
Proof.
  unfold close_text_for_tools, text_stops. intros H.
  destruct (tool_index st).
  - inversion H; subst. repeat split.
  - destruct (text_sent st), (text_block_closed st) eqn:Hc,
      (Str.is_empty (accumulated_text st)); simpl in H; inversion H; subst; simpl;
      rewrite ?Hc; repeat split; intros i Hi; destruct i; try lia; reflexivity.
Qed.

Lemma on_tool_call_stops st tc st1 evs :
  on_tool_call json_dumps tool_uuid st tc = (st1, evs) ->
  text_block_closed st1 = text_block_closed st
  /\ has_sent_stop_reason st1 = has_sent_stop_reason st
  /\ forall i, count_stops i evs = 0%nat.
Proof.
  unfold on_tool_call. intros H.
  destruct (match tool_index st with
            | Some i => negb (Z.eqb (match tc_index tc with Some i0 => i0 | None => 0 end) i)
            | None => true
            end);
    destruct (args_json json_dumps tc); inversion H; subst; simpl;
    repeat split; intros i; reflexivity.
Qed.

Lemma on_tool_calls_stops tcs :
  forall st st1 evs,
    on_tool_calls json_dumps tool_uuid st tcs = (st1, evs) ->
    text_block_closed st1 = text_block_closed st
    /\ has_sent_stop_reason st1 = has_sent_stop_reason st
    /\ forall i, count_stops i evs = 0%nat.
Proof.
  induction tcs as [|tc tcs IHt]; intros st st1 evs H; simpl in H.
  - inversion H; subst. repeat split.
  - destruct (on_tool_call json_dumps tool_uuid st tc) as [sa ea] eqn:Ea.
    destruct (on_tool_calls json_dumps tool_uuid sa tcs) as [sb eb] eqn:Eb.
    inversion H; subst; clear H.
    destruct (on_tool_call_stops _ _ _ _ Ea) as [Hc1 [Hs1 He1]].
    destruct (IHt _ _ _ Eb) as [Hc2 [Hs2 He2]].
    split; [congruence|]. split; [congruence|].
    intros i. rewrite count_stops_app, He1, He2. reflexivity.
Qed.

Lemma finish_events_text st reason :
  (count_stops 0 (finish_events st reason) + text_stops st = 1)%nat.
Proof.
  unfold finish_events, text_stops. rewrite !count_stops_app.
  assert (Ht : count_stops 0
                 match tool_index st with
                 | Some _ => List.map content_block_stop (tool_indices (last_tool_index st))
                 | None => []
                 end = 0%nat).
  { destruct (tool_index st); [|reflexivity].
    unfold tool_indices. rewrite count_stops_range. reflexivity. }
  rewrite Ht.
  destruct (text_block_closed st); [reflexivity|].
  destruct (negb (Str.is_empty (accumulated_text st)) && negb (text_sent st))%bool;
    reflexivity.
Qed.

Lemma finish_events_tool st reason i :
  (1 <= i)%nat -> (count_stops i (finish_events st reason) <= 1)%nat.
Proof.
  intros Hi. unfold finish_events. rewrite !count_stops_app.
  assert (Ht : (count_stops i
                  match tool_index st with
                  | Some _ => List.map content_block_stop (tool_indices (last_tool_index st))
                  | None => []
                  end <= 1)%nat).
  { destruct (tool_index st); [|unfold count_stops; simpl; lia].
    unfold tool_indices. rewrite count_stops_range.
    destruct (Nat.leb 1 i && Nat.ltb i (1 + last_tool_index st))%bool; lia. }
  assert (Hx : count_stops i
                 (if text_block_closed st then []
                  else (if (negb (Str.is_empty (accumulated_text st))
                            && negb (text_sent st))%bool
                        then [text_delta (accumulated_text st)] else [])
                       ++ [content_block_stop 0]) = 0%nat).
  { destruct (text_block_closed st); [reflexivity|].
    rewrite count_stops_app, count_stops_single.
    destruct i; [lia|].
    destruct (negb (Str.is_empty (accumulated_text st)) && negb (text_sent st))%bool;
      reflexivity. }
  rewrite Hx.
  replace (count_stops i [message_delta (map_stop_reason reason) (output_tokens st);
                          message_stop; Done]) with 0%nat by reflexivity.
  lia.
Qed.

Lemma end_events_text st :
  has_sent_stop_reason st = false -> count_stops 0 (end_events st) = 1%nat.
Proof.
  intros Hs. unfold end_events. rewrite Hs, count_stops_app.
  destruct (tool_index st); [|reflexivity].
  unfold tool_indices. rewrite count_stops_range. reflexivity.
Qed.

Lemma end_events_tool st i :
  (1 <= i)%nat -> (count_stops i (end_events st) <= 1)%nat.
Proof.
  intros Hi. unfold end_events.
  destruct (has_sent_stop_reason st); [unfold count_stops; simpl; lia|].
  rewrite count_stops_app.
  replace (count_stops i [content_block_stop 0; message_delta "end_turn" (output_tokens st);
                          message_stop; Done]) with 0%nat
    by (destruct i; [lia | reflexivity]).
  destruct (tool_index st); [|unfold count_stops; simpl; lia].
  unfold tool_indices. rewrite count_stops_range.
  destruct (Nat.leb 1 i && Nat.ltb i (1 + last_tool_index st))%bool; lia.
Qed.

(** One chunk: the closings it sends *)
Lemma on_chunk_stops st c st1 evs returned :
  on_chunk json_dumps tool_uuid st c = (st1, evs, returned) ->
  (returned = false ->
     has_sent_stop_reason st1 = has_sent_stop_reason st
     /\ (count_stops 0 evs + text_stops st = text_stops st1)%nat
     /\ forall i, (1 <= i)%nat -> count_stops i evs = 0%nat)
  /\ (returned = true ->
        (count_stops 0 evs + text_stops st = 1)%nat
        /\ forall i, (1 <= i)%nat -> (count_stops i evs <= 1)%nat).
Proof.
  unfold on_chunk. intros H.
  destruct (read_usage_flags st c) as [Hu1 Hu2].
  destruct (choices c) as [|choice rest].
  { inversion H; subst. split; [|discriminate].
    intros _. unfold text_stops. rewrite Hu1, Hu2. repeat split. }
  destruct (match content (delta choice) with
            | Some text =>
                if Str.is_empty text then (read_usage st c, [])
                else on_text (read_usage st c) text
            | None => (read_usage st c, [])
            end) as [sa ea] eqn:Ea.
  assert (Ha : text_block_closed sa = text_block_closed st
               /\ has_sent_stop_reason sa = has_sent_stop_reason st
               /\ forall i, count_stops i ea = 0%nat).
  { destruct (content (delta choice)) as [text|].
    - destruct (Str.is_empty text).
      + inversion Ea; subst. repeat split; assumption.
      + destruct (on_text_stops _ _ _ _ Ea) as [H1 [H2 H3]].
        repeat split; [congruence | congruence | exact H3].
    - inversion Ea; subst. repeat split; assumption. }
  destruct Ha as [Hac [Has Hae]].
  destruct (match tool_calls (delta choice) with
            | Some (tc :: tcs) =>
                let '(sa0, ea0) := close_text_for_tools sa in
                let '(sb, eb) := on_tool_calls json_dumps tool_uuid sa0 (tc :: tcs) in
                (sb, ea0 ++ eb)
            | _ => (sa, [])
            end) as [sb eb] eqn:Eb.
  assert (Hb : has_sent_stop_reason sb = has_sent_stop_reason st
               /\ (count_stops 0 eb + text_stops st = text_stops sb)%nat
               /\ forall i, (1 <= i)%nat -> count_stops i eb = 0%nat).
  { destruct (tool_calls (delta choice)) as [[|tc tcs]|].
    - inversion Eb; subst. unfold text_stops. rewrite Hac. repeat split. assumption.
    - destruct (close_text_for_tools sa) as [s0 e0] eqn:E0.
      destruct (on_tool_calls json_dumps tool_uuid s0 (tc :: tcs)) as [s1 e1] eqn:E1.
      inversion Eb; subst; clear Eb.
      destruct (close_text_stops _ _ _ E0) as [H1 [H2 H3]].
      destruct (on_tool_calls_stops _ _ _ _ E1) as [H4 [H5 H6]].
      split; [congruence|]. split.
      + rewrite count_stops_app, H6. unfold text_stops in *. rewrite H4.
        rewrite Hac in H2. lia.
      + intros i Hi. rewrite count_stops_app, H6, (H3 i Hi). reflexivity.
    - inversion Eb; subst. unfold text_stops. rewrite Hac. repeat split. assumption. }
  destruct Hb as [Hbs [Hb0 Hbi]].
  assert (Hnone : (sb, ea ++ eb, false) = (st1, evs, returned) ->
                  (returned = false ->
                   has_sent_stop_reason st1 = has_sent_stop_reason st
                   /\ (count_stops 0 evs + text_stops st = text_stops st1)%nat
                   /\ forall i, (1 <= i)%nat -> count_stops i evs = 0%nat)
                  /\ (returned = true ->
                      (count_stops 0 evs + text_stops st = 1)%nat
                      /\ forall i, (1 <= i)%nat -> (count_stops i evs <= 1)%nat)).
  { intros E. inversion E; subst. split; [|discriminate]. intros _.
    split; [exact Hbs|]. split.
    - rewrite count_stops_app, Hae. simpl. exact Hb0.
    - intros i Hi. rewrite count_stops_app, Hae, (Hbi i Hi). reflexivity. }
  destruct (finish_reason choice) as [reason|]; [|exact (Hnone H)].
  destruct (negb (Str.is_empty reason) && negb (has_sent_stop_reason sb))%bool;
    [|exact (Hnone H)].
  inversion H; subst; clear H. split; [discriminate|]. intros _. split.
  - rewrite !count_stops_app, Hae. simpl.
    pose proof (finish_events_text sb reason) as Hf. lia.
  - intros i Hi. rewrite !count_stops_app, Hae, (Hbi i Hi). simpl.
    apply finish_events_tool. exact Hi.
Qed.

(** With a finish signal every block is closed at most once, block 0 exactly once. *)
Lemma finish_path_closes_once chunks :
  forall st,
    finished json_dumps tool_uuid st chunks = true ->
    (count_stops 0 (process json_dumps tool_uuid st chunks) + text_stops st = 1)%nat
    /\ forall i, (1 <= i)%nat ->
                 (count_stops i (process json_dumps tool_uuid st chunks) <= 1)%nat.
Proof.
  induction chunks as [|c chunks IHc]; intros st Hf; simpl in Hf; [discriminate|].
  simpl. destruct (on_chunk json_dumps tool_uuid st c) as [[st1 evs] returned] eqn:E.
  destruct (on_chunk_stops _ _ _ _ _ E) as [Hfalse Htrue].
  destruct returned.
  - apply Htrue. reflexivity.
  - destruct (Hfalse eq_refl) as [_ [H0 Hi]].
    destruct (IHc st1 Hf) as [I0 Ii]. split.
    + rewrite count_stops_app. lia.
    + intros i Hle. rewrite count_stops_app, (Hi i Hle). simpl. apply Ii. exact Hle.
Qed.

(** Without a finish signal block 0 is closed once more than it was closed
    before the end of the stream. *)
Lemma end_path_closes_text chunks :
  forall st,
    has_sent_stop_reason st = false ->
    finished json_dumps tool_uuid st chunks = false ->
    (count_stops 0 (process json_dumps tool_uuid st chunks) + text_stops st
     = 1 + text_stops (final_state json_dumps tool_uuid st chunks))%nat.
Proof.
  induction chunks as [|c chunks IHc]; intros st Hs Hf; simpl in *.
  - rewrite (end_events_text st Hs). reflexivity.
  - destruct (on_chunk json_dumps tool_uuid st c) as [[st1 evs] returned] eqn:E.
    destruct (on_chunk_stops _ _ _ _ _ E) as [Hfalse _].
    destruct returned; [discriminate|].
    destruct (Hfalse eq_refl) as [Hs1 [H0 _]].
    rewrite count_stops_app.
    assert (Hs1' : has_sent_stop_reason st1 = false) by congruence.
    pose proof (IHc st1 Hs1' Hf) as IH. lia.
Qed.

End Paths.

(** The first finish signal ends the generator: what follows is not read. *)
Lemma first_finish_wins json_dumps tool_uuid st c rest st' evs :
  on_chunk json_dumps tool_uuid st c = (st', evs, true) ->
  process json_dumps tool_uuid st (c :: rest) = evs.
Proof. intros H. simpl. rewrite H. reflexivity. Qed.

Example second_finish_ignored :
  forall json_dumps tool_uuid message_id model,
    handle_streaming json_dumps tool_uuid message_id model
      [text_chunk "Hi"; finish_chunk "stop"; finish_chunk "length"; text_chunk "late"]
    = handle_streaming json_dumps tool_uuid message_id model
        [text_chunk "Hi"; finish_chunk "stop"].
Proof. intros. reflexivity. Qed.

End Streaming.

(** ** The request translator *)

Section RequestTranslation.

Import Request.

Variable json_dumps : json -> string.
Variable py_str : json -> string.

Lemma convert_max_tokens req r :
  convert_anthropic_to_litellm json_dumps py_str req = Ok r ->
  l_max_tokens r = capped_max_tokens req.
Proof.
  unfold convert_anthropic_to_litellm. intros H.
  bind_inv H. bind_inv H. inversion H; subst. reflexivity.
Qed.

Lemma convert_keeps_messages req r :
  convert_anthropic_to_litellm json_dumps py_str req = Ok r ->
  convert_messages json_dumps py_str req = Ok (l_messages r).
Proof.
  unfold convert_anthropic_to_litellm. intros H.
  bind_inv H. bind_inv H. inversion H; subst. simpl. assumption.
Qed.

Lemma convert_message_single m :
  carries_tool_result m = false ->
  exists b, convert_message json_dumps py_str m = Ok [b]
            /\ b_role b = role_name (role m).
Proof.
  unfold carries_tool_result, convert_message.
  destruct m as [r c]; simpl. destruct c as [s|blocks].
  - intros _. eexists; split; reflexivity.
  - destruct r; intros H.
    + rewrite H. eexists; split; reflexivity.
    + destruct (existsb is_tool_use blocks); eexists; split; reflexivity.
Qed.

Lemma convert_conversation_roles msgs :
  forallb (fun m => negb (carries_tool_result m)) msgs = true ->
  exists l, convert_conversation json_dumps py_str msgs = Ok l
            /\ List.map b_role l = roles msgs.
Proof.
  induction msgs as [|m msgs IH]; simpl; intros H.
  - exists []. split; reflexivity.
  - apply andb_true_iff in H as [Hm Hrest].
    apply negb_true_iff in Hm.
    destruct (convert_message_single m Hm) as [b [Hb Hrole]].
    destruct (IH Hrest) as [l [Hl Hroles]].
    exists (b :: l). rewrite Hb, Hl. simpl. split; [reflexivity|].
    unfold roles in *. simpl. rewrite Hrole, Hroles. reflexivity.
Qed.

(** Without a tool schema to clean, and without a tool result to flatten, the
    translation of a request returns. *)
Lemma convert_total req :
  forallb (fun m => negb (carries_tool_result m)) (messages req) = true ->
  tools req = None ->
  exists r, convert_anthropic_to_litellm json_dumps py_str req = Ok r.
Proof.
  intros Hm Ht. destruct (convert_conversation_roles _ Hm) as [l [Hl _]].
  unfold convert_anthropic_to_litellm, convert_messages.
  rewrite Hl, Ht. simpl. eexists. reflexivity.
Qed.

(** The cap, where the translator applies it: a request whose model name
    carries the [openai/] or the [gemini/] prefix is sent with [max_tokens]
    equal to the minimum of the requested value and 16384; a value of at most
    16384 goes through unchanged. *)
Theorem max_tokens_capped :
  forall req r,
    (Str.startswith "openai/" (model req) || Str.startswith "gemini/" (model req))%bool = true ->
    convert_anthropic_to_litellm json_dumps py_str req = Ok r ->
    l_max_tokens r = Z.min (max_tokens req) 16384
    /\ (max_tokens req <= 16384 -> l_max_tokens r = max_tokens req).
Proof.
  intros req r Hp Hc. rewrite (convert_max_tokens req r Hc).
  unfold capped_max_tokens. rewrite Hp. split; [reflexivity | lia].
Qed.

End RequestTranslation.

(** 50000 tokens asked of a model whose name has the [openai/] prefix *)
Lemma max_tokens_capped_witness :
  exists r,
    Request.convert_anthropic_to_litellm (fun _ => "") (fun _ => "")
      (Request.basic_request "openai/gpt-4o" 50000 None
         [ {| Request.role := Request.User; Request.content := Request.ContentStr "hi" |} ])
    = Ok r
    /\ Request.l_max_tokens r = 16384.
Proof.
  eexists. split.
  - reflexivity.
  - exact (proj1 (max_tokens_capped (fun _ => "") (fun _ => "")
                    (Request.basic_request "openai/gpt-4o" 50000 None
                       [ {| Request.role := Request.User;
                            Request.content := Request.ContentStr "hi" |} ])
                    _ eq_refl eq_refl)).
Defined.

(** ** The response translator *)

Section ResponseTranslation.

Import Response.

Variable json_loads : string -> option pv.
Variable validate_int : pv -> option Z.
Variable msg_uuid : string.
Variable tool_uuid : nat -> string.

Lemma validate_blocks_length raw l :
  validate_blocks raw = Ok l -> List.length l = List.length raw.
Proof.
  revert l. induction raw as [|b raw IH]; simpl; intros l H.
  - inversion H. reflexivity.
  - bind_inv H. bind_inv H. inversion H; subst. simpl. f_equal. apply IH. assumption.
Qed.

Lemma raw_content_nonempty x raw :
  raw_content json_loads tool_uuid x = Ok raw -> raw <> [].
Proof.
  unfold raw_content. intros H. bind_inv H.
  destruct (_ ++ a) eqn:E; inversion H; subst; discriminate.
Qed.

Lemma map_finish_reason_valid f :
  valid_stop_reason (Some (map_finish_reason f)) = true.
Proof.
  unfold map_finish_reason.
  destruct (eq_str f "stop"); [reflexivity|].
  destruct (eq_str f "length"); [reflexivity|].
  destruct (eq_str f "tool_calls"); reflexivity.
Qed.

Lemma convert_body_well_formed resp request_model r :
  convert_body json_loads validate_int msg_uuid tool_uuid resp request_model = Ok r ->
  well_formed r.
Proof.
  unfold convert_body. intros H.
  bind_inv H. bind_inv H. bind_inv H. bind_inv H. bind_inv H. bind_inv H.
  inversion H; subst; clear H. repeat split; simpl.
  - intros Hnil.
    match goal with
    | Hv : validate_blocks _ = Ok _ |- _ =>
        apply validate_blocks_length in Hv; rewrite Hnil in Hv
    end.
    match goal with
    | Hr : raw_content _ _ _ = Ok ?raw |- _ =>
        apply raw_content_nonempty in Hr; destruct raw; [congruence | discriminate]
    end.
  - apply map_finish_reason_valid.
Qed.

Lemma fallback_well_formed e request_model :
  well_formed (fallback msg_uuid e request_model).
Proof. repeat split; simpl; discriminate. Qed.

(** C4. The translator is a total function of the backend value and of the
    request: whatever the shape of the value, it returns a reply that has the
    assistant role, at least one content block and a stop reason of the
    Anthropic set. When a step of the conversion fails, the reply is the
    fallback one: a single text block with the text of the error, the stop
    reason [end_turn], and both usage counters at 0. *)
Theorem translator_never_raises :
  forall resp request_model,
    match convert_body json_loads validate_int msg_uuid tool_uuid resp request_model with
    | Ok r =>
        convert_litellm_to_anthropic json_loads validate_int msg_uuid tool_uuid
          resp request_model = r
        /\ well_formed r
    | Err e =>
        well_formed
          (convert_litellm_to_anthropic json_loads validate_int msg_uuid tool_uuid
             resp request_model)
        /\ content
             (convert_litellm_to_anthropic json_loads validate_int msg_uuid tool_uuid
                resp request_model)
           = [ContentBlockText ("Error converting response: " +:+ exn_message e
                                +:+ ". Please check server logs.")]
        /\ stop_reason
             (convert_litellm_to_anthropic json_loads validate_int msg_uuid tool_uuid
                resp request_model) = Some "end_turn"
        /\ usage
             (convert_litellm_to_anthropic json_loads validate_int msg_uuid tool_uuid
                resp request_model)
           = {| input_tokens := 0; output_tokens := 0 |}
    end.
Proof.
  intros resp request_model. unfold convert_litellm_to_anthropic.
  destruct (convert_body json_loads validate_int msg_uuid tool_uuid resp request_model)
    as [r|e] eqn:E.
  - split; [reflexivity|]. eapply convert_body_well_formed. exact E.
  - split; [apply fallback_well_formed|]. repeat split.
Qed.

(** The tool calls of a backend response and the [tool_use] blocks *)

Lemma tool_use_blocks_backend g calls :
  forall idx,
    tool_use_blocks json_loads tool_uuid idx
      (List.map (fun c => backend_tool_call g (fst (fst c)) (snd (fst c)) (snd c)) calls)
    = Ok (List.map (raw_tool_use json_loads) calls).
Proof.
  induction calls as [|c calls IH]; intros idx; simpl.
  - reflexivity.
  - rewrite IH. destruct g; reflexivity.
Qed.

(** What is read out of a complete backend response, in either form *)
Lemma extract_backend_response f g rid text calls finish u :
  extract msg_uuid (backend_response f g rid text calls finish u)
  = Ok {| content_text := text;
          tool_calls := VList (List.map
                                 (fun c => backend_tool_call g (fst (fst c))
                                             (snd (fst c)) (snd c)) calls);
          finish_reason := VStr finish;
          usage_info := u;
          response_id := VStr rid |}.
Proof. destruct f; reflexivity. Qed.

Lemma validate_tool_uses calls l :
  validate_blocks (List.map (raw_tool_use json_loads) calls) = Ok l ->
  tool_use_pairs l = List.map call_pair calls.
Proof.
  revert l. induction calls as [|c calls IH]; simpl; intros l H.
  - inversion H. reflexivity.
  - bind_inv H. bind_inv H. inversion H; subst; clear H.
    unfold raw_tool_use in Ha. cbn in Ha.
    destruct (json_loads (snd c)) as [[]|]; try discriminate Ha;
      inversion Ha; subst; simpl; unfold call_pair at 1; f_equal; apply IH; assumption.
Qed.

Lemma validate_text_first t rest l :
  validate_blocks (RawText t :: rest) = Ok l ->
  exists s l', l = ContentBlockText s :: l' /\ validate_blocks rest = Ok l'.
Proof.
  simpl. intros H. bind_inv H. bind_inv H. inversion H; subst; clear H.
  unfold validate_block in Ha. bind_inv Ha. inversion Ha; subst. eauto.
Qed.

Lemma backend_tool_pairs f g rid text calls finish u request_model r :
  convert_body json_loads validate_int msg_uuid tool_uuid
    (backend_response f g rid text calls finish u) request_model = Ok r ->
  tool_use_pairs (content r) = List.map call_pair calls.
Proof.
  unfold convert_body. intros H.
  rewrite extract_backend_response in H. cbn [bind] in H.
  apply bind_ok in H as [raw [Hraw H]].
  bind_inv H. bind_inv H. bind_inv H.
  apply bind_ok in H as [blocks [Hval H]].
  inversion H; subst; clear H. simpl.
  unfold raw_content in Hraw. cbn [content_text tool_calls] in Hraw.
  destruct calls as [|c calls].
  - simpl in Hraw.
    destruct (negb (is_none text) && negb (is_empty_str text))%bool;
      simpl in Hraw; inversion Hraw; subst; clear Hraw;
      apply validate_text_first in Hval as [s [l' [-> Hrest]]];
      simpl in Hrest; inversion Hrest; subst; reflexivity.
  - change (truthy (VList (List.map
              (fun c0 => backend_tool_call g (fst (fst c0)) (snd (fst c0)) (snd c0))
              (c :: calls)))) with true in Hraw.
    cbn iota in Hraw.
    rewrite tool_use_blocks_backend in Hraw. cbn [bind] in Hraw.
    destruct (negb (is_none text) && negb (is_empty_str text))%bool.
    + simpl in Hraw. inversion Hraw; subst; clear Hraw.
      apply validate_text_first in Hval as [s [l' [-> Hrest]]].
      simpl. apply (validate_tool_uses (c :: calls)). exact Hrest.
    + simpl in Hraw. inversion Hraw; subst; clear Hraw.
      apply (validate_tool_uses (c :: calls)). exact Hval.
Qed.

End ResponseTranslation.

(** ** Request and response together *)

(** C7, as amended. The backend messages of a request that has no system
    message and no user message with a tool result are as many as the
    canonical messages and have the same roles in the same order. For a
    complete backend response, a dictionary or an object of LiteLLM with its
    tool calls in either form, the [tool_use] blocks of the reply carry the
    identifiers and names of the backend tool calls, in order, when the
    conversion of the response goes through; the fallback reply has no
    [tool_use] block. *)
Theorem round_trip_preserves :
  forall json_dumps py_str json_loads validate_int msg_uuid tool_uuid
         req r f g rid text calls finish u,
    (Request.system_messages (Request.system req) = [] ->
     forallb (fun m => negb (Request.carries_tool_result m)) (Request.messages req) = true ->
     Request.convert_anthropic_to_litellm json_dumps py_str req = Ok r ->
     List.length (Request.l_messages r) = List.length (Request.messages req)
     /\ List.map Request.b_role (Request.l_messages r)
        = Request.roles (Request.messages req))
    /\ Response.tool_use_pairs
         (Response.content
            (Response.convert_litellm_to_anthropic json_loads validate_int msg_uuid
               tool_uuid (Response.backend_response f g rid text calls finish u)
               (Request.model req)))
       = match Response.convert_body json_loads validate_int msg_uuid tool_uuid
                 (Response.backend_response f g rid text calls finish u) (Request.model req)
         with
         | Ok _ => List.map Response.call_pair calls
         | Err _ => []
         end.
Proof.
  intros json_dumps py_str json_loads validate_int msg_uuid tool_uuid
         req r f g rid text calls finish u.
  split.
  - intros Hsys Hmsgs Hconv.
    apply convert_keeps_messages in Hconv.
    unfold Request.convert_messages in Hconv.
    destruct (convert_conversation_roles json_dumps py_str _ Hmsgs) as [l [Hl Hroles]].
    rewrite Hl, Hsys in Hconv. simpl in Hconv. inversion Hconv as [Heq].
    rewrite <- Heq. split; [|exact Hroles].
    rewrite <- (List.length_map Request.b_role), Hroles.
    unfold Request.roles. apply List.length_map.
  - unfold Response.convert_litellm_to_anthropic.
    destruct (Response.convert_body json_loads validate_int msg_uuid tool_uuid
                (Response.backend_response f g rid text calls finish u) (Request.model req))
      as [resp|e] eqn:E.
    + eapply backend_tool_pairs. exact E.
    + reflexivity.
Qed.

Lemma round_trip_preserves_witness :
  (exists r,
     Request.convert_anthropic_to_litellm (fun _ => "{}") (fun _ => "")
       (Request.basic_request "openai/gpt-4o" 100 None Request.two_turns) = Ok r
     /\ List.map Request.b_role (Request.l_messages r) = ["user"; "assistant"])
  /\ Response.tool_use_pairs
       (Response.content
          (Response.convert_litellm_to_anthropic (fun _ => Some (Response.VDict []))
             Response.int_only "msg_0" (fun _ => "tool_0")
             (Response.backend_response Response.AsObject Response.AsObject
                "chatcmpl-1" Response.VNone
                [("call_1", "f", "{}")] "tool_calls"
                (Response.VObj [("prompt_tokens", Response.VInt 3);
                                ("completion_tokens", Response.VInt 5)]))
             "openai/gpt-4o"))
     = [("call_1", "f")].
Proof.
  pose proof (round_trip_preserves (fun _ => "{}") (fun _ => "")
                (fun _ => Some (Response.VDict [])) Response.int_only "msg_0"
                (fun _ => "tool_0")
                (Request.basic_request "openai/gpt-4o" 100 None Request.two_turns))
    as H.
  split.
  - eexists. split; [reflexivity|].
    exact (proj2 (proj1 (H _ Response.AsObject Response.AsObject "chatcmpl-1"
                           Response.VNone [] "stop" Response.VNone)
                    eq_refl eq_refl eq_refl)).
  - exact (proj2 (H {| Request.l_model := ""; Request.l_messages := [];
                       Request.l_max_tokens := 0; Request.l_temperature := None;
                       Request.l_stream := None; Request.l_thinking := None;
                       Request.l_stop := None; Request.l_top_k := None;
                       Request.l_tools := None; Request.l_tool_choice := None |}
                    Response.AsObject Response.AsObject
                    "chatcmpl-1" Response.VNone [("call_1", "f", "{}")] "tool_calls"
                    (Response.VObj [("prompt_tokens", Response.VInt 3);
                                    ("completion_tokens", Response.VInt 5)]))).
Defined.

(** C7, as stated, fails: a system prompt is one more backend message, with
    a role that no canonical message has. *)
Lemma system_prompt_adds_message :
  exists r,
    Request.convert_anthropic_to_litellm (fun _ => "") (fun _ => "")
      (Request.basic_request "openai/gpt-4o" 100 (Some (Request.SystemStr "Be brief."))
         [ {| Request.role := Request.User; Request.content := Request.ContentStr "hi" |} ])
    = Ok r
    /\ List.length (Request.l_messages r)
       <> List.length
            (Request.messages
               (Request.basic_request "openai/gpt-4o" 100
                  (Some (Request.SystemStr "Be brief."))
                  [ {| Request.role := Request.User;
                       Request.content := Request.ContentStr "hi" |} ]))
    /\ List.map Request.b_role (Request.l_messages r) = ["system"; "user"]
    /\ List.map Request.b_role (Request.l_messages r)
       <> Request.roles
            (Request.messages
               (Request.basic_request "openai/gpt-4o" 100
                  (Some (Request.SystemStr "Be brief."))
                  [ {| Request.role := Request.User;
                       Request.content := Request.ContentStr "hi" |} ])).
Proof.
  eexists. split; [reflexivity|]. split; [simpl; lia|].
  split; [reflexivity|]. simpl. discriminate.
Qed.

(** A user message with two tool results is two [tool] messages. *)
Example tool_results_become_tool_messages :
  Request.convert_messages (fun _ => "") (fun _ => "")
    (Request.basic_request "openai/gpt-4o" 100 None
       [ {| Request.role := Request.User;
            Request.content :=
              Request.ContentBlocks
                [Request.ContentBlockToolResult "call_1" (JStr "one");
                 Request.ContentBlockToolResult "call_2" (JStr "two")] |} ])
  = Ok [ {| Request.b_role := "tool"; Request.b_content := Some (Request.BStr "one");
            Request.b_tool_call_id := Some "call_1"; Request.b_tool_calls := None |};
         {| Request.b_role := "tool"; Request.b_content := Some (Request.BStr "two");
            Request.b_tool_call_id := Some "call_2"; Request.b_tool_calls := None |} ].
Proof. reflexivity. Qed.

(** A response whose tool-call arguments are JSON but no object falls back:
    the tool call is not in the reply. *)
Example non_object_arguments_fall_back :
  Response.content
    (Response.convert_litellm_to_anthropic (fun _ => Some (Response.VList []))
       Response.int_only "msg_0" (fun _ => "tool_0")
       (Response.backend_response Response.AsDict Response.AsDict "chatcmpl-1"
          Response.VNone [("call_1", "f", "[]")] "tool_calls" (Response.VDict []))
       "openai/gpt-4o")
  = [Response.ContentBlockText
       "Error converting response: content.input. Please check server logs."].
Proof. reflexivity. Qed.

(** A backend value of an unexpected shape *)
Example odd_shape_falls_back :
  Response.convert_litellm_to_anthropic (fun _ => None) Response.int_only "msg_0"
    (fun _ => "tool_0")
    (Response.VDict [("choices", Response.VInt 5)]) "openai/gpt-4o"
  = Response.fallback "msg_0" (TypeError "object has no len()") "openai/gpt-4o".
Proof. reflexivity. Qed.

(** ** The Gemini schema cleaner *)

Section SchemaCleaning.

Import Schema.

(** Induction on a JSON value, with the hypothesis for every member of an
    array and for every value of a dictionary *)
Lemma json_induction (P : json -> Prop) :
  P JNull ->
  (forall b, P (JBool b)) ->
  (forall z, P (JInt z)) ->
  (forall r, P (JFloat r)) ->
  (forall s, P (JStr s)) ->
  (forall l, Forall P l -> P (JArr l)) ->
  (forall f, Forall (fun kv => P (snd kv)) f -> P (JObj f)) ->
  forall j, P j.
Proof.
  intros Hnull Hbool Hint Hfloat Hstr Harr Hobj.
  fix IH 1. intros [ | b | z | r | s | l | f].
  - exact Hnull.
  - apply Hbool.
  - apply Hint.
  - apply Hfloat.
  - apply Hstr.
  - apply Harr. induction l as [|x l IHl]; constructor; [apply IH | exact IHl].
  - apply Hobj. induction f as [|[k v] f IHf]; constructor; [apply IH | exact IHf].
Qed.

(** The equations of the cleaner, with the loops named *)
Lemma clean_obj fields :
  clean_gemini_schema (JObj fields)
  = try drop_format <- unsupported_format fields in
    try cleaned <- clean_fields drop_format fields in
    Ok (JObj cleaned).
Proof.
  simpl. destruct (unsupported_format fields) as [df|e]; simpl; [|reflexivity].
  match goal with
  | |- bind (?F fields) _ = _ =>
      assert (E : forall kvs, F kvs = clean_fields df kvs)
  end.
  { induction kvs as [|[k v] kvs IHk]; simpl; [reflexivity|].
    destruct (popped df k); [exact IHk|].
    destruct (clean_gemini_schema v); simpl; [|reflexivity].
    rewrite IHk. reflexivity. }
  rewrite E. reflexivity.
Qed.

Lemma clean_arr items :
  clean_gemini_schema (JArr items)
  = try cleaned <- clean_items items in Ok (JArr cleaned).
Proof.
  simpl.
  match goal with
  | |- bind (?F items) _ = _ =>
      assert (E : forall l, F l = clean_items l)
  end.
  { induction l as [|x l IHl]; simpl; [reflexivity|].
    destruct (clean_gemini_schema x); simpl; [|reflexivity].
    rewrite IHl. reflexivity. }
  rewrite E. reflexivity.
Qed.

Lemma gemini_safe_obj fields :
  gemini_safe (JObj fields)
  = (negb (Dict.has "additionalProperties" fields)
     && negb (Dict.has "default" fields)
     && (if is_string_type fields
         then match Dict.get "format" fields with
              | Some f => allowed_format f
              | None => true
              end
         else true)
     && forallb (fun kv => gemini_safe (snd kv)) fields)%bool.
Proof.
  simpl. f_equal.
  induction fields as [|[k v] fields IHf]; simpl; [reflexivity|].
  rewrite IHf. reflexivity.
Qed.

Lemma gemini_safe_arr items :
  gemini_safe (JArr items) = forallb gemini_safe items.
Proof.
  simpl. induction items as [|x items IHl]; simpl; [reflexivity|].
  rewrite IHl. reflexivity.
Qed.

Lemma formats_hashable_obj fields :
  formats_hashable (JObj fields)
  = ((if is_string_type fields
      then match Dict.get "format" fields with
           | Some f => hashable f
           | None => true
           end
      else true)
     && forallb (fun kv => formats_hashable (snd kv)) fields)%bool.
Proof.
  simpl. f_equal.
  induction fields as [|[k v] fields IHf]; simpl; [reflexivity|].
  rewrite IHf. reflexivity.
Qed.

Lemma formats_hashable_arr items :
  formats_hashable (JArr items) = forallb formats_hashable items.
Proof.
  simpl. induction items as [|x items IHl]; simpl; [reflexivity|].
  rewrite IHl. reflexivity.
Qed.

Lemma clean_str_of v v' :
  clean_gemini_schema v = Ok v' -> str_of v' = str_of v.
Proof.
  destruct v; try (simpl; intros H; inversion H; reflexivity).
  - rewrite clean_arr. intros H. bind_inv H. inversion H. reflexivity.
  - rewrite clean_obj. intros H. bind_inv H. bind_inv H. inversion H. reflexivity.
Qed.

Lemma clean_allowed_format f :
  allowed_format f = true -> clean_gemini_schema f = Ok f.
Proof. destruct f; simpl; intros H; try discriminate H; reflexivity. Qed.

Lemma popped_format df : popped df "format" = df.
Proof. destruct df; reflexivity. Qed.

Lemma popped_type df : popped df "type" = false.
Proof. destruct df; reflexivity. Qed.

(** The entry of a key in the cleaned dictionary *)
Lemma get_clean_fields df k f :
  forall f',
    clean_fields df f = Ok f' ->
    Dict.get k f'
    = if popped df k then None
      else match Dict.get k f with
           | Some v => match clean_gemini_schema v with
                       | Ok v' => Some v'
                       | Err _ => None
                       end
           | None => None
           end.
Proof.
  induction f as [|[k0 v0] f IHf]; intros f' H.
  - simpl in H. inversion H; subst. simpl. destruct (popped df k); reflexivity.
  - simpl in H. destruct (popped df k0) eqn:Hp0.
    + rewrite (IHf f' H). simpl.
      destruct (String.eqb_spec k k0) as [->|Hne].
      * rewrite Hp0. reflexivity.
      * reflexivity.
    + apply bind_ok in H as [v0' [Hv0 H]]. apply bind_ok in H as [rest' [Hrest H]].
      inversion H; subst; clear H. simpl.
      destruct (String.eqb_spec k k0) as [->|Hne].
      * rewrite Hp0, Hv0. reflexivity.
      * apply IHf. exact Hrest.
Qed.

Lemma is_string_type_clean df f f' :
  clean_fields df f = Ok f' -> is_string_type f' = is_string_type f.
Proof.
  intros H. unfold is_string_type.
  rewrite (get_clean_fields df "type" f f' H), popped_type.
  destruct (Dict.get "type" f) as [v|]; [|reflexivity].
  destruct (clean_gemini_schema v) as [v'|e] eqn:Hv.
  - apply clean_str_of in Hv. destruct v, v'; simpl in Hv; try discriminate Hv;
      try reflexivity. inversion Hv; subst. reflexivity.
  - destruct v; try reflexivity. simpl in Hv. discriminate Hv.
Qed.

Lemma unsupported_format_dropped f df :
  unsupported_format f = Ok df -> df = format_dropped f.
Proof.
  unfold unsupported_format, format_dropped.
  destruct (is_string_type f); simpl.
  - destruct (Dict.get "format" f) as [fm|].
    + destruct (hashable fm); intros H; inversion H; reflexivity.
    + intros H; inversion H; reflexivity.
  - intros H; inversion H; reflexivity.
Qed.

(** The format entry that stays in a dictionary of type [string] is allowed. *)
Lemma format_after_clean f df f' :
  unsupported_format f = Ok df ->
  clean_fields df f = Ok f' ->
  is_string_type f = true ->
  match Dict.get "format" f' with
  | Some fm => allowed_format fm = true
  | None => True
  end.
Proof.
  intros Hu Hc Hs.
  rewrite (get_clean_fields df "format" f f' Hc), popped_format.
  unfold unsupported_format in Hu. rewrite Hs in Hu.
  destruct (Dict.get "format" f) as [fm|].
  - destruct (hashable fm); [|discriminate Hu]. inversion Hu; subst; clear Hu.
    destruct (allowed_format fm) eqn:Ha; simpl; [|exact I].
    rewrite (clean_allowed_format fm Ha). exact Ha.
  - inversion Hu; subst. exact I.
Qed.

Lemma clean_items_sound l :
  Forall (fun j => forall j', clean_gemini_schema j = Ok j' ->
                              gemini_safe j' = true /\ preserved j j') l ->
  forall l', clean_items l = Ok l' ->
             forallb gemini_safe l' = true /\ preserved_items l l'.
Proof.
  induction 1 as [|x l Hx Hl IHl]; intros l' H; simpl in H.
  - inversion H; subst. split; [reflexivity | constructor].
  - apply bind_ok in H as [x' [Hx' H]]. apply bind_ok in H as [r' [Hr' H]].
    inversion H; subst; clear H.
    destruct (Hx x' Hx') as [Hs Hp]. destruct (IHl r' Hr') as [Hs' Hp'].
    split; [simpl; rewrite Hs, Hs'; reflexivity | constructor; assumption].
Qed.

Lemma clean_fields_sound df f :
  Forall (fun kv => forall j', clean_gemini_schema (snd kv) = Ok j' ->
                               gemini_safe j' = true /\ preserved (snd kv) j') f ->
  forall f', clean_fields df f = Ok f' ->
             forallb (fun kv => gemini_safe (snd kv)) f' = true
             /\ preserved_fields df f f'.
Proof.
  induction 1 as [|[k v] f Hv Hf IHf]; intros f' H; simpl in H.
  - inversion H; subst. split; [reflexivity | constructor].
  - destruct (popped df k) eqn:Hp.
    + destruct (IHf f' H) as [Hs Hpr]. split; [exact Hs|].
      apply preserved_drop; assumption.
    + apply bind_ok in H as [v' [Hv' H]]. apply bind_ok in H as [r' [Hr' H]].
      inversion H; subst; clear H.
      destruct (Hv v' Hv') as [Hs Hpv]. destruct (IHf r' Hr') as [Hs' Hpr].
      split; [simpl; rewrite Hs, Hs'; reflexivity|].
      apply preserved_keep; assumption.
Qed.

(** Whenever the cleaner returns, the value has no banned key at any depth,
    and it is the input without the popped entries. *)
Lemma clean_sound :
  forall j j', clean_gemini_schema j = Ok j' ->
               gemini_safe j' = true /\ preserved j j'.
Proof.
  induction j as [ | b | z | r | s | l IHl | f IHf] using json_induction;
    intros j' H;
    try (simpl in H; inversion H; subst; split; [reflexivity | constructor]).
  - rewrite clean_arr in H. apply bind_ok in H as [l' [Hl' H]].
    inversion H; subst; clear H.
    destruct (clean_items_sound l IHl l' Hl') as [Hs Hp].
    split; [rewrite gemini_safe_arr; exact Hs | constructor; exact Hp].
  - rewrite clean_obj in H. apply bind_ok in H as [df [Hdf H]].
    apply bind_ok in H as [f' [Hf' H]]. inversion H; subst; clear H.
    destruct (clean_fields_sound df f IHf f' Hf') as [Hs Hp].
    split.
    + rewrite gemini_safe_obj. unfold Dict.has.
      rewrite (get_clean_fields df "additionalProperties" f f' Hf').
      rewrite (get_clean_fields df "default" f f' Hf').
      replace (popped df "additionalProperties") with true by (destruct df; reflexivity).
      replace (popped df "default") with true by (destruct df; reflexivity).
      simpl. rewrite Hs, andb_true_r.
      rewrite (is_string_type_clean df f f' Hf').
      destruct (is_string_type f) eqn:Hst; [|reflexivity].
      pose proof (format_after_clean f df f' Hdf Hf' Hst) as Hfm.
      destruct (Dict.get "format" f'); [exact Hfm | reflexivity].
    + constructor. rewrite <- (unsupported_format_dropped f df Hdf). exact Hp.
Qed.

Lemma clean_items_total l :
  Forall (fun j => formats_hashable j = true ->
                   exists j', clean_gemini_schema j = Ok j') l ->
  forallb formats_hashable l = true ->
  exists l', clean_items l = Ok l'.
Proof.
  induction 1 as [|x l Hx Hl IHl]; simpl; intros H.
  - eexists; reflexivity.
  - apply andb_true_iff in H as [H1 H2].
    destruct (Hx H1) as [x' Hx']. destruct (IHl H2) as [l' Hl'].
    rewrite Hx', Hl'. simpl. eexists; reflexivity.
Qed.

Lemma clean_fields_total df f :
  Forall (fun kv => formats_hashable (snd kv) = true ->
                    exists j', clean_gemini_schema (snd kv) = Ok j') f ->
  forallb (fun kv => formats_hashable (snd kv)) f = true ->
  exists f', clean_fields df f = Ok f'.
Proof.
  induction 1 as [|[k v] f Hv Hf IHf]; simpl; intros H.
  - eexists; reflexivity.
  - apply andb_true_iff in H as [H1 H2]. destruct (IHf H2) as [f' Hf'].
    destruct (popped df k); [eexists; exact Hf'|].
    destruct (Hv H1) as [v' Hv']. simpl in Hv'. rewrite Hv', Hf'. simpl.
    eexists; reflexivity.
Qed.

(** The cleaner returns on every value whose formats can be hashed. *)
Lemma clean_total :
  forall j, formats_hashable j = true -> exists j', clean_gemini_schema j = Ok j'.
Proof.
  induction j as [ | b | z | r | s | l IHl | f IHf] using json_induction;
    intros H; try (eexists; reflexivity).
  - rewrite formats_hashable_arr in H.
    destruct (clean_items_total l IHl H) as [l' Hl'].
    rewrite clean_arr, Hl'. simpl. eexists; reflexivity.
  - rewrite formats_hashable_obj in H. apply andb_true_iff in H as [H1 H2].
    assert (Hu : exists df, unsupported_format f = Ok df).
    { unfold unsupported_format. destruct (is_string_type f); [|eexists; reflexivity].
      destruct (Dict.get "format" f) as [fm|]; [|eexists; reflexivity].
      rewrite H1. eexists; reflexivity. }
    destruct Hu as [df Hdf].
    destruct (clean_fields_total df f IHf H2) as [f' Hf'].
    rewrite clean_obj, Hdf. simpl. rewrite Hf'. simpl. eexists; reflexivity.
Qed.

(** The cleaning of a schema in which every format is a string *)
Example clean_nested :
  clean_gemini_schema
    (JObj [("type", JStr "object");
           ("additionalProperties", JBool false);
           ("properties",
            JObj [("when", JObj [("type", JStr "string"); ("format", JStr "date-time");
                                 ("default", JStr "now")]);
                  ("url", JObj [("type", JStr "string"); ("format", JStr "uri")]);
                  ("tags", JObj [("type", JStr "array");
                                 ("items", JObj [("type", JStr "string");
                                                 ("format", JStr "email")])])])])
  = Ok (JObj [("type", JStr "object");
              ("properties",
               JObj [("when", JObj [("type", JStr "string"); ("format", JStr "date-time")]);
                     ("url", JObj [("type", JStr "string")]);
                     ("tags", JObj [("type", JStr "array");
                                    ("items", JObj [("type", JStr "string")])])])]).
Proof. reflexivity. Qed.

(** The cleaner rejects a schema of type [string] whose format is a list. *)
Example unhashable_format_small :
  clean_gemini_schema (JObj [("type", JStr "string"); ("format", JArr [JStr "uri"])])
  = Err (TypeError "unhashable type").
Proof. reflexivity. Qed.

(** C8. On a tool schema with a property of type [string] whose [format] is
    a list, the membership test on the set of allowed formats raises: the
    cleaner returns no value, so the format is not stripped. *)
Theorem unhashable_format_raises :
  clean_gemini_schema
    (JObj [("type", JStr "object");
           ("properties",
            JObj [("url", JObj [("type", JStr "string");
                                ("format", JArr [JStr "uri"])])])])
  = Err (TypeError "unhashable type").
Proof. reflexivity. Qed.

End SchemaCleaning.

(** * Further properties *)

(** ** The registry and the aliases *)

Section Aliases.

Import Config Persist.

Lemma validate_model_providers cm cm' m :
  providers cm = providers cm' -> validate_model cm m = validate_model cm' m.
Proof. unfold validate_model, find_model_provider. intros ->. reflexivity. Qed.

Lemma aliases_consistent_same cm cm' :
  providers cm' = providers cm -> presets cm' = presets cm ->
  current_config cm' = current_config cm ->
  aliases_consistent cm -> aliases_consistent cm'.
Proof.
  unfold aliases_consistent. intros Hp Hr Hc. rewrite Hc, Hr.
  destruct (big_model (current_config cm)) as [b|],
           (small_model (current_config cm)) as [s|]; try exact (fun H => H).
  rewrite (validate_model_providers cm' cm b Hp), (validate_model_providers cm' cm s Hp).
  exact (fun H => H).
Qed.

Lemma add_debug_log_frame cm now ty msg d :
  providers (add_debug_log cm now ty msg d) = providers cm
  /\ presets (add_debug_log cm now ty msg d) = presets cm
  /\ current_config (add_debug_log cm now ty msg d) = current_config cm.
Proof. unfold add_debug_log. destruct (Nat.ltb _ _); repeat split. Qed.

Lemma add_debug_log_consistent cm now ty msg d :
  aliases_consistent cm -> aliases_consistent (add_debug_log cm now ty msg d).
Proof.
  destruct (add_debug_log_frame cm now ty msg d) as [H1 [H2 H3]].
  apply aliases_consistent_same; assumption.
Qed.

Lemma set_models_consistent cm now b s :
  aliases_consistent cm -> aliases_consistent (fst (set_models cm now b s)).
Proof.
  intros Hc. unfold set_models.
  destruct (validate_model cm b) eqn:Hb; simpl; [|exact Hc].
  destruct (validate_model cm s) eqn:Hs; simpl; [|exact Hc].
  apply add_debug_log_consistent. unfold aliases_consistent. simpl.
  repeat split; assumption.
Qed.

Lemma apply_preset_consistent cm now p :
  aliases_consistent cm -> aliases_consistent (fst (apply_preset cm now p)).
Proof.
  intros Hc. unfold apply_preset.
  destruct (Dict.get p (presets cm)) as [preset|] eqn:Hp; [|exact Hc].
  destruct (validate_model cm (preset_big_model preset)) eqn:Hb; simpl; [|exact Hc].
  destruct (validate_model cm (preset_small_model preset)) eqn:Hs; simpl; [|exact Hc].
  apply add_debug_log_consistent. unfold aliases_consistent. simpl.
  split; [exact Hb|]. split; [exact Hs|]. exists preset. repeat split. exact Hp.
Qed.

Lemma step_consistent cm o : aliases_consistent cm -> aliases_consistent (step cm o).
Proof.
  intros Hc. destruct o as [now ty msg d| |now p|now b s|]; simpl.
  - apply add_debug_log_consistent. exact Hc.
  - exact Hc.
  - apply apply_preset_consistent. exact Hc.
  - apply set_models_consistent. exact Hc.
  - unfold aliases_consistent in *. simpl. exact Hc.
Qed.

Lemma init_consistent ps pr : aliases_consistent (init ps pr).
Proof.
  unfold init, load_default_preset. simpl.
  destruct (Dict.get "default" pr) as [preset|] eqn:Hd; [|reflexivity].
  match goal with |- aliases_consistent (if ?c then _ else _) => destruct c eqn:Hv end;
    [|reflexivity].
  apply andb_true_iff in Hv as [Hb Hs].
  unfold aliases_consistent. simpl. split; [exact Hb|]. split; [exact Hs|].
  exists preset. repeat split. exact Hd.
Qed.

Lemma run_consistent ops : forall cm, aliases_consistent cm -> aliases_consistent (run cm ops).
Proof.
  induction ops as [|o ops IH]; intros cm Hc; simpl; [exact Hc|].
  apply IH. apply step_consistent. exact Hc.
Qed.

(** X1. In every state that the manager reaches, the two aliases are unset
    together or set to models that [validate_model] accepts, and a current
    preset is one of the presets and names exactly the two models. *)
Theorem aliases_stay_consistent :
  forall ps pr ops, aliases_consistent (run (init ps pr) ops).
Proof. intros ps pr ops. apply run_consistent. apply init_consistent. Qed.

(** The first provider that lists a model *)

Lemma find_in_providers_app pre n p rest m :
  Forall (fun kv => Str.mem m (models (snd kv)) = false) pre ->
  Str.mem m (models p) = true ->
  find_in_providers (pre ++ (n, p) :: rest) m = Some n.
Proof.
  induction 1 as [|[k q] pre Hq Hpre IH]; simpl; intros Hm.
  - rewrite Hm. reflexivity.
  - simpl in Hq. rewrite Hq. apply IH. exact Hm.
Qed.

Lemma dict_get_unique {V : Type} (l : list (string * V)) k v :
  List.NoDup (List.map fst l) -> In (k, v) l -> Dict.get k l = Some v.
Proof.
  induction l as [|[k0 v0] l IH]; simpl; intros Hnd Hin; [contradiction|].
  apply List.NoDup_cons_iff in Hnd as [Hnotin Hnd].
  destruct Hin as [Heq|Hin].
  - inversion Heq; subst. rewrite String.eqb_refl. reflexivity.
  - destruct (String.eqb_spec k k0) as [->|Hne].
    + exfalso. apply Hnotin. apply (List.in_map fst) in Hin. exact Hin.
    + apply IH; assumption.
Qed.

(** X2. With provider names that are distinct, as the keys of a dictionary
    are, the first provider that lists a model decides: [validate_model] is the
    availability of that provider, whatever the providers after it. *)
Theorem first_listing_provider_decides :
  forall cm pre n p rest m,
    providers cm = pre ++ (n, p) :: rest ->
    List.NoDup (List.map fst (providers cm)) ->
    Forall (fun kv => Str.mem m (models (snd kv)) = false) pre ->
    Str.mem m (models p) = true ->
    n <> "" ->
    validate_model cm m = is_available p.
Proof.
  intros cm pre n p rest m Hps Hnd Hpre Hm Hn.
  unfold validate_model, find_model_provider. rewrite Hps.
  rewrite (find_in_providers_app pre n p rest m Hpre Hm).
  destruct n as [|c n']; [contradiction|]. simpl Str.is_empty. cbv iota.
  rewrite Hps in Hnd.
  rewrite (dict_get_unique (pre ++ (String c n', p) :: rest) (String c n') p Hnd).
  - reflexivity.
  - apply List.in_or_app. right. left. reflexivity.
Qed.

End Aliases.

(** A model that two providers list, the first of them without a key *)
Lemma first_listing_provider_decides_witness :
  Config.validate_model Samples.two_providers "m" = false.
Proof.
  refine (first_listing_provider_decides Samples.two_providers [] "a" Samples.provider_a
            [("b", Samples.provider_b)] "m" eq_refl _ _ eq_refl _).
  - repeat constructor; simpl; intuition discriminate.
  - constructor.
  - discriminate.
Defined.

(** ** Reading the debug log, saving and loading the aliases *)

Section Persistence.

Import Config Persist.

(** X3. [get_debug_logs] with a type and a positive limit returns the most
    recent entries of that type, in the order of the store: a suffix of the
    entries of the type, as long as the limit allows. *)
Theorem get_debug_logs_recent :
  forall cm t n,
    t <> "" -> 0 < n ->
    (exists older,
       List.filter (fun log => String.eqb (log_type log) t) (debug_logs cm)
       = older ++ get_debug_logs cm (Some t) (Some n))
    /\ Forall (fun e => log_type e = t) (get_debug_logs cm (Some t) (Some n))
    /\ List.length (get_debug_logs cm (Some t) (Some n))
       = Nat.min (Z.to_nat n)
           (List.length
              (List.filter (fun log => String.eqb (log_type log) t) (debug_logs cm))).
Proof.
  intros cm t n Ht Hn. unfold get_debug_logs.
  destruct t as [|c t']; [contradiction|]. simpl Str.is_empty. cbv iota.
  set (logs := List.filter (fun log => String.eqb (log_type log) (String c t'))
                 (debug_logs cm)).
  destruct (Z.eqb_spec n 0) as [->|_]; [lia|].
  unfold slice_from. destruct (Z.leb_spec 0 (- n)) as [Hle|_]; [lia|].
  rewrite Z.opp_involutive.
  split; [|split].
  - exists (firstn (List.length logs - Z.to_nat n) logs).
    symmetry. apply List.firstn_skipn.
  - apply List.Forall_forall. intros e He.
    assert (Hin : In e logs).
    { rewrite <- (List.firstn_skipn (List.length logs - Z.to_nat n) logs).
      apply List.in_or_app. right. exact He. }
    unfold logs in Hin. apply List.filter_In in Hin as [_ Heq].
    apply String.eqb_eq. exact Heq.
  - rewrite List.length_skipn. lia.
Qed.

Lemma set_models_result cm now b s cm' ok :
  set_models cm now b s = (cm', ok) ->
  (ok = false -> cm' = cm)
  /\ (ok = true ->
      validate_model cm b = true /\ validate_model cm s = true
      /\ current_config cm'
         = {| proxy_enabled := proxy_enabled (current_config cm);
              big_model := Some b; small_model := Some s; current_preset := None |}).
Proof.
  unfold set_models.
  destruct (validate_model cm b) eqn:Hb; simpl.
  - destruct (validate_model cm s) eqn:Hs; simpl; intros H; inversion H; subst; clear H.
    + split; [discriminate|]. intros _. split; [reflexivity|]. split; [reflexivity|].
      destruct (add_debug_log_frame
                  (set_current_config cm
                     {| proxy_enabled := proxy_enabled (current_config cm);
                        big_model := Some b; small_model := Some s;
                        current_preset := None |})
                  now "config" "Manual model configuration"
                  (Some [("old_big_model", opt_json (big_model (current_config cm)));
                         ("old_small_model", opt_json (small_model (current_config cm)));
                         ("new_big_model", JStr b); ("new_small_model", JStr s)]))
        as [_ [_ Hc]].
      rewrite Hc. reflexivity.
    + split; [reflexivity | discriminate].
  - intros H; inversion H; subst. split; [reflexivity | discriminate].
Qed.

(** X4. What [export_config] writes, [load_config] reads back, in every
    state that the manager reaches and for a serialiser whose output parses
    back to the exported dictionary: with the aliases set the load succeeds and
    keeps both, but the current preset is forgotten; with the aliases unset the
    load answers [False] and changes nothing. *)
Theorem export_then_load :
  forall json_dumps json_loads ps pr ops now,
    json_loads (export_config json_dumps (run (init ps pr) ops))
    = Some (export_json (run (init ps pr) ops)) ->
    match big_model (current_config (run (init ps pr) ops)) with
    | Some _ =>
        exists cm',
          load_config json_loads (run (init ps pr) ops) now
            (export_config json_dumps (run (init ps pr) ops)) = Ok (cm', true)
          /\ big_model (current_config cm')
             = big_model (current_config (run (init ps pr) ops))
          /\ small_model (current_config cm')
             = small_model (current_config (run (init ps pr) ops))
          /\ proxy_enabled (current_config cm')
             = proxy_enabled (current_config (run (init ps pr) ops))
          /\ current_preset (current_config cm') = None
    | None =>
        load_config json_loads (run (init ps pr) ops) now
          (export_config json_dumps (run (init ps pr) ops))
        = Ok (run (init ps pr) ops, false)
    end.
Proof.
  intros json_dumps json_loads ps pr ops now Hparse.
  pose proof (run_consistent ops (init ps pr) (init_consistent ps pr)) as Hc.
  set (cm := run (init ps pr) ops) in *.
  unfold load_config. rewrite Hparse. unfold export_json.
  cbn [Dict.has Dict.get String.eqb Ascii.eqb Bool.eqb andb].
  unfold aliases_consistent in Hc.
  destruct (big_model (current_config cm)) as [b|] eqn:Eb,
           (small_model (current_config cm)) as [s|] eqn:Es; try contradiction.
  - destruct Hc as [Hb [Hs _]]. simpl.
    destruct (set_models cm now b s) as [cm' ok] eqn:Hset.
    destruct (set_models_result cm now b s cm' ok Hset) as [_ Htrue].
    assert (Hok : ok = true).
    { unfold set_models in Hset. rewrite Hb, Hs in Hset. simpl in Hset.
      inversion Hset. reflexivity. }
    subst ok. destruct (Htrue eq_refl) as [_ [_ Hcfg]].
    exists cm'. rewrite Hcfg. simpl. repeat split.
  - reflexivity.
Qed.

(** X5. [load_config] is all or nothing: when it answers [False] the manager
    is the one it was given; when it answers [True] both aliases are set, to
    models that the registry accepted, and no preset is current. *)
Theorem load_config_all_or_nothing :
  forall json_loads cm now config_str cm' ok,
    load_config json_loads cm now config_str = Ok (cm', ok) ->
    (ok = false -> cm' = cm)
    /\ (ok = true ->
        exists b s,
          big_model (current_config cm') = Some b
          /\ small_model (current_config cm') = Some s
          /\ validate_model cm b = true /\ validate_model cm s = true
          /\ current_preset (current_config cm') = None).
Proof.
  intros json_loads cm now config_str cm' ok. unfold load_config.
  assert (Hkeep : forall r : result (ConfigManager * bool),
             r = Ok (cm, false) -> r = Ok (cm', ok) ->
             (ok = false -> cm' = cm)
             /\ (ok = true ->
                 exists b s,
                   big_model (current_config cm') = Some b
                   /\ small_model (current_config cm') = Some s
                   /\ validate_model cm b = true /\ validate_model cm s = true
                   /\ current_preset (current_config cm') = None)).
  { intros r -> H. inversion H; subst. split; [reflexivity | discriminate]. }
  destruct (json_loads config_str) as [config|]; [|apply Hkeep; reflexivity].
  destruct config as [ | bb | z | fr | str | l | d]; try discriminate.
  - destruct (Str.contains "big_model" str && Str.contains "small_model" str)%bool;
      [discriminate | apply Hkeep; reflexivity].
  - destruct (Persist.in_array "big_model" l && Persist.in_array "small_model" l)%bool;
      [discriminate | apply Hkeep; reflexivity].
  - destruct (Dict.has "big_model" d && Dict.has "small_model" d)%bool;
      [|apply Hkeep; reflexivity].
    destruct (Dict.get "big_model" d) as [b|]; [|apply Hkeep; reflexivity].
    destruct (Dict.get "small_model" d) as [s|]; [|apply Hkeep; reflexivity].
    unfold set_models_json.
    destruct b; try (apply Hkeep; reflexivity).
    destruct s; try (apply Hkeep; reflexivity).
    intros H. inversion H as [Hset]; clear H.
    destruct (set_models_result cm now _ _ cm' ok Hset) as [Hfalse Htrue].
    split; [exact Hfalse|]. intros Hok.
    destruct (Htrue Hok) as [Hb [Hs Hcfg]].
    eexists; eexists. rewrite Hcfg. simpl. repeat split; assumption.
Qed.

End Persistence.

Lemma get_debug_logs_recent_witness :
  List.length (Persist.get_debug_logs Samples.with_logs (Some "request") (Some 2)) = 2%nat.
Proof.
  exact (proj2 (proj2 (get_debug_logs_recent Samples.with_logs "request" 2
                         ltac:(discriminate) ltac:(lia)))).
Defined.

Lemma export_then_load_witness :
  exists cm',
    Persist.load_config (fun _ => Some (Persist.export_json Samples.with_aliases))
      Samples.with_aliases "now"
      (Persist.export_config (fun _ => "{}") Samples.with_aliases)
    = Ok (cm', true)
    /\ Config.big_model (Config.current_config cm') = Some "gpt-4o"
    /\ Config.current_preset (Config.current_config cm') = None.
Proof.
  destruct (export_then_load (fun _ => "{}")
              (fun _ => Some (Persist.export_json Samples.with_aliases))
              [("b", Samples.provider_b)] [("default", Samples.default_preset)] []
              "now" eq_refl)
    as [cm' [H1 [H2 [_ [_ H5]]]]].
  exists cm'. split; [exact H1|]. split; [exact H2 | exact H5].
Defined.

Lemma load_config_all_or_nothing_witness :
  exists cm',
    Persist.load_config
      (fun _ => Some (JObj [("big_model", JStr "gpt-4o"); ("small_model", JStr "gpt-4o-mini")]))
      Samples.with_logs "now" "{}" = Ok (cm', true)
    /\ Config.current_preset (Config.current_config cm') = None.
Proof.
  eexists. split; [reflexivity|].
  destruct (proj2 (load_config_all_or_nothing
                     (fun _ => Some (JObj [("big_model", JStr "gpt-4o");
                                           ("small_model", JStr "gpt-4o-mini")]))
                     Samples.with_logs "now" "{}" _ true eq_refl) eq_refl)
    as [b [s [_ [_ [_ [_ H]]]]]].
  exact H.
Defined.

(** ** The recording of the user inputs *)

Section Recording.

Import Recorder.

Lemma scan_finds snapshot content :
  (exists prev, In prev snapshot /\ Str.contains content prev = true) ->
  forall last, fst (scan snapshot last content) = true.
Proof.
  induction snapshot as [|p snapshot IH]; intros [prev [Hin Hc]] last; simpl.
  - contradiction.
  - destruct (Str.contains content p) eqn:Hp; [reflexivity|].
    destruct Hin as [->|Hin]; [congruence|].
    destruct (Str.contains p content); apply IH; eauto.
Qed.

Lemma remove_by_content_length last c :
  (List.length (remove_by_content last c) <= List.length last)%nat.
Proof. unfold remove_by_content. apply List.filter_length_le. Qed.

Lemma scan_length snapshot content :
  forall last,
    (List.length (snd (scan snapshot last content)) <= List.length last)%nat.
Proof.
  induction snapshot as [|p snapshot IH]; intros last; simpl; [lia|].
  destruct (Str.contains content p); [simpl; lia|].
  destruct (Str.contains p content).
  - pose proof (IH (remove_by_content last p)) as H.
    pose proof (remove_by_content_length last p). lia.
  - apply IH.
Qed.

Lemma map_snd_paired {A B : Type} (a : A) (l : list B) :
  List.map snd (List.map (fun m => (a, m)) l) = l.
Proof. induction l as [|x l IH]; simpl; [reflexivity | rewrite IH; reflexivity]. Qed.

Lemma flush_records io r :
  records (flush_conversation_buffer io r) = records r.
Proof.
  unfold flush_conversation_buffer, records.
  destruct (conversation_buffer r) as [|m buf] eqn:Hb; [rewrite Hb; reflexivity|].
  destruct (conversation_file_path r) as [path|]; [|rewrite Hb; reflexivity].
  destruct (Str.is_empty path); [rewrite Hb; reflexivity|].
  destruct io; [|rewrite Hb; reflexivity].
  cbn [written conversation_buffer].
  rewrite List.map_app, map_snd_paired, List.app_nil_r. reflexivity.
Qed.

Lemma flush_written io r :
  exists more, written (flush_conversation_buffer io r) = written r ++ more.
Proof.
  unfold flush_conversation_buffer.
  destruct (conversation_buffer r) as [|m buf]; [exists []; symmetry; apply List.app_nil_r|].
  destruct (conversation_file_path r) as [path|];
    [|exists []; symmetry; apply List.app_nil_r].
  destruct (Str.is_empty path); [exists []; symmetry; apply List.app_nil_r|].
  destruct io; [|exists []; symmetry; apply List.app_nil_r].
  simpl. eexists. reflexivity.
Qed.

Lemma flush_last io r :
  last_conversations (flush_conversation_buffer io r) = last_conversations r.
Proof.
  unfold flush_conversation_buffer.
  destruct (conversation_buffer r); [reflexivity|].
  destruct (conversation_file_path r) as [path|]; [|reflexivity].
  destruct (Str.is_empty path); [reflexivity|]. destruct io; reflexivity.
Qed.

(** X6. An input that is a part of one of the twenty most recent inputs is a
    duplicate: nothing is buffered and nothing is written for it. *)
Theorem contained_input_not_recorded :
  forall io now r role content model ts prev,
    conversation_recording_enabled r = true ->
    role = "user" ->
    In prev (slice_last 20 (last_conversations r)) ->
    Str.contains content prev = true ->
    conversation_buffer (add_conversation_message io now r role content model ts)
    = conversation_buffer r
    /\ written (add_conversation_message io now r role content model ts) = written r.
Proof.
  intros io now r role content model ts prev Hen -> Hin Hc.
  unfold add_conversation_message. rewrite Hen. simpl.
  unfold is_duplicate_message.
  pose proof (scan_finds (List.rev (slice_last 20 (last_conversations r))) content
                (ex_intro _ prev (conj (proj1 (List.in_rev _ _) Hin) Hc))
                (last_conversations r)) as Hs.
  destruct (scan (List.rev (slice_last 20 (last_conversations r)))
              (last_conversations r) content) as [dup last'].
  simpl in Hs. subst dup. split; reflexivity.
Qed.

(** X7. Records are neither lost nor repeated by the buffer and its flush:
    after any call, the records on file followed by the buffered ones are
    those of before, followed by the new record exactly when recording is on,
    the role is [user] and the input is no duplicate; what was written stays
    written. *)
Theorem records_are_conserved :
  forall io now r role content model ts,
    records (add_conversation_message io now r role content model ts)
    = records r
      ++ (if (conversation_recording_enabled r && String.eqb role "user"
              && negb (fst (is_duplicate_message (last_conversations r) content)))%bool
          then [{| user_input := content;
                   timestamp := match ts with Some t => t | None => now end;
                   model_used := model |}]
          else [])
    /\ exists more,
         written (add_conversation_message io now r role content model ts)
         = written r ++ more.
Proof.
  intros io now r role content model ts. unfold add_conversation_message.
  destruct (conversation_recording_enabled r); simpl;
    [|split; [symmetry; apply List.app_nil_r | exists []; symmetry; apply List.app_nil_r]].
  destruct (String.eqb role "user"); simpl;
    [|split; [symmetry; apply List.app_nil_r | exists []; symmetry; apply List.app_nil_r]].
  destruct (is_duplicate_message (last_conversations r) content) as [dup last'].
  destruct dup; simpl.
  - split; [unfold records; simpl; symmetry; apply List.app_nil_r
           | exists []; symmetry; apply List.app_nil_r].
  - match goal with
    | |- context [if ?c then flush_conversation_buffer io ?r1 else _] =>
        destruct c; [rewrite (flush_records io r1); split;
                     [unfold records; simpl; apply List.app_assoc
                     | exact (flush_written io r1)]
                    | split; [unfold records; simpl; apply List.app_assoc
                             | exists []; symmetry; apply List.app_nil_r]]
    end.
Qed.

(** X8. The list of recent inputs stays within its bound of 50: a call on a
    list of at most 50 inputs leaves at most 50. *)
Theorem recent_inputs_bounded :
  forall io now r role content model ts,
    (List.length (last_conversations r) <= 50)%nat ->
    (List.length
       (last_conversations (add_conversation_message io now r role content model ts))
     <= 50)%nat.
Proof.
  intros io now r role content model ts Hlen. unfold add_conversation_message.
  destruct (negb (conversation_recording_enabled r) || negb (String.eqb role "user"))%bool;
    [exact Hlen|].
  unfold is_duplicate_message.
  pose proof (scan_length (List.rev (slice_last 20 (last_conversations r))) content
                (last_conversations r)) as Hs.
  destruct (scan (List.rev (slice_last 20 (last_conversations r)))
              (last_conversations r) content) as [dup last'].
  simpl in Hs. destruct dup; simpl; [lia|].
  assert (Hb : (List.length
                  (if Nat.ltb 50 (List.length (last' ++ [content]))
                   then slice_last 50 (last' ++ [content]) else last' ++ [content])
                <= 50)%nat).
  { destruct (Nat.ltb_spec 50 (List.length (last' ++ [content]))) as [Hlt|Hge];
      [|exact Hge].
    unfold slice_last. rewrite List.length_skipn. lia. }
  match goal with
  | |- context [if ?c then flush_conversation_buffer io ?r1 else _] =>
      destruct c; [rewrite (flush_last io r1)|]; simpl; exact Hb
  end.
Qed.


End Recording.

Lemma contained_input_not_recorded_witness :
  Recorder.conversation_buffer
    (Recorder.add_conversation_message true "t1" RecorderSamples.recording "user"
       "the files" "m" None)
  = Recorder.conversation_buffer RecorderSamples.recording.
Proof.
  exact (proj1 (contained_input_not_recorded true "t1" RecorderSamples.recording "user"
                  "the files" "m" None "list the files in src"
                  eq_refl eq_refl (or_introl eq_refl) eq_refl)).
Defined.

Lemma recent_inputs_bounded_witness :
  (List.length
     (Recorder.last_conversations
        (Recorder.add_conversation_message true "t1" RecorderSamples.recording "user"
           "run the tests" "m" None)) <= 50)%nat.
Proof.
  apply (recent_inputs_bounded true "t1" RecorderSamples.recording "user"
           "run the tests" "m" None).
  simpl. lia.
Defined.


(** ** The two validators, the provider of a model, the configuration endpoints *)

Section Validators.

Import Config Router Endpoints.

(** X10. The validator of the token-count requests reads the same missing
    key as the validator of the message requests: in every state that the
    manager reaches and for every token it raises [KeyError] on [super_model],
    before it looks at the token. *)
Theorem token_count_routing_raises_key_error :
  forall ps pr ops v,
    validate_model_token_count (get_status (run (init ps pr) ops)) v
    = Err (KeyError "super_model").
Proof.
  intros ps pr ops v. unfold validate_model_token_count, getitem.
  rewrite get_status_super_model. reflexivity.
Qed.

Lemma get_status_preferred_provider cm : get_status cm !! "preferred_provider" = None.
Proof.
  unfold get_status.
  repeat (rewrite lookup_insert_ne by discriminate).
  apply lookup_empty.
Qed.

Lemma config_response_fails cm :
  config_response cm = Err (KeyError "preferred_provider").
Proof.
  unfold config_response, getitem. rewrite get_status_preferred_provider. reflexivity.
Qed.

(** X11. The endpoints that report the configuration read a key that
    [get_status] does not have: [get_config] raises [KeyError], and
    [switch_model] answers 500 whatever the request; a request without preset
    and without provider has its models applied all the same, before the
    failure. *)
Theorem configuration_endpoints_fail :
  forall cm now request,
    get_config cm = Err (KeyError "preferred_provider")
    /\ snd (switch_model cm now request) = inr 500
    /\ (req_preset request = None -> req_preferred_provider request = None ->
        fst (switch_model cm now request)
        = fst (set_models_opt cm now (req_big_model request) (req_small_model request))).
Proof.
  intros cm now request. split; [apply config_response_fails|]. split.
  - unfold switch_model.
    destruct (Str.truthy (req_preset request)).
    + destruct (req_preset request) as [p|]; [|reflexivity].
      destruct (Dict.get p MAPPING_PRESETS) as [[b s]|]; [|reflexivity].
      rewrite config_response_fails. reflexivity.
    + destruct (Str.truthy (req_preferred_provider request)
                && negb match req_preferred_provider request with
                        | Some p => Str.mem p ["openai"; "google"; "anthropic"]
                        | None => false
                        end)%bool; [reflexivity|].
      rewrite config_response_fails. reflexivity.
  - intros Hp Hv. unfold switch_model. rewrite Hp, Hv. simpl.
    rewrite config_response_fails. reflexivity.
Qed.

End Validators.

Lemma configuration_endpoints_fail_witness :
  Config.big_model
    (Config.current_config
       (fst (Endpoints.switch_model Samples.with_logs "now"
               {| Endpoints.req_preferred_provider := None;
                  Endpoints.req_big_model := Some "gpt-4o";
                  Endpoints.req_small_model := Some "gpt-4o-mini";
                  Endpoints.req_preset := None |})))
  = Some "gpt-4o".
Proof.
  rewrite (proj2 (proj2 (configuration_endpoints_fail Samples.with_logs "now"
                           {| Endpoints.req_preferred_provider := None;
                              Endpoints.req_big_model := Some "gpt-4o";
                              Endpoints.req_small_model := Some "gpt-4o-mini";
                              Endpoints.req_preset := None |})) eq_refl eq_refl).
  reflexivity.
Defined.

(** ** The target of a request *)

(** C6. A model that the registry lists under a provider of the OpenAI
    format, and whose name has neither the [openai/] nor the [gemini/] prefix,
    is sent to [openai/], an OpenAI-compatible target, with the credentials of
    that provider and with the [max_tokens] of the request, uncapped: the cap
    is decided on the name before [create_message] adds the prefix. *)
Theorem registry_models_are_not_capped :
  forall json_dumps py_str cm env req r provider_name provider,
    Config.find_model_provider cm (Request.model req) = Some provider_name ->
    provider_name <> "" ->
    Dict.get provider_name (Config.providers cm) = Some provider ->
    Config.api_format provider = "openai" ->
    Str.startswith "openai/" (Request.model req) = false ->
    Str.startswith "gemini/" (Request.model req) = false ->
    Request.convert_anthropic_to_litellm json_dumps py_str req = Ok r ->
    Endpoints.target_model (Endpoints.select_target cm env (Request.model req))
    = "openai/" +:+ Request.model req
    /\ Endpoints.target_api_key (Endpoints.select_target cm env (Request.model req))
       = Config.api_key provider
    /\ Request.l_max_tokens r = Request.max_tokens req.
Proof.
  intros json_dumps py_str cm env req r provider_name provider Hf Hn Hg Hfmt Ho Hgm Hc.
  unfold Endpoints.select_target. rewrite Hf.
  destruct provider_name as [|a n']; [contradiction|]. simpl Str.is_empty. cbv iota.
  rewrite Hg, Hfmt, Ho. simpl.
  repeat split.
  rewrite (convert_max_tokens json_dumps py_str req r Hc).
  unfold Request.capped_max_tokens. rewrite Ho, Hgm. reflexivity.
Qed.

Lemma registry_models_are_not_capped_witness :
  exists r,
    Request.convert_anthropic_to_litellm (fun _ => "") (fun _ => "")
      (Request.basic_request "gpt-4o" 50000 None Request.two_turns) = Ok r
    /\ Request.l_max_tokens r = 50000
    /\ Endpoints.target_model
         (Endpoints.select_target Samples.with_logs
            {| Endpoints.ANTHROPIC_API_KEY := None; Endpoints.OPENAI_API_KEY := None;
               Endpoints.GEMINI_API_KEY := None; Endpoints.OPENAI_BASE_URL := None |}
            "gpt-4o")
       = "openai/gpt-4o".
Proof.
  eexists. split; [reflexivity|].
  pose proof (registry_models_are_not_capped (fun _ => "") (fun _ => "")
                Samples.with_logs
                {| Endpoints.ANTHROPIC_API_KEY := None; Endpoints.OPENAI_API_KEY := None;
                   Endpoints.GEMINI_API_KEY := None; Endpoints.OPENAI_BASE_URL := None |}
                (Request.basic_request "gpt-4o" 50000 None Request.two_turns)
                _ "b" Samples.provider_b eq_refl ltac:(discriminate) eq_refl eq_refl
                eq_refl eq_refl eq_refl) as [H1 [_ H3]].
  split; [exact H3 | exact H1].
Defined.

(** ** Complete replies of the backend, and the OpenAI-compatible endpoint *)

Section TypedReplies.

Import Response Observe.

Variable json_loads : string -> option pv.
Variable validate_int : pv -> option Z.
Variable msg_uuid : string.
Variable tool_uuid : nat -> string.

Lemma validate_parsed_tool_uses calls inputs :
  Forall2 (fun call d => parsed_input json_loads (snd call) = Some d) calls inputs ->
  validate_blocks (List.map (raw_tool_use json_loads) calls)
  = Ok (tool_blocks calls inputs).
Proof.
  induction 1 as [|call d calls inputs Hd Hrest IH]; [reflexivity|].
  cbn [List.map validate_blocks]. rewrite IH.
  unfold raw_tool_use, validate_block, parse_arguments. cbn [validate_str bind].
  unfold parsed_input in Hd.
  destruct (json_loads (snd call)) as [[]|]; try discriminate Hd;
    inversion Hd; subst; reflexivity.
Qed.

Lemma typed_conversion f g h rid t calls inputs finish p c request_model :
  Forall2 (fun call d => parsed_input json_loads (snd call) = Some d) calls inputs ->
  validate_int (VInt p) = Some p ->
  validate_int (VInt c) = Some c ->
  convert_body json_loads validate_int msg_uuid tool_uuid
    (backend_response f g rid (text_value t) calls finish (usage_value h p c)) request_model
  = Ok {| id := rid; model := request_model; role := "assistant";
          content := reply_content t calls inputs;
          stop_reason := Some (map_finish_reason (VStr finish));
          usage := {| input_tokens := p; output_tokens := c |} |}.
Proof.
  intros Hin Hp Hc.
  pose proof (validate_parsed_tool_uses calls inputs Hin) as Hv.
  unfold convert_body.
  rewrite (extract_backend_response msg_uuid f g rid (text_value t) calls finish
             (usage_value h p c)).
  cbn [bind]. unfold raw_content. cbn [content_text tool_calls].
  assert (Hraw :
    (if truthy (VList (List.map
                         (fun c0 => backend_tool_call g (fst (fst c0)) (snd (fst c0)) (snd c0))
                         calls))
     then tool_use_blocks json_loads tool_uuid 0
            (List.map (fun c0 => backend_tool_call g (fst (fst c0)) (snd (fst c0)) (snd c0))
               calls)
     else Ok [])
    = Ok (List.map (raw_tool_use json_loads) calls)).
  { destruct calls as [|c0 calls']; [reflexivity|].
    cbn [truthy List.map].
    apply (tool_use_blocks_backend json_loads tool_uuid g (c0 :: calls')). }
  rewrite Hraw. cbn [bind].
  assert (Htail : forall raw blocks,
            validate_blocks raw = Ok blocks ->
            (try raw0 <- Ok raw
             in try i <- validate_tokens validate_int "usage.input_tokens"
                           (usage_field (usage_value h p c) "prompt_tokens")
                in try o <- validate_tokens validate_int "usage.output_tokens"
                              (usage_field (usage_value h p c) "completion_tokens")
                   in try rid0 <- validate_str "id" (VStr rid)
                      in try blocks0 <- validate_blocks raw0
                         in Ok {| id := rid0; model := request_model; role := "assistant";
                                  content := blocks0;
                                  stop_reason := Some (map_finish_reason (VStr finish));
                                  usage := {| input_tokens := i; output_tokens := o |} |})
            = Ok {| id := rid; model := request_model; role := "assistant";
                    content := blocks;
                    stop_reason := Some (map_finish_reason (VStr finish));
                    usage := {| input_tokens := p; output_tokens := c |} |}).
  { intros raw blocks Hb. cbn [bind].
    assert (Hu : usage_field (usage_value h p c) "prompt_tokens" = VInt p
                 /\ usage_field (usage_value h p c) "completion_tokens" = VInt c)
      by (destruct h; split; reflexivity).
    destruct Hu as [-> ->]. unfold validate_tokens.
    rewrite Hp, Hc. cbn [bind validate_str]. rewrite Hb. reflexivity. }
  unfold reply_content, text_blocks.
  destruct t as [s|]; cbn [text_value is_none is_empty_str negb andb].
  - destruct (Str.is_empty s) eqn:Hs; cbn [negb List.app].
    + destruct calls as [|c0 calls'].
      * inversion Hin; subst. apply Htail. reflexivity.
      * destruct (List.map (raw_tool_use json_loads) (c0 :: calls')) eqn:E;
          [discriminate E|].
        inversion Hin; subst. apply Htail. exact Hv.
    + apply Htail. cbn [validate_blocks validate_block validate_str bind].
      rewrite Hv. reflexivity.
  - destruct calls as [|c0 calls'].
    + inversion Hin; subst. apply Htail. reflexivity.
    + cbn [List.app].
      destruct (List.map (raw_tool_use json_loads) (c0 :: calls')) eqn:E;
        [discriminate E|].
      inversion Hin; subst. apply Htail. exact Hv.
Qed.

End TypedReplies.

(** X12. A complete reply of the backend, a dictionary or an object of
    LiteLLM with its tool calls and its usage in either form, whose text is a
    string or [None], whose tool-call arguments are strings that parse to an object or do not
    parse at all, and whose usage counters are integers that the data model
    accepts, is converted without fallback: the text block when the text is
    not empty, then one [tool_use] block per call with its identifier, its
    name and the parsed object, or the string under [raw] when it is no JSON;
    a single empty text block when there is neither; the mapped stop reason
    and the counters of the backend. *)
Theorem backend_reply_converted :
  forall json_loads validate_int msg_uuid tool_uuid f g h rid t calls inputs finish p c
         request_model,
    Forall2 (fun call d => Observe.parsed_input json_loads (snd call) = Some d)
      calls inputs ->
    validate_int (Response.VInt p) = Some p ->
    validate_int (Response.VInt c) = Some c ->
    Response.convert_litellm_to_anthropic json_loads validate_int msg_uuid tool_uuid
      (Response.backend_response f g rid (Observe.text_value t) calls finish
         (Observe.usage_value h p c)) request_model
    = {| Response.id := rid; Response.model := request_model;
         Response.role := "assistant";
         Response.content := Observe.reply_content t calls inputs;
         Response.stop_reason :=
           Some (Response.map_finish_reason (Response.VStr finish));
         Response.usage := {| Response.input_tokens := p;
                              Response.output_tokens := c |} |}.
Proof.
  intros json_loads validate_int msg_uuid tool_uuid f g h rid t calls inputs finish p c
         request_model Hin Hp Hc.
  unfold Response.convert_litellm_to_anthropic.
  rewrite (typed_conversion json_loads validate_int msg_uuid tool_uuid f g h rid t calls
             inputs finish p c request_model Hin Hp Hc).
  reflexivity.
Qed.

Lemma backend_reply_converted_witness :
  Response.content
    (Response.convert_litellm_to_anthropic (fun _ => None) Response.int_only "msg_0"
       (fun _ => "tool_0")
       (Response.backend_response Response.AsObject Response.AsObject "chatcmpl-1"
          Response.VNone [("call_1", "f", "{broken")] "tool_calls"
          (Observe.usage_value Response.AsObject 3 5))
       "openai/gpt-4o")
  = [Response.ContentBlockToolUse "call_1" "f" [("raw", Response.VStr "{broken")]].
Proof.
  exact (f_equal Response.content
           (backend_reply_converted (fun _ => None) Response.int_only "msg_0"
              (fun _ => "tool_0") Response.AsObject Response.AsObject Response.AsObject
              "chatcmpl-1" None [("call_1", "f", "{broken")]
              [[("raw", Response.VStr "{broken")]] "tool_calls" 3 5 "openai/gpt-4o"
              ltac:(repeat constructor) eq_refl eq_refl)).
Defined.

(** X13. Through the OpenAI-compatible endpoint a reply with text is
    answered with that text only: the tool calls of the reply are left out, the
    finish reason is [stop] whatever the backend said, and the total is the sum
    of the two counters. *)
Theorem chat_completion_of_text_reply :
  forall json_loads validate_int msg_uuid tool_uuid now chat_model
         f g h rid s calls inputs finish p c request_model,
    s <> "" ->
    Forall2 (fun call d => Observe.parsed_input json_loads (snd call) = Some d)
      calls inputs ->
    validate_int (Response.VInt p) = Some p ->
    validate_int (Response.VInt c) = Some c ->
    Endpoints.to_chat_completion now chat_model
      (Response.convert_litellm_to_anthropic json_loads validate_int msg_uuid tool_uuid
         (Response.backend_response f g rid (Response.VStr s) calls finish
            (Observe.usage_value h p c)) request_model)
    = Ok (Endpoints.AsChatCompletion
            {| Endpoints.chat_id := "chatcmpl-" +:+ rid;
               Endpoints.created := now;
               Endpoints.chat_model := chat_model;
               Endpoints.chat_content := s;
               Endpoints.chat_finish_reason := "stop";
               Endpoints.prompt_tokens := p;
               Endpoints.completion_tokens := c;
               Endpoints.total_tokens := p + c |}).
Proof.
  intros json_loads validate_int msg_uuid tool_uuid now chat_model
         f g h rid s calls inputs finish p c request_model Hs Hin Hp Hc.
  unfold Response.convert_litellm_to_anthropic.
  change (Response.VStr s) with (Observe.text_value (Some s)).
  rewrite (typed_conversion json_loads validate_int msg_uuid tool_uuid f g h rid (Some s) calls
             inputs finish p c request_model Hin Hp Hc).
  unfold Endpoints.to_chat_completion, Observe.reply_content, Observe.text_blocks.
  destruct s as [|a s']; [contradiction|]. reflexivity.
Qed.

Lemma chat_completion_of_text_reply_witness :
  exists r,
    Endpoints.to_chat_completion 1700000000 "claude-3-5-sonnet"
      (Response.convert_litellm_to_anthropic (fun _ => Some (Response.VDict []))
         Response.int_only "msg_0" (fun _ => "tool_0")
         (Response.backend_response Response.AsObject Response.AsObject "1"
            (Response.VStr "Let me look.") [("call_1", "f", "{}")] "tool_calls"
            (Observe.usage_value Response.AsObject 3 5))
         "openai/gpt-4o")
    = Ok (Endpoints.AsChatCompletion r)
    /\ Endpoints.chat_content r = "Let me look."
    /\ Endpoints.total_tokens r = 8.
Proof.
  eexists. split.
  - exact (chat_completion_of_text_reply (fun _ => Some (Response.VDict []))
             Response.int_only "msg_0" (fun _ => "tool_0") 1700000000
             "claude-3-5-sonnet" Response.AsObject Response.AsObject Response.AsObject
             "1" "Let me look." [("call_1", "f", "{}")] [[]]
             "tool_calls" 3 5 "openai/gpt-4o" ltac:(discriminate)
             ltac:(repeat constructor) eq_refl eq_refl).
  - split; reflexivity.
Defined.

(** X14. Through the OpenAI-compatible endpoint a reply that has tool calls
    and no text cannot be answered: its first block is a [tool_use] block, and
    the read of its text raises. *)
Theorem chat_completion_of_tool_reply :
  forall json_loads validate_int msg_uuid tool_uuid now chat_model
         f g h rid t call calls inputs finish p c request_model,
    t = None \/ t = Some "" ->
    Forall2 (fun call d => Observe.parsed_input json_loads (snd call) = Some d)
      (call :: calls) inputs ->
    validate_int (Response.VInt p) = Some p ->
    validate_int (Response.VInt c) = Some c ->
    Endpoints.to_chat_completion now chat_model
      (Response.convert_litellm_to_anthropic json_loads validate_int msg_uuid tool_uuid
         (Response.backend_response f g rid (Observe.text_value t) (call :: calls) finish
            (Observe.usage_value h p c)) request_model)
    = Err (AttributeError "text").
Proof.
  intros json_loads validate_int msg_uuid tool_uuid now chat_model
         f g h rid t call calls inputs finish p c request_model Ht Hin Hp Hc.
  unfold Response.convert_litellm_to_anthropic.
  rewrite (typed_conversion json_loads validate_int msg_uuid tool_uuid f g h rid t
             (call :: calls)
             inputs finish p c request_model Hin Hp Hc).
  inversion Hin; subst.
  unfold Endpoints.to_chat_completion, Observe.reply_content, Observe.text_blocks.
  destruct Ht as [->| ->]; reflexivity.
Qed.

Lemma chat_completion_of_tool_reply_witness :
  Endpoints.to_chat_completion 1700000000 "claude-3-5-sonnet"
    (Response.convert_litellm_to_anthropic (fun _ => Some (Response.VDict []))
       Response.int_only "msg_0" (fun _ => "tool_0")
       (Response.backend_response Response.AsObject Response.AsObject "1" Response.VNone
          [("call_1", "f", "{}")] "tool_calls" (Observe.usage_value Response.AsObject 3 5))
       "openai/gpt-4o")
  = Err (AttributeError "text").
Proof.
  exact (chat_completion_of_tool_reply (fun _ => Some (Response.VDict []))
           Response.int_only "msg_0" (fun _ => "tool_0") 1700000000
           "claude-3-5-sonnet" Response.AsObject Response.AsObject Response.AsObject
           "1" None ("call_1", "f", "{}") [] [[]]
           "tool_calls" 3 5 "openai/gpt-4o" (or_introl eq_refl)
           ltac:(repeat constructor) eq_refl eq_refl).
Defined.

(** ** The shape of a reconstructed stream *)

Section StreamShape.

Import Stream Observe.

Variable json_dumps : json -> string.
Variable tool_uuid : nat -> string.

Lemma collect_app {A B : Type} (f : A -> option B) l1 l2 :
  collect f (l1 ++ l2) = collect f l1 ++ collect f l2.
Proof.
  induction l1 as [|x l1 IH]; simpl; [reflexivity|].
  destruct (f x); rewrite IH; reflexivity.
Qed.

Lemma text_of_input_json_delta i a : text_of (input_json_delta i a) = None.
Proof. destruct i; reflexivity. Qed.

Lemma text_of_content_block_stop i : text_of (content_block_stop i) = None.
Proof. reflexivity. Qed.

Lemma tool_start_of_start index tool_id name :
  tool_start_of (tool_block_start index tool_id name) = Some index.
Proof. unfold tool_start_of, tool_block_start, jnat. simpl. rewrite Nat2Z.id. reflexivity. Qed.

Lemma tool_starts_stops l :
  tool_starts (List.map content_block_stop l) = []
  /\ text_deltas (List.map content_block_stop l) = []
  /\ forallb is_content_event (List.map content_block_stop l) = true.
Proof. induction l as [|i l [IH1 [IH2 IH3]]]; simpl; repeat split; assumption. Qed.

(** A text delta: what it sends and what it leaves alone *)
Lemma on_text_shape st d st1 evs :
  on_text st d = (st1, evs) ->
  tool_index st1 = tool_index st
  /\ last_tool_index st1 = last_tool_index st
  /\ text_block_closed st1 = text_block_closed st
  /\ has_sent_stop_reason st1 = has_sent_stop_reason st
  /\ output_tokens st1 = output_tokens st
  /\ tool_starts evs = []
  /\ forallb is_content_event evs = true
  /\ text_deltas evs = (if (started st || text_block_closed st)%bool then [] else [d])
  /\ (started st = false -> text_block_closed st = false -> text_sent st1 = true).
Proof.
  unfold on_text, started. intros H. inversion H; subst; clear H. cbn.
  destruct (tool_index st); cbn; [repeat split; intros; discriminate|].
  destruct (text_block_closed st); cbn; repeat split; intros; try discriminate; reflexivity.
Qed.

Lemma close_text_shape st st1 evs :
  close_text_for_tools st = (st1, evs) ->
  reach st ->
  tool_index st1 = tool_index st
  /\ last_tool_index st1 = last_tool_index st
  /\ text_block_closed st1 = true
  /\ has_sent_stop_reason st1 = has_sent_stop_reason st
  /\ output_tokens st1 = output_tokens st
  /\ tool_starts evs = []
  /\ forallb is_content_event evs = true
  /\ text_deltas evs = [].
Proof.
  unfold close_text_for_tools, reach, started. intros H [Hs Hr].
  destruct (tool_index st) eqn:Hi.
  - inversion H; subst. destruct Hr as [Hc _]. repeat split; assumption.
  - destruct Hr as [Hc [_ Hacc]]. rewrite Hc in H.
    destruct (text_sent st) eqn:Hsent; cbn in H.
    + inversion H; subst. repeat split; assumption.
    + destruct Hacc as [Hacc|Hacc]; [|discriminate Hacc].
      rewrite Hacc in H. cbn in H. inversion H; subst. repeat split; assumption.
Qed.

Lemma on_tool_call_shape st tc st1 evs :
  on_tool_call json_dumps tool_uuid st tc = (st1, evs) ->
  started st1 = true
  /\ (last_tool_index st <= last_tool_index st1)%nat
  /\ ((started st = true -> 1 <= last_tool_index st)%nat -> (1 <= last_tool_index st1)%nat)
  /\ text_block_closed st1 = text_block_closed st
  /\ has_sent_stop_reason st1 = has_sent_stop_reason st
  /\ output_tokens st1 = output_tokens st
  /\ tool_starts evs = seq (S (last_tool_index st)) (last_tool_index st1 - last_tool_index st)
  /\ forallb is_content_event evs = true
  /\ text_deltas evs = [].
Proof.
  unfold on_tool_call, started. intros H.
  destruct (tool_index st) as [i|] eqn:Hi.
  - destruct (negb (Z.eqb (match tc_index tc with Some i0 => i0 | None => 0 end) i));
      destruct (args_json json_dumps tc); injection H as <- <-; cbn;
      rewrite ?Hi, ?Nat.sub_diag, ?text_of_input_json_delta, ?Nat2Z.id;
      replace (S (last_tool_index st) - last_tool_index st)%nat with 1%nat by lia;
      repeat split; try lia; auto;
      destruct (Z.of_nat (anthropic_tool_index st)); reflexivity.
  - destruct (args_json json_dumps tc); injection H as <- <-; cbn;
      rewrite ?text_of_input_json_delta, ?Nat2Z.id;
      replace (S (last_tool_index st) - last_tool_index st)%nat with 1%nat by lia;
      repeat split; try lia; auto.
Qed.

Lemma on_tool_calls_shape tcs :
  forall st st1 evs,
    on_tool_calls json_dumps tool_uuid st tcs = (st1, evs) ->
    (started st = true -> started st1 = true)
    /\ (last_tool_index st <= last_tool_index st1)%nat
    /\ text_block_closed st1 = text_block_closed st
    /\ has_sent_stop_reason st1 = has_sent_stop_reason st
    /\ output_tokens st1 = output_tokens st
    /\ tool_starts evs = seq (S (last_tool_index st)) (last_tool_index st1 - last_tool_index st)
    /\ forallb is_content_event evs = true
    /\ text_deltas evs = [].
Proof.
  induction tcs as [|tc tcs IHt]; intros st st1 evs H; simpl in H.
  - injection H as <- <-. rewrite Nat.sub_diag. repeat split; auto.
  - destruct (on_tool_call json_dumps tool_uuid st tc) as [sa ea] eqn:Ea.
    destruct (on_tool_calls json_dumps tool_uuid sa tcs) as [sb eb] eqn:Eb.
    injection H as <- <-.
    destruct (on_tool_call_shape _ _ _ _ Ea) as [A1 [A2 [_ [A4 [A5 [A6 [A7 [A8 A9]]]]]]]].
    destruct (IHt _ _ _ Eb) as [B1 [B2 [B4 [B5 [B6 [B7 [B8 B9]]]]]]].
    split; [auto|]. split; [lia|]. split; [congruence|]. split; [congruence|].
    split; [congruence|]. split; [|split].
    + unfold tool_starts in *. rewrite collect_app, A7, B7.
      replace (last_tool_index sb - last_tool_index st)%nat
        with ((last_tool_index sa - last_tool_index st)
              + (last_tool_index sb - last_tool_index sa))%nat by lia.
      rewrite List.seq_app. f_equal. f_equal. lia.
    + rewrite forallb_app, A8, B8. reflexivity.
    + unfold text_deltas in *. rewrite collect_app, A9, B9. reflexivity.
Qed.

Lemma on_tool_calls_started tc tcs st st1 evs :
  on_tool_calls json_dumps tool_uuid st (tc :: tcs) = (st1, evs) ->
  (started st = true -> 1 <= last_tool_index st)%nat ->
  started st1 = true /\ (1 <= last_tool_index st1)%nat.
Proof.
  intros H Hst. simpl in H.
  destruct (on_tool_call json_dumps tool_uuid st tc) as [sa ea] eqn:Ea.
  destruct (on_tool_calls json_dumps tool_uuid sa tcs) as [sb eb] eqn:Eb.
  injection H as <- _.
  destruct (on_tool_call_shape _ _ _ _ Ea) as [A1 [_ [A3 _]]].
  destruct (on_tool_calls_shape _ _ _ _ Eb) as [B1 [B2 _]].
  split; [auto|]. specialize (A3 Hst). lia.
Qed.

Lemma read_usage_shape st c :
  tool_index (read_usage st c) = tool_index st
  /\ last_tool_index (read_usage st c) = last_tool_index st
  /\ output_tokens (read_usage st c) = completion_of (output_tokens st) c
  /\ (reach st -> reach (read_usage st c)).
Proof.
  unfold read_usage, completion_of, reach, started.
  destruct (usage c) as [u|]; cbn; repeat split; auto; intuition.
Qed.

Lemma on_text_reach st d st1 evs :
  on_text st d = (st1, evs) -> reach st -> reach st1.
Proof.
  unfold on_text, reach, started. intros H. injection H as <- _. cbn.
  intros [Hs Hr]. split; [exact Hs|].
  destruct (tool_index st); [exact Hr|].
  destruct Hr as [Hc [Hl _]]. rewrite Hc. cbn. auto.
Qed.

Lemma finish_events_shape st reason i :
  reach st -> (1 <= i)%nat ->
  count_stops i (finish_events st reason)
  = (if Nat.leb i (last_tool_index st) then 1%nat else 0%nat)
  /\ tool_starts (finish_events st reason) = []
  /\ text_deltas (finish_events st reason) = []
  /\ exists body,
       finish_events st reason
       = body ++ [message_delta (map_stop_reason reason) (output_tokens st);
                  message_stop; Done]
       /\ forallb is_content_event body = true.
Proof.
  unfold reach, started, finish_events. intros [Hs Hr] Hi.
  destruct (tool_index st).
  - destruct Hr as [Hc Hl]. rewrite Hc. cbn [List.app].
    destruct (tool_starts_stops (tool_indices (last_tool_index st))) as [T1 [T2 T3]].
    split; [|split; [|split]].
    + rewrite count_stops_app. unfold tool_indices. rewrite count_stops_range.
      replace (count_stops i [message_delta (map_stop_reason reason) (output_tokens st);
                              message_stop; Done]) with 0%nat by reflexivity.
      destruct (Nat.leb_spec 1 i), (Nat.ltb_spec i (1 + last_tool_index st)),
        (Nat.leb_spec i (last_tool_index st)); simpl; lia.
    + unfold tool_starts in *. rewrite collect_app, T1. reflexivity.
    + unfold text_deltas in *. rewrite collect_app, T2. reflexivity.
    + eexists. split; [reflexivity | exact T3].
  - destruct Hr as [Hc [Hl Hacc]]. rewrite Hc, Hl.
    assert (Hno : (negb (Str.is_empty (accumulated_text st)) && negb (text_sent st))%bool
                  = false).
    { destruct Hacc as [-> | ->]; [reflexivity | apply andb_false_r]. }
    rewrite Hno. cbn [List.app].
    split; [|split; [|split]].
    + destruct i; [lia | reflexivity].
    + reflexivity.
    + reflexivity.
    + exists [content_block_stop 0]. split; reflexivity.
Qed.

Lemma stop_reason_of_cons c rest :
  stop_reason_of (c :: rest)
  = if has_finish c then stop_reason_of [c] else stop_reason_of rest.
Proof.
  unfold has_finish. simpl.
  destruct (choices c) as [|choice l]; [reflexivity|].
  destruct (finish_reason choice) as [reason|]; [|reflexivity].
  destruct (Str.is_empty reason); reflexivity.
Qed.

Lemma started_same a b : tool_index a = tool_index b -> started a = started b.
Proof. unfold started. intros ->. reflexivity. Qed.

Lemma reach_started st :
  reach st -> (started st = true -> 1 <= last_tool_index st)%nat.
Proof. unfold reach. intros [_ Hr] Hs. rewrite Hs in Hr. apply Hr. Qed.

(** One chunk: what it sends, and the state it leaves *)
Lemma on_chunk_shape st c st1 evs returned :
  on_chunk json_dumps tool_uuid st c = (st1, evs, returned) ->
  reach st ->
  returned = has_finish c
  /\ output_tokens st1 = completion_of (output_tokens st) c
  /\ (last_tool_index st <= last_tool_index st1)%nat
  /\ tool_starts evs = seq (S (last_tool_index st)) (last_tool_index st1 - last_tool_index st)
  /\ text_deltas evs
     = (if started st then []
        else match chunk_text c with Some t => [t] | None => [] end)
  /\ started st1 = (started st || has_tool_calls c)%bool
  /\ (returned = false -> reach st1 /\ forallb is_content_event evs = true)
  /\ (returned = true ->
      (forall i, (1 <= i)%nat ->
                 count_stops i evs
                 = if Nat.leb i (last_tool_index st1) then 1%nat else 0%nat)
      /\ exists body,
           evs = body ++ [message_delta (stop_reason_of [c]) (output_tokens st1);
                          message_stop; Done]
           /\ forallb is_content_event body = true).
Proof.
  unfold on_chunk. intros H Hr.
  destruct (read_usage_shape st c) as [U1 [U2 [U3 U4]]]. specialize (U4 Hr).
  destruct (choices c) as [|choice rest] eqn:Hch.
  { assert (Hf : has_finish c = false) by (unfold has_finish; rewrite Hch; reflexivity).
    assert (Htc : has_tool_calls c = false)
      by (unfold has_tool_calls; rewrite Hch; reflexivity).
    assert (Hct : chunk_text c = None) by (unfold chunk_text; rewrite Hch; reflexivity).
    rewrite Hf, Htc, Hct.
    injection H as <- <- <-. rewrite U2, Nat.sub_diag, (started_same _ _ U1), orb_false_r.
    split; [reflexivity|]. split; [exact U3|]. split; [lia|]. split; [reflexivity|].
    split; [destruct (started st); reflexivity|]. split; [reflexivity|].
    split; [intros _; split; [exact U4 | reflexivity] | discriminate]. }
  (* the text of the chunk *)
  destruct (match content (delta choice) with
            | Some text =>
                if Str.is_empty text then (read_usage st c, [])
                else on_text (read_usage st c) text
            | None => (read_usage st c, [])
            end) as [sa ea] eqn:Ea.
  assert (Ha : tool_index sa = tool_index st
               /\ last_tool_index sa = last_tool_index st
               /\ output_tokens sa = completion_of (output_tokens st) c
               /\ reach sa
               /\ tool_starts ea = []
               /\ forallb is_content_event ea = true
               /\ text_deltas ea
                  = (if started st then []
                     else match content (delta choice) with
                          | Some text => if Str.is_empty text then [] else [text]
                          | None => []
                          end)
               /\ forall i, count_stops i ea = 0%nat).
  { assert (Hkeep : (read_usage st c, @nil event) = (sa, ea) ->
                    tool_index sa = tool_index st
                    /\ last_tool_index sa = last_tool_index st
                    /\ output_tokens sa = completion_of (output_tokens st) c
                    /\ reach sa
                    /\ tool_starts ea = []
                    /\ forallb is_content_event ea = true
                    /\ text_deltas ea = []
                    /\ forall i, count_stops i ea = 0%nat).
    { intros E. injection E as <- <-. conjs; auto. }
    destruct (content (delta choice)) as [text|].
    - destruct (Str.is_empty text).
      + destruct (Hkeep Ea) as [K1 [K2 [K3 [K4 [K5 [K6 [K7 K8]]]]]]].
        conjs; auto. destruct (started st); assumption.
      + destruct (on_text_shape _ _ _ _ Ea) as [T1 [T2 [T3 [T4 [T5 [T6 [T7 [T8 _]]]]]]]].
        destruct (on_text_stops _ _ _ _ Ea) as [_ [_ T9]].
        pose proof (on_text_reach _ _ _ _ Ea U4) as T10.
        split; [congruence|]. split; [congruence|]. split; [congruence|].
        split; [exact T10|]. split; [exact T6|]. split; [exact T7|]. split; [|exact T9].
        rewrite T8, (started_same _ _ U1).
        destruct U4 as [_ U4]. rewrite (started_same _ _ U1) in U4.
        destruct (started st); [reflexivity|].
        destruct U4 as [-> _]. reflexivity.
    - destruct (Hkeep Ea) as [K1 [K2 [K3 [K4 [K5 [K6 [K7 K8]]]]]]].
      conjs; auto. destruct (started st); assumption. }
  destruct Ha as [A1 [A2 [A3 [A4 [A5 [A6 [A7 A8]]]]]]].
  (* the tool calls of the chunk *)
  destruct (match tool_calls (delta choice) with
            | Some (tc :: tcs) =>
                let '(sa0, ea0) := close_text_for_tools sa in
                let '(sb, eb) := on_tool_calls json_dumps tool_uuid sa0 (tc :: tcs) in
                (sb, ea0 ++ eb)
            | _ => (sa, [])
            end) as [sb eb] eqn:Eb.
  assert (Hb : reach sb
               /\ (last_tool_index st <= last_tool_index sb)%nat
               /\ output_tokens sb = completion_of (output_tokens st) c
               /\ tool_starts eb
                  = seq (S (last_tool_index st)) (last_tool_index sb - last_tool_index st)
               /\ forallb is_content_event eb = true
               /\ text_deltas eb = []
               /\ started sb
                  = (started st
                     || match tool_calls (delta choice) with
                        | Some (_ :: _) => true
                        | _ => false
                        end)%bool
               /\ forall i, (1 <= i)%nat -> count_stops i eb = 0%nat).
  { assert (Hkeep : (sa, @nil event) = (sb, eb) ->
                    reach sb
                    /\ (last_tool_index st <= last_tool_index sb)%nat
                    /\ output_tokens sb = completion_of (output_tokens st) c
                    /\ tool_starts eb
                       = seq (S (last_tool_index st))
                           (last_tool_index sb - last_tool_index st)
                    /\ forallb is_content_event eb = true
                    /\ text_deltas eb = []
                    /\ started sb = (started st || false)%bool
                    /\ forall i, (1 <= i)%nat -> count_stops i eb = 0%nat).
    { intros E. injection E as <- <-. rewrite A2, Nat.sub_diag, orb_false_r.
      conjs; auto. apply started_same. exact A1. }
    destruct (tool_calls (delta choice)) as [[|tc tcs]|];
      [exact (Hkeep Eb) | | exact (Hkeep Eb)].
    destruct (close_text_for_tools sa) as [s0 e0] eqn:E0.
    destruct (on_tool_calls json_dumps tool_uuid s0 (tc :: tcs)) as [s1 e1] eqn:E1.
    injection Eb as <- <-.
    destruct (close_text_shape _ _ _ E0 A4) as [C1 [C2 [C3 [C4 [C5 [C6 [C7 C8]]]]]]].
    destruct (close_text_stops _ _ _ E0) as [_ [_ C9]].
    destruct (on_tool_calls_shape _ _ _ _ E1) as [_ [D2 [D3 [D4 [D5 [D6 [D7 D8]]]]]]].
    destruct (on_tool_calls_stops json_dumps tool_uuid _ _ _ _ E1) as [_ [_ D9]].
    assert (Hs0 : (started s0 = true -> 1 <= last_tool_index s0)%nat).
    { rewrite (started_same _ _ C1), C2. apply reach_started. exact A4. }
    destruct (on_tool_calls_started _ _ _ _ _ E1 Hs0) as [D10 D11].
    split.
    { unfold reach. rewrite D10. destruct A4 as [A4 _]. split; [congruence|].
      split; [congruence | exact D11]. }
    split; [lia|]. split; [congruence|]. split; [|split; [|split; [|split]]].
    - unfold tool_starts in *. rewrite collect_app, C6, D6, C2, A2. reflexivity.
    - rewrite forallb_app, C7, D7. reflexivity.
    - unfold text_deltas in *. rewrite collect_app, C8, D8. reflexivity.
    - rewrite D10, orb_true_r. reflexivity.
    - intros i Hi. rewrite count_stops_app, (C9 i Hi), D9. reflexivity. }
  destruct Hb as [B1 [B2 [B3 [B4 [B5 [B6 [B7 B8]]]]]]].
  (* the facts that hold whether or not the chunk has a finish signal *)
  assert (Hstarts : tool_starts (ea ++ eb)
                    = seq (S (last_tool_index st)) (last_tool_index sb - last_tool_index st)).
  { unfold tool_starts in *. rewrite collect_app, A5, B4. reflexivity. }
  assert (Htexts : text_deltas (ea ++ eb)
                   = (if started st then []
                      else match content (delta choice) with
                           | Some text => if Str.is_empty text then [] else [text]
                           | None => []
                           end)).
  { unfold text_deltas in *. rewrite collect_app, A7, B6. apply List.app_nil_r. }
  assert (Hcontent : forallb is_content_event (ea ++ eb) = true).
  { rewrite forallb_app, A6, B5. reflexivity. }
  assert (Hf : has_finish c = match finish_reason choice with
                               | Some reason => negb (Str.is_empty reason)
                               | None => false
                               end)
    by (unfold has_finish; rewrite Hch; reflexivity).
  assert (Htc : has_tool_calls c = match tool_calls (delta choice) with
                                   | Some (_ :: _) => true
                                   | _ => false
                                   end)
    by (unfold has_tool_calls; rewrite Hch; reflexivity).
  assert (Hct : match chunk_text c with Some t => [t] | None => [] end
                = match content (delta choice) with
                  | Some text => if Str.is_empty text then [] else [text]
                  | None => []
                  end).
  { unfold chunk_text. rewrite Hch. destruct (content (delta choice)) as [text|];
      [destruct (Str.is_empty text)|]; reflexivity. }
  assert (Hsr : stop_reason_of [c] = match finish_reason choice with
                                     | Some reason =>
                                         if Str.is_empty reason then "end_turn"
                                         else map_stop_reason reason
                                     | None => "end_turn"
                                     end)
    by (unfold stop_reason_of; rewrite Hch; reflexivity).
  rewrite Hct, Htc, <- B7.
  match goal with
  | |- ?G =>
      assert (Hnone : (sb, ea ++ eb, false) = (st1, evs, returned) ->
                      has_finish c = false -> G)
  end.
  { intros E Hfin. injection E as <- <- <-. rewrite Hfin.
    split; [reflexivity|]. split; [exact B3|]. split; [exact B2|]. split; [exact Hstarts|].
    split; [exact Htexts|]. split; [reflexivity|].
    split; [intros _; split; assumption | discriminate]. }
  destruct (finish_reason choice) as [reason|]; [|exact (Hnone H Hf)].
  destruct (Str.is_empty reason) eqn:Hre; cbn [negb andb] in *; [exact (Hnone H Hf)|].
  clear Hnone. rewrite Hf, Hsr. pose proof B1 as [Bs _]. rewrite Bs in H. cbn [negb] in H.
  injection H as <- <- <-.
  destruct (finish_events_shape sb reason 1 B1 (le_n 1)) as [_ [F2 [F3 [body [F4 F5]]]]].
  split; [reflexivity|]. split; [exact B3|]. split; [exact B2|].
  split.
  { rewrite List.app_assoc. unfold tool_starts in *. rewrite collect_app, F2, List.app_nil_r.
    exact Hstarts. }
  split.
  { rewrite List.app_assoc. unfold text_deltas in *. rewrite collect_app, F3, List.app_nil_r.
    exact Htexts. }
  split; [reflexivity|]. split; [discriminate|]. intros _. split.
  - intros i Hi. rewrite !count_stops_app, A8, (B8 i Hi). cbn [Nat.add].
    destruct (finish_events_shape sb reason i B1 Hi) as [F1 _]. exact F1.
  - exists (ea ++ eb ++ body). split.
    + rewrite F4, <- !List.app_assoc. reflexivity.
    + rewrite !forallb_app, A6, B5, F5. reflexivity.
Qed.

Lemma end_events_shape st :
  reach st ->
  (forall i, (1 <= i)%nat ->
             count_stops i (end_events st)
             = if Nat.leb i (last_tool_index st) then 1%nat else 0%nat)
  /\ tool_starts (end_events st) = []
  /\ text_deltas (end_events st) = []
  /\ exists body,
       end_events st
       = body ++ [message_delta "end_turn" (output_tokens st); message_stop; Done]
       /\ forallb is_content_event body = true.
Proof.
  unfold reach, started, end_events. intros [Hs Hr]. rewrite Hs.
  destruct (tool_index st).
  - destruct Hr as [Hc Hl].
    destruct (tool_starts_stops (tool_indices (last_tool_index st))) as [T1 [T2 T3]].
    split; [|split; [|split]].
    + intros i Hi. rewrite count_stops_app. unfold tool_indices. rewrite count_stops_range.
      replace (count_stops i [content_block_stop 0;
                              message_delta "end_turn" (output_tokens st);
                              message_stop; Done]) with 0%nat
        by (destruct i; [lia | reflexivity]).
      destruct (Nat.leb_spec 1 i), (Nat.ltb_spec i (1 + last_tool_index st)),
        (Nat.leb_spec i (last_tool_index st)); simpl; lia.
    + unfold tool_starts in *. rewrite collect_app, T1. reflexivity.
    + unfold text_deltas in *. rewrite collect_app, T2. reflexivity.
    + exists (List.map content_block_stop (tool_indices (last_tool_index st))
              ++ [content_block_stop 0]).
      split; [rewrite <- List.app_assoc; reflexivity|].
      rewrite forallb_app, T3. reflexivity.
  - destruct Hr as [Hc [Hl Hacc]]. rewrite Hl. cbn [List.app].
    split; [|split; [|split]].
    + intros i Hi. destruct i; [lia | reflexivity].
    + reflexivity.
    + reflexivity.
    + exists [content_block_stop 0]. split; reflexivity.
Qed.

(** The whole loop, from a state that it can be in *)
Lemma process_shape chunks :
  forall st,
    reach st ->
    exists n body,
      (last_tool_index st <= n)%nat
      /\ tool_starts (process json_dumps tool_uuid st chunks)
         = seq (S (last_tool_index st)) (n - last_tool_index st)
      /\ (forall i, (1 <= i)%nat ->
                    count_stops i (process json_dumps tool_uuid st chunks)
                    = if Nat.leb i n then 1%nat else 0%nat)
      /\ text_deltas (process json_dumps tool_uuid st chunks)
         = (if started st then [] else forwarded_texts chunks)
      /\ process json_dumps tool_uuid st chunks
         = body ++ [message_delta (stop_reason_of chunks)
                      (reported_output (output_tokens st) chunks);
                    message_stop; Done]
      /\ forallb is_content_event body = true.
Proof.
  induction chunks as [|c chunks IHc]; intros st Hr.
  - destruct (end_events_shape st Hr) as [E1 [E2 [E3 [body [E4 E5]]]]].
    exists (last_tool_index st), body. cbn [process stop_reason_of reported_output].
    rewrite Nat.sub_diag, E2, E3.
    split; [lia|]. split; [reflexivity|]. split; [exact E1|].
    split; [destruct (started st); reflexivity|]. split; assumption.
  - cbn [process].
    destruct (on_chunk json_dumps tool_uuid st c) as [[st1 evs] returned] eqn:E.
    destruct (on_chunk_shape _ _ _ _ _ E Hr)
      as [S1 [S2 [S3 [S4 [S5 [S6 [S7 S8]]]]]]].
    rewrite stop_reason_of_cons. cbn [forwarded_texts reported_output].
    rewrite <- S1, <- S2.
    destruct returned.
    + destruct (S8 eq_refl) as [Hcount [body [Hb1 Hb2]]].
      exists (last_tool_index st1), body.
      split; [exact S3|]. split; [exact S4|]. split; [exact Hcount|].
      split; [|split; assumption].
      rewrite S5. cbn [orb]. rewrite List.app_nil_r. reflexivity.
    + destruct (S7 eq_refl) as [Hr1 Hcontent].
      destruct (IHc st1 Hr1) as [n [body [I1 [I2 [I3 [I4 [I5 I6]]]]]]].
      destruct (on_chunk_stops json_dumps tool_uuid _ _ _ _ _ E) as [Hfalse _].
      destruct (Hfalse eq_refl) as [_ [_ Hzero]].
      exists n, (evs ++ body).
      split; [lia|]. split; [|split; [|split; [|split]]].
      * unfold tool_starts in *. rewrite collect_app, S4, I2.
        replace (n - last_tool_index st)%nat
          with ((last_tool_index st1 - last_tool_index st) + (n - last_tool_index st1))%nat
          by lia.
        rewrite List.seq_app. f_equal. f_equal. lia.
      * intros i Hi. rewrite count_stops_app, (Hzero i Hi), (I3 i Hi). reflexivity.
      * unfold text_deltas in *. rewrite collect_app, S5, I4, S6. cbn [orb].
        destruct (started st); [reflexivity|]. cbn [orb].
        destruct (has_tool_calls c); reflexivity.
      * rewrite I5, List.app_assoc. reflexivity.
      * rewrite forallb_app, Hcontent, I6. reflexivity.
Qed.

Lemma reach_initial : reach initial.
Proof. unfold reach, started, initial. cbn. auto. Qed.

(** X15. The tool blocks of a stream: whatever the backend sends, the blocks
    that are opened for tool calls carry the indices 1, 2, ... in the order of
    their opening, each of them is closed exactly once, and no block of a
    higher index is closed. *)
Theorem tool_blocks_numbered_and_closed :
  forall message_id model chunks,
    exists n,
      tool_starts (handle_streaming json_dumps tool_uuid message_id model chunks)
      = seq 1 n
      /\ forall i, (1 <= i)%nat ->
           count_stops i (handle_streaming json_dumps tool_uuid message_id model chunks)
           = if Nat.leb i n then 1%nat else 0%nat.
Proof.
  intros message_id model chunks. unfold handle_streaming.
  destruct (process_shape chunks initial reach_initial) as [n [body [_ [H2 [H3 _]]]]].
  exists n. split.
  - unfold tool_starts in *. rewrite collect_app, H2. cbn. rewrite Nat.sub_0_r. reflexivity.
  - intros i Hi. rewrite count_stops_app, (H3 i Hi). reflexivity.
Qed.

(** X16. The text that reaches the client: the text deltas of a stream are
    the texts of the chunks, unchanged and in order, up to the first chunk that
    carries a finish signal or tool calls, that chunk included; text that the
    backend sends after a tool call is not sent, and no text is sent twice. *)
Theorem text_forwarded_until_tools :
  forall message_id model chunks,
    text_deltas (handle_streaming json_dumps tool_uuid message_id model chunks)
    = forwarded_texts chunks.
Proof.
  intros message_id model chunks. unfold handle_streaming.
  destruct (process_shape chunks initial reach_initial) as [n [body [_ [_ [_ [H4 _]]]]]].
  unfold text_deltas in *. rewrite collect_app, H4. reflexivity.
Qed.

(** X17. The envelope of a stream: after [message_start], the opening of block
    0 and the [ping] come events of the content blocks only, and the stream
    ends with one [message_delta], [message_stop] and the [DONE] line. The stop
    reason is that of the first finish signal, [end_turn] without one, and the
    output counter is the last one that a chunk reported up to that signal:
    usage that arrives after the finish signal is not reported. *)
Theorem stream_envelope :
  forall message_id model chunks,
    exists body,
      handle_streaming json_dumps tool_uuid message_id model chunks
      = [message_start message_id model; text_block_start; ping]
        ++ body
        ++ [message_delta (stop_reason_of chunks) (reported_output 0 chunks);
            message_stop; Done]
      /\ forallb is_content_event body = true.
Proof.
  intros message_id model chunks. unfold handle_streaming.
  destruct (process_shape chunks initial reach_initial) as [n [body [_ [_ [_ [_ [H5 H6]]]]]]].
  exists body. split; [|exact H6]. rewrite H5. reflexivity.
Qed.

End StreamShape.

(** ** The tool identifiers of a request, its tool results and its tools *)

Section RequestTools.

Import Request Observe.

Variable json_dumps : json -> string.
Variable py_str : json -> string.

Lemma tool_message_ids_app a b :
  tool_message_ids (a ++ b) = tool_message_ids a ++ tool_message_ids b.
Proof.
  induction a as [|m a IH]; simpl; [reflexivity|].
  destruct (String.eqb (b_role m) "tool"); [|exact IH].
  destruct (b_tool_call_id m); [simpl; rewrite IH; reflexivity | exact IH].
Qed.

Lemma backend_call_ids_app a b :
  backend_call_ids (a ++ b) = backend_call_ids a ++ backend_call_ids b.
Proof. unfold backend_call_ids. apply List.flat_map_app. Qed.

Lemma no_tool_result blocks :
  existsb is_tool_result blocks = false -> tool_result_ids blocks = [].
Proof.
  induction blocks as [|b blocks IH]; simpl; [reflexivity|].
  destruct b; simpl; try exact IH. discriminate.
Qed.

Lemma no_tool_use blocks :
  existsb is_tool_use blocks = false -> tool_use_ids blocks = [].
Proof.
  induction blocks as [|b blocks IH]; simpl; [reflexivity|].
  destruct b; simpl; try exact IH. discriminate.
Qed.

Lemma collect_tool_calls_ids blocks :
  List.map (fun c => (call_id c, call_name c)) (collect_tool_calls json_dumps blocks)
  = tool_use_ids blocks.
Proof.
  induction blocks as [|b blocks IH]; simpl; [reflexivity|].
  destruct b; simpl; try exact IH. rewrite IH. reflexivity.
Qed.

Lemma tool_result_messages_ids blocks :
  forall ms,
    tool_result_messages json_dumps py_str blocks = Ok ms ->
    tool_message_ids ms = tool_result_ids blocks /\ backend_call_ids ms = [].
Proof.
  induction blocks as [|b blocks IH]; simpl; intros ms H.
  - inversion H; subst. split; reflexivity.
  - destruct b as [text|source|id name input|id c].
    + destruct (Str.is_empty (strip text)); [exact (IH ms H)|].
      bind_inv H. inversion H; subst; clear H.
      destruct (IH a Ha) as [H1 H2]. split; [exact H1 | exact H2].
    + exact (IH ms H).
    + exact (IH ms H).
    + bind_inv H. bind_inv H. inversion H; subst; clear H.
      destruct (IH a0 Ha0) as [H1 H2]. split; [simpl; rewrite H1; reflexivity | exact H2].
Qed.

Lemma convert_message_ids m ms :
  convert_message json_dumps py_str m = Ok ms ->
  backend_call_ids ms = assistant_tool_uses [m]
  /\ tool_message_ids ms = user_tool_results [m].
Proof.
  unfold convert_message, assistant_tool_uses, user_tool_results.
  cbn [List.flat_map]. rewrite !List.app_nil_r.
  destruct (content m) as [s|blocks].
  - intros H. inversion H; subst; clear H.
    destruct (role m); split; reflexivity.
  - destruct (role m).
    + destruct (existsb is_tool_result blocks) eqn:Hr.
      * intros H. destruct (tool_result_messages_ids blocks ms H) as [H1 H2].
        split; assumption.
      * intros H. inversion H; subst; clear H.
        rewrite (no_tool_result blocks Hr). split; reflexivity.
    + destruct (existsb is_tool_use blocks) eqn:Hu.
      * intros H. inversion H; subst; clear H. split; [|reflexivity].
        unfold backend_call_ids. cbn. rewrite List.app_nil_r.
        apply collect_tool_calls_ids.
      * intros H. inversion H; subst; clear H.
        rewrite (no_tool_use blocks Hu). split; reflexivity.
Qed.

Lemma convert_conversation_ids msgs :
  forall conv,
    convert_conversation json_dumps py_str msgs = Ok conv ->
    backend_call_ids conv = assistant_tool_uses msgs
    /\ tool_message_ids conv = user_tool_results msgs.
Proof.
  induction msgs as [|m msgs IH]; simpl; intros conv H.
  - inversion H; subst. split; reflexivity.
  - bind_inv H. bind_inv H. inversion H; subst; clear H.
    destruct (convert_message_ids m a Ha) as [H1 H2].
    destruct (IH a0 Ha0) as [H3 H4].
    rewrite backend_call_ids_app, tool_message_ids_app, H1, H2, H3, H4.
    unfold assistant_tool_uses, user_tool_results. cbn [List.flat_map].
    rewrite !List.app_nil_r. split; reflexivity.
Qed.

Lemma system_messages_ids s :
  backend_call_ids (system_messages s) = [] /\ tool_message_ids (system_messages s) = [].
Proof.
  unfold system_messages.
  destruct s as [[text|texts]|]; [| |split; reflexivity].
  - destruct (Str.is_empty text); split; reflexivity.
  - destruct texts; [split; reflexivity|].
    match goal with |- context [if ?c then _ else _] => destruct c end; split; reflexivity.
Qed.

(** X18. The tool identifiers of a conversation are carried over: the tool
    calls of the backend messages are the [tool_use] blocks of the assistant
    turns, with their identifiers and names and in their order, and the
    messages of the [tool] role answer the [tool_result] blocks of the user
    turns, in their order; a [tool_use] block in a user turn and a
    [tool_result] block in an assistant turn leave no trace. *)
Theorem tool_identifiers_carried :
  forall req r,
    convert_anthropic_to_litellm json_dumps py_str req = Ok r ->
    backend_call_ids (l_messages r) = assistant_tool_uses (messages req)
    /\ tool_message_ids (l_messages r) = user_tool_results (messages req).
Proof.
  intros req r H.
  pose proof (convert_keeps_messages json_dumps py_str req r H) as Hm.
  unfold convert_messages in Hm. bind_inv Hm. inversion Hm as [Heq]; clear Hm.
  destruct (convert_conversation_ids (messages req) a Ha) as [H1 H2].
  destruct (system_messages_ids (system req)) as [S1 S2].
  rewrite backend_call_ids_app, tool_message_ids_app, S1, S2, H1, H2.
  split; reflexivity.
Qed.

(** The only failure of the translation of the messages *)

Lemma text_line_err d e :
  text_line d = Err e -> e = TypeError "can only concatenate str".
Proof.
  unfold text_line. destruct (Dict.get "text" d) as [[]|]; intros H; inversion H; reflexivity.
Qed.

Lemma parse_item_err item e :
  parse_item json_dumps py_str item = Err e -> e = TypeError "can only concatenate str".
Proof.
  unfold parse_item. destruct item; try discriminate.
  destruct (has_text_type fields); [apply text_line_err|].
  destruct (Dict.has "text" fields); [apply text_line_err | discriminate].
Qed.

Lemma parse_items_err items :
  forall acc e,
    parse_items json_dumps py_str acc items = Err e ->
    e = TypeError "can only concatenate str".
Proof.
  induction items as [|item items IH]; simpl; intros acc e H; [discriminate|].
  destruct (parse_item json_dumps py_str item) as [line|e0] eqn:Hi; simpl in H.
  - exact (IH _ _ H).
  - inversion H; subst. exact (parse_item_err item e Hi).
Qed.

Lemma parse_items_bad items d v :
  In (JObj d) items -> Dict.get "text" d = Some v -> Schema.str_of v = None ->
  forall acc, parse_items json_dumps py_str acc items
              = Err (TypeError "can only concatenate str").
Proof.
  intros Hin Hget Hv.
  assert (Hbad : parse_item json_dumps py_str (JObj d)
                 = Err (TypeError "can only concatenate str")).
  { unfold parse_item.
    assert (Ht : text_line d = Err (TypeError "can only concatenate str")).
    { unfold text_line. rewrite Hget. destruct v; try reflexivity. discriminate Hv. }
    destruct (has_text_type d); [exact Ht|].
    unfold Dict.has. rewrite Hget. exact Ht. }
  induction items as [|item items IH]; intros acc; [contradiction|].
  simpl. destruct Hin as [->|Hin].
  - rewrite Hbad. reflexivity.
  - destruct (parse_item json_dumps py_str item) as [line|e0] eqn:Hi; simpl.
    + apply IH. exact Hin.
    + rewrite (parse_item_err item e0 Hi). reflexivity.
Qed.

Lemma parse_tool_result_content_err c e :
  parse_tool_result_content json_dumps py_str c = Err e ->
  e = TypeError "can only concatenate str".
Proof.
  unfold parse_tool_result_content. destruct c; try discriminate.
  - intros H. destruct (parse_items json_dumps py_str "" items) as [r|e0] eqn:Hp;
      simpl in H; [discriminate|].
    inversion H; subst. exact (parse_items_err items "" e Hp).
  - destruct (has_text_type fields); [|discriminate].
    destruct (Dict.get "text" fields); discriminate.
Qed.

Lemma tool_result_messages_err blocks :
  forall e,
    tool_result_messages json_dumps py_str blocks = Err e ->
    e = TypeError "can only concatenate str".
Proof.
  induction blocks as [|b blocks IH]; simpl; intros e H; [discriminate|].
  destruct b as [text|source|id name input|id c]; try exact (IH e H).
  - destruct (Str.is_empty (strip text)); [exact (IH e H)|].
    destruct (tool_result_messages json_dumps py_str blocks) as [rest|e0];
      simpl in H; [discriminate|].
    inversion H; subst. apply IH. reflexivity.
  - destruct (parse_tool_result_content json_dumps py_str c) as [parsed|e0] eqn:Hp;
      simpl in H.
    + destruct (tool_result_messages json_dumps py_str blocks) as [rest|e1];
        simpl in H; [discriminate|].
      inversion H; subst. apply IH. reflexivity.
    + inversion H; subst. exact (parse_tool_result_content_err c e Hp).
Qed.

Lemma tool_result_messages_bad blocks id items d v :
  In (ContentBlockToolResult id (JArr items)) blocks ->
  In (JObj d) items -> Dict.get "text" d = Some v -> Schema.str_of v = None ->
  tool_result_messages json_dumps py_str blocks
  = Err (TypeError "can only concatenate str").
Proof.
  intros Hb Hin Hget Hv.
  induction blocks as [|b blocks IH]; [contradiction|].
  destruct Hb as [->|Hb].
  - simpl. rewrite (parse_items_bad items d v Hin Hget Hv ""). reflexivity.
  - specialize (IH Hb). simpl.
    destruct b as [text|source|id0 name input|id0 c]; try exact IH.
    + destruct (Str.is_empty (strip text)); [exact IH|]. rewrite IH. reflexivity.
    + destruct (parse_tool_result_content json_dumps py_str c) as [parsed|e0] eqn:Hp;
        simpl.
      * rewrite IH. reflexivity.
      * rewrite (parse_tool_result_content_err c e0 Hp). reflexivity.
Qed.

Lemma convert_message_err m e :
  convert_message json_dumps py_str m = Err e ->
  e = TypeError "can only concatenate str".
Proof.
  unfold convert_message. destruct (content m) as [s|blocks]; [discriminate|].
  destruct (role m).
  - destruct (existsb is_tool_result blocks); [apply tool_result_messages_err | discriminate].
  - destruct (existsb is_tool_use blocks); discriminate.
Qed.

Lemma convert_conversation_bad msgs m :
  In m msgs ->
  convert_message json_dumps py_str m = Err (TypeError "can only concatenate str") ->
  convert_conversation json_dumps py_str msgs
  = Err (TypeError "can only concatenate str").
Proof.
  intros Hin Hbad. induction msgs as [|m0 msgs IH]; [contradiction|].
  simpl. destruct Hin as [->|Hin].
  - rewrite Hbad. reflexivity.
  - destruct (convert_message json_dumps py_str m0) as [ms|e0] eqn:Hm; simpl.
    + rewrite (IH Hin). reflexivity.
    + rewrite (convert_message_err m0 e0 Hm). reflexivity.
Qed.

(** X19. A tool result given as a list fails the whole translation when one of
    its items is a dictionary whose [text] is no string: the request is not
    translated, [TypeError] is raised by the sum of the text and the line
    break. *)
Theorem tool_result_text_must_be_string :
  forall req m blocks id items d v,
    In m (messages req) ->
    role m = User -> content m = ContentBlocks blocks ->
    In (ContentBlockToolResult id (JArr items)) blocks ->
    In (JObj d) items -> Dict.get "text" d = Some v -> Schema.str_of v = None ->
    convert_anthropic_to_litellm json_dumps py_str req
    = Err (TypeError "can only concatenate str").
Proof.
  intros req m blocks id items d v Hm Hrole Hcontent Hb Hin Hget Hv.
  assert (Hmsg : convert_message json_dumps py_str m
                 = Err (TypeError "can only concatenate str")).
  { unfold convert_message. rewrite Hcontent, Hrole.
    assert (Hex : existsb is_tool_result blocks = true).
    { apply List.existsb_exists. eexists. split; [exact Hb | reflexivity]. }
    rewrite Hex. exact (tool_result_messages_bad blocks id items d v Hb Hin Hget Hv). }
  unfold convert_anthropic_to_litellm, convert_messages.
  rewrite (convert_conversation_bad (messages req) m Hm Hmsg). reflexivity.
Qed.

(** The tools of a request *)






End RequestTools.

Lemma tool_identifiers_carried_witness :
  exists r,
    Request.convert_anthropic_to_litellm (fun _ => "{}") (fun _ => "")
      (Request.basic_request "openai/gpt-4o" 100 None RequestSamples.tool_round) = Ok r
    /\ Observe.backend_call_ids (Request.l_messages r) = [("call_0", "ls")]
    /\ Observe.tool_message_ids (Request.l_messages r) = ["call_0"].
Proof.
  eexists. split; [reflexivity|].
  exact (tool_identifiers_carried (fun _ => "{}") (fun _ => "")
           (Request.basic_request "openai/gpt-4o" 100 None RequestSamples.tool_round)
           _ eq_refl).
Defined.

Lemma tool_result_text_must_be_string_witness :
  Request.convert_anthropic_to_litellm (fun _ => "{}") (fun _ => "")
    (Request.basic_request "openai/gpt-4o" 100 None RequestSamples.bad_result)
  = Err (TypeError "can only concatenate str").
Proof.
  refine (tool_result_text_must_be_string (fun _ => "{}") (fun _ => "")
            (Request.basic_request "openai/gpt-4o" 100 None RequestSamples.bad_result)
            _ _ "call_0" _ [("type", JStr "text"); ("text", JInt 42)] (JInt 42)
            (or_introl eq_refl) eq_refl eq_refl (or_introl eq_refl) (or_introl eq_refl)
            eq_refl eq_refl).
Defined.


(** ** The cleaner of schemas, as a whole *)

Section CleanerContract.

Import Schema.

Lemma has_false_keys {V : Type} k (f : list (string * V)) :
  Dict.has k f = false -> Forall (fun kv => String.eqb k (fst kv) = false) f.
Proof.
  unfold Dict.has. induction f as [|[k0 v0] f IH]; simpl; intros H; [constructor|].
  destruct (String.eqb k k0) eqn:Hk; [discriminate|].
  constructor; [exact Hk | exact (IH H)].
Qed.

Lemma safe_items_fixpoint l :
  Forall (fun j => gemini_safe j = true -> clean_gemini_schema j = Ok j) l ->
  forallb gemini_safe l = true -> clean_items l = Ok l.
Proof.
  induction 1 as [|x l Hx Hl IH]; simpl; intros H; [reflexivity|].
  apply andb_true_iff in H as [H1 H2]. rewrite (Hx H1), (IH H2). reflexivity.
Qed.

Lemma safe_fields_fixpoint f :
  Forall (fun kv => gemini_safe (snd kv) = true -> clean_gemini_schema (snd kv) = Ok (snd kv))
    f ->
  Forall (fun kv => String.eqb "additionalProperties" (fst kv) = false) f ->
  Forall (fun kv => String.eqb "default" (fst kv) = false) f ->
  forallb (fun kv => gemini_safe (snd kv)) f = true ->
  clean_fields false f = Ok f.
Proof.
  induction 1 as [|[k v] f Hv Hf IH]; cbn [clean_fields forallb snd]; intros Ha Hd H;
    [reflexivity|].
  apply andb_true_iff in H as [H1 H2].
  inversion Ha as [|? ? Ha1 Ha2]; subst. inversion Hd as [|? ? Hd1 Hd2]; subst.
  cbn [fst] in Ha1, Hd1. cbn [snd] in Hv. unfold popped. rewrite Ha1, Hd1. cbn [orb andb].
  rewrite (Hv H1), (IH Ha2 Hd2 H2). reflexivity.
Qed.

(** A schema without banned keys is left as it is. *)
Lemma safe_fixpoint :
  forall j, gemini_safe j = true -> clean_gemini_schema j = Ok j.
Proof.
  induction j as [ | b | z | r | s | l IHl | f IHf] using json_induction;
    intros H; try reflexivity.
  - rewrite gemini_safe_arr in H. rewrite clean_arr, (safe_items_fixpoint l IHl H).
    reflexivity.
  - rewrite gemini_safe_obj in H.
    apply andb_true_iff in H as [H H4]. apply andb_true_iff in H as [H H3].
    apply andb_true_iff in H as [H1 H2].
    apply negb_true_iff in H1. apply negb_true_iff in H2.
    assert (Hu : unsupported_format f = Ok false).
    { unfold unsupported_format. destruct (is_string_type f); [|reflexivity].
      destruct (Dict.get "format" f) as [fm|]; [|reflexivity].
      destruct fm; try discriminate H3. simpl. simpl in H3. rewrite H3. reflexivity. }
    rewrite clean_obj, Hu. cbn [bind].
    rewrite (safe_fields_fixpoint f IHf (has_false_keys _ f H1) (has_false_keys _ f H2) H4).
    reflexivity.
Qed.

(** X21. The cleaner on a schema whose formats can be hashed: it returns; what
    it returns has no [additionalProperties] and no [default] at any depth, and
    no format other than [enum] and [date-time] on a dictionary of type
    [string]; it is the input without the removed entries, every other entry
    in its place; and cleaning it again changes nothing. *)
Theorem cleaner_contract :
  forall j,
    formats_hashable j = true ->
    exists j',
      clean_gemini_schema j = Ok j'
      /\ gemini_safe j' = true
      /\ preserved j j'
      /\ clean_gemini_schema j' = Ok j'.
Proof.
  intros j H. destruct (clean_total j H) as [j' Hj'].
  destruct (clean_sound j j' Hj') as [Hs Hp].
  exists j'. split; [exact Hj'|]. split; [exact Hs|]. split; [exact Hp|].
  exact (safe_fixpoint j' Hs).
Qed.

End CleanerContract.

Lemma cleaner_contract_witness :
  exists j',
    Schema.clean_gemini_schema (JObj (Request.input_schema RequestSamples.typed_tool))
    = Ok j'
    /\ Schema.gemini_safe j' = true
    /\ Schema.clean_gemini_schema j' = Ok j'.
Proof.
  destruct (cleaner_contract (JObj (Request.input_schema RequestSamples.typed_tool))
              eq_refl) as [j' [H1 [H2 [_ H4]]]].
  exists j'. split; [exact H1|]. split; [exact H2 | exact H4].
Defined.

(** ** The messages that reach an OpenAI-format backend *)

Section OpenAIMessages.

Import Request Fixup Observe.

Variable json_dumps : json -> string.
Variable py_str : json -> string.
Variable flatten_blocks : list json -> result string.

Lemma fixup_content_settled c c' :
  fixup_content flatten_blocks c = Ok c' ->
  match c' with
  | Some (BStr _) => True
  | Some (BJson (JArr _)) | Some (BJson JNull) => False
  | Some (BJson _) => True
  | Some (BParts _) | None => False
  end.
Proof.
  unfold fixup_content. intros H.
  destruct c as [[s|parts|j]|]; try (inversion H; subst; exact I).
  destruct j; try (inversion H; subst; exact I).
  bind_inv H. inversion H; subst. exact I.
Qed.

Lemma fixup_message_shape m m' :
  fixup_message flatten_blocks m = Ok m' ->
  b_role m' = b_role m /\ b_tool_call_id m' = b_tool_call_id m
  /\ b_tool_calls m' = b_tool_calls m /\ settled m' = true.
Proof.
  unfold fixup_message. intros H. bind_inv H. inversion H; subst; clear H. cbn.
  repeat split. unfold settled. cbn.
  pose proof (fixup_content_settled _ _ Ha) as Hs.
  destruct a as [[s|parts|j]|]; try contradiction; [reflexivity|].
  destruct j; try contradiction; reflexivity.
Qed.

Lemma fixup_messages_shape msgs :
  forall msgs',
    fixup_messages flatten_blocks msgs = Ok msgs' ->
    List.map b_role msgs' = List.map b_role msgs
    /\ List.map b_tool_call_id msgs' = List.map b_tool_call_id msgs
    /\ List.map b_tool_calls msgs' = List.map b_tool_calls msgs
    /\ forallb settled msgs' = true.
Proof.
  induction msgs as [|m msgs IH]; simpl; intros msgs' H.
  - inversion H; subst. repeat split.
  - bind_inv H. bind_inv H. inversion H; subst; clear H.
    destruct (fixup_message_shape m a Ha) as [H1 [H2 [H3 H4]]].
    destruct (IH a0 Ha0) as [I1 [I2 [I3 I4]]].
    cbn. rewrite H1, H2, H3, H4, I1, I2, I3, I4. repeat split.
Qed.


(** Contents that the translator builds when no tool result is a dictionary *)

Lemma parse_plain c j :
  match c with JObj _ => False | _ => True end ->
  parse_tool_result_content json_dumps py_str c = Ok j ->
  exists s, j = JStr s.
Proof.
  unfold parse_tool_result_content. intros Hc H.
  destruct c; try contradiction; try (inversion H; subst; eexists; reflexivity).
  bind_inv H. inversion H; subst. eexists; reflexivity.
Qed.

Lemma tool_result_messages_plain blocks :
  forall ms,
    forallb plain_result blocks = true ->
    tool_result_messages json_dumps py_str blocks = Ok ms ->
    forallb string_content ms = true.
Proof.
  induction blocks as [|b blocks IH]; simpl; intros ms Hp H.
  - inversion H; subst. reflexivity.
  - apply andb_true_iff in Hp as [Hb Hp].
    destruct b as [text|source|id name input|id c].
    + destruct (Str.is_empty (strip text)); [exact (IH ms Hp H)|].
      bind_inv H. inversion H; subst; clear H. cbn. exact (IH a Hp Ha).
    + exact (IH ms Hp H).
    + exact (IH ms Hp H).
    + bind_inv H. bind_inv H. inversion H; subst; clear H.
      assert (Hc : match c with JObj _ => False | _ => True end).
      { destruct c; try exact I. discriminate Hb. }
      destruct (parse_plain c a Hc Ha) as [s ->]. cbn. exact (IH a0 Hp Ha0).
Qed.

Lemma fixup_simple m :
  match b_content m with
  | Some (BJson _) => False
  | _ => True
  end ->
  exists m', fixup_message flatten_blocks m = Ok m' /\ string_content m' = true.
Proof.
  unfold fixup_message, fixup_content. intros H.
  destruct (b_content m) as [[s|parts|j]|]; try contradiction;
    cbn; eexists; (split; [reflexivity|]); reflexivity.
Qed.

Lemma fixup_messages_simple msgs :
  Forall (fun m => match b_content m with
                   | Some (BJson _) => False
                   | _ => True
                   end) msgs ->
  exists msgs',
    fixup_messages flatten_blocks msgs = Ok msgs' /\ forallb string_content msgs' = true.
Proof.
  induction 1 as [|m msgs Hm Hms IH]; simpl.
  - eexists. split; reflexivity.
  - destruct (fixup_simple m Hm) as [m' [H1 H2]]. destruct IH as [msgs' [H3 H4]].
    rewrite H1, H3. cbn. eexists. split; [reflexivity|]. cbn. rewrite H2, H4. reflexivity.
Qed.

Lemma string_content_simple ms :
  forallb string_content ms = true ->
  Forall (fun m => match b_content m with
                   | Some (BJson _) => False
                   | _ => True
                   end) ms.
Proof.
  induction ms as [|m ms IH]; simpl; intros H; [constructor|].
  apply andb_true_iff in H as [H1 H2]. constructor; [|exact (IH H2)].
  unfold string_content in H1. destruct (b_content m) as [[s|parts|j]|]; try exact I.
  discriminate H1.
Qed.

Lemma convert_message_simple m ms :
  match content m with
  | ContentBlocks blocks => forallb plain_result blocks
  | ContentStr _ => true
  end = true ->
  convert_message json_dumps py_str m = Ok ms ->
  Forall (fun m0 => match b_content m0 with
                    | Some (BJson _) => False
                    | _ => True
                    end) ms.
Proof.
  unfold convert_message. intros Hp H.
  destruct (content m) as [s|blocks].
  - inversion H; subst. repeat constructor.
  - destruct (role m).
    + destruct (existsb is_tool_result blocks).
      * apply string_content_simple. exact (tool_result_messages_plain blocks ms Hp H).
      * inversion H; subst. repeat constructor.
    + destruct (existsb is_tool_use blocks); inversion H; subst; repeat constructor.
      unfold assistant_tool_message. cbn.
      destruct (Str.is_empty _); exact I.
Qed.

Lemma convert_conversation_simple msgs :
  forall conv,
    plain_results msgs = true ->
    convert_conversation json_dumps py_str msgs = Ok conv ->
    Forall (fun m0 => match b_content m0 with
                      | Some (BJson _) => False
                      | _ => True
                      end) conv.
Proof.
  induction msgs as [|m msgs IH]; simpl; intros conv Hp H.
  - inversion H; subst. constructor.
  - apply andb_true_iff in Hp as [H1 H2].
    bind_inv H. bind_inv H. inversion H; subst; clear H.
    apply List.Forall_app. split; [exact (convert_message_simple m a H1 Ha)|].
    exact (IH a0 H2 Ha0).
Qed.

Lemma system_messages_simple s :
  Forall (fun m0 => match b_content m0 with
                    | Some (BJson _) => False
                    | _ => True
                    end) (system_messages s).
Proof.
  unfold system_messages.
  destruct s as [[text|texts]|]; [| |constructor].
  - destruct (Str.is_empty text); repeat constructor.
  - destruct texts; [constructor|].
    match goal with |- context [if ?c then _ else _] => destruct c end; repeat constructor.
Qed.

(** X23. When no tool result of the conversation is given as a dictionary,
    the passes over the messages cannot fail, and every message that reaches a
    backend whose model name has [openai] in it has a string as its content:
    the roles and their number are those of the translated request. *)
Theorem openai_messages_are_strings :
  forall target_model req r,
    Str.contains "openai" target_model = true ->
    plain_results (messages req) = true ->
    convert_anthropic_to_litellm json_dumps py_str req = Ok r ->
    exists msgs',
      openai_fixup flatten_blocks target_model (l_messages r) = Ok msgs'
      /\ forallb string_content msgs' = true
      /\ List.map b_role msgs' = List.map b_role (l_messages r).
Proof.
  intros target_model req r Ht Hp H.
  pose proof (convert_keeps_messages json_dumps py_str req r H) as Hm.
  unfold convert_messages in Hm. bind_inv Hm. inversion Hm as [Heq]; clear Hm.
  assert (Hs : Forall (fun m0 => match b_content m0 with
                                 | Some (BJson _) => False
                                 | _ => True
                                 end) (system_messages (system req) ++ a)).
  { apply List.Forall_app. split; [apply system_messages_simple|].
    exact (convert_conversation_simple (messages req) a Hp Ha). }
  destruct (fixup_messages_simple _ Hs) as [msgs' [H1 H2]].
  exists msgs'. unfold openai_fixup. rewrite Ht.
  split; [exact H1|]. split; [exact H2|].
  destruct (fixup_messages_shape _ _ H1) as [H3 _]. exact H3.
Qed.

End OpenAIMessages.


Lemma openai_messages_are_strings_witness :
  exists r msgs',
    Request.convert_anthropic_to_litellm (fun _ => "{}") (fun _ => "")
      (Request.basic_request "gpt-4o" 100 None RequestSamples.tool_round) = Ok r
    /\ Fixup.openai_fixup (fun _ => Ok "") "openai/gpt-4o" (Request.l_messages r)
       = Ok msgs'
    /\ forallb Observe.string_content msgs' = true.
Proof.
  destruct (openai_messages_are_strings (fun _ => "{}") (fun _ => "") (fun _ => Ok "")
              "openai/gpt-4o"
              (Request.basic_request "gpt-4o" 100 None RequestSamples.tool_round)
              _ eq_refl eq_refl eq_refl) as [msgs' [H1 [H2 _]]].
  eexists. exists msgs'. split; [reflexivity|]. split; [exact H1 | exact H2].
Defined.
